(** * Artemis: a time-lapse rig controller (artemis.py)

    A shallow embedding of the [Artemis] class of [artemis.py] and the
    properties of its timing plan, its edit actions, its persisted
    configuration and its capture loop.

    Conventions of the embedding.
    - Python [int] is [Z].  In the object, a Python [float] is kept as
      the exact rational ([Q]) it stands for: an arithmetic identity on
      the object is an identity of exact arithmetic, compared with [==]
      ([Qeq]).  Module [B64] has the planner once more in binary64, as
      Python computes it; what depends on rounding is stated there.
    - A method that can raise returns a [result]; a method that mutates
      [self] and can raise is a function [Artemis -> result * Artemis],
      so the mutations made before the exception stay visible, as in
      Python.
    - The two attributes that are assigned once in [__init__] and never
      again, [shutter_values] and [settle_time], are constants.
    - The display, the GPIO pins and [time.sleep] are observed through a
      trace of events. *)

From Stdlib Require Import ZArith QArith Qabs Lqa Lia String Ascii List Bool.
From Stdlib Require SpecFloat.
From stdpp Require Import gmap strings.
Import ListNotations.

Local Open Scope Z_scope.

(** ** Python primitives *)

Module Py.

Inductive exn : Type :=
| IndexError
| ValueError
| ZeroDivisionError
| TypeError.

Inductive result (A : Type) : Type :=
| Ok (a : A)
| Raise (e : exn).
Arguments Ok {A} a.
Arguments Raise {A} e.

Definition bind {A B} (r : result A) (k : A -> result B) : result B :=
  match r with
  | Ok a => k a
  | Raise e => Raise e
  end.

(** A value held by [shutter_values]: a number or a label. *)
Inductive value : Type :=
| Num (q : Q)
| Str (s : string).

(** [l[i]] on a Python list: a negative index counts from the end,
    anything outside [-len l, len l) raises [IndexError]. *)
Definition index {A} (l : list A) (i : Z) : result A :=
  let n := Z.of_nat (List.length l) in
  let j := if i <? 0 then i + n else i in
  if (0 <=? j) && (j <? n) then
    match nth_error l (Z.to_nat j) with
    | Some x => Ok x
    | None => Raise IndexError
    end
  else Raise IndexError.

(** [c in s] for a one-character [c]. *)
Fixpoint contains (c : ascii) (s : string) : bool :=
  match s with
  | EmptyString => false
  | String a r => Ascii.eqb a c || contains c r
  end.

(** [s.split(c)] for a one-character separator. *)
Fixpoint split (c : ascii) (s : string) : list string :=
  match s with
  | EmptyString => [EmptyString]
  | String a r =>
      if Ascii.eqb a c then EmptyString :: split c r
      else match split c r with
           | h :: t => String a h :: t
           | [] => [String a EmptyString]
           end
  end.

(** [s.replace(c, d)] for one-character [c] and [d]. *)
Fixpoint replace (c d : ascii) (s : string) : string :=
  match s with
  | EmptyString => EmptyString
  | String a r => String (if Ascii.eqb a c then d else a) (replace c d r)
  end.

Definition digit (a : ascii) : option Z :=
  let n := Z.of_nat (nat_of_ascii a) in
  if (48 <=? n) && (n <=? 57) then Some (n - 48) else None.

(** The number written by a string of decimal digits, most significant
    first, continuing from [acc]; [None] if a character is no digit. *)
Fixpoint digits (s : string) (acc : Z) : option Z :=
  match s with
  | EmptyString => Some acc
  | String a r =>
      match digit a with
      | Some d => digits r (10 * acc + d)
      | None => None
      end
  end.

(** [float(s)] on the unsigned decimal literals ["N"], ["N.M"], ["N."]
    and [".M"]; every other string is taken to raise [ValueError]
    (signs, exponents, blanks, [inf] and [nan] do not occur in
    [shutter_values]). *)
Definition float (s : string) : result Q :=
  match split "."%char s with
  | [n] =>
      match n, digits n 0 with
      | String _ _, Some v => Ok (inject_Z v)
      | _, _ => Raise ValueError
      end
  | [n; m] =>
      match (String.length n + String.length m)%nat, digits n 0, digits m 0 with
      | S _, Some vn, Some vm =>
          match m with
          | EmptyString => Ok (inject_Z vn)
          | String _ _ =>
              let scale := Pos.pow 10 (Pos.of_nat (String.length m)) in
              Ok ((vn * Zpos scale + vm) # scale)
          end
      | _, _, _ => Raise ValueError
      end
  | _ => Raise ValueError
  end.

(** [a / b] on numbers. *)
Definition div (a b : Q) : result Q :=
  if Qeq_bool b 0 then Raise ZeroDivisionError else Ok (a / b)%Q.

(** [a > b] and [a < b] on numbers. *)
Definition gt (a b : Q) : bool := negb (Qle_bool a b).
Definition lt (a b : Q) : bool := negb (Qle_bool b a).

(** A value used as an operand of [-], [+] or [<]. *)
Definition number (v : value) : result Q :=
  match v with
  | Num q => Ok q
  | Str _ => Raise TypeError
  end.

End Py.

Notation "'let*' x ':=' r 'in' k" := (Py.bind r (fun x => k))
  (at level 10, x name, r at level 100, k at level 200).

(** ** The shutter table *)

(** The double-quote character (code 34), and the label of the table
    that writes [a], a double quote, then [b]. *)
Definition dquote : ascii := "034"%char.
Definition inch (a b : string) : string := a ++ String dquote b.

Definition shutter_values : list Py.value :=
  [ Py.Str "1/10"; Py.Str "1/8"; Py.Str "1/6"; Py.Str "1/5"; Py.Str "1/4";
    Py.Str (inch "0" "3"); Py.Str (inch "0" "4"); Py.Str (inch "0" "5"); Py.Str (inch "0" "6");
    Py.Str (inch "0" "8"); Py.Num 1; Py.Str (inch "1" "3"); Py.Str (inch "1" "6"); Py.Num 2;
    Py.Str (inch "2" "5"); Py.Num 3; Py.Str (inch "3" "2"); Py.Num 4; Py.Num 5; Py.Num 6;
    Py.Num 7; Py.Num 8; Py.Num 10; Py.Num 13; Py.Num 15; Py.Num 20;
    Py.Num 25; Py.Num 30; Py.Num 35; Py.Num 40; Py.Num 45; Py.Num 50;
    Py.Num 55; Py.Num 60 ].

Definition settle_time : Q := 1 # 10.

(** [Artemis.get_shutter_speed]. *)
Definition get_shutter_speed (position : Z) : Py.result Py.value :=
  let* speed := Py.index shutter_values position in
  match speed with
  | Py.Str s =>
      if Py.contains "/" s then
        let parts := Py.split "/" s in
        let* a0 := Py.index parts 0 in
        let* a1 := Py.index parts 1 in
        let* n := Py.float a0 in
        let* m := Py.float a1 in
        let* q := Py.div n m in
        Py.Ok (Py.Num q)
      else if Py.contains dquote s then
        let* q := Py.float (Py.replace dquote "." s) in
        Py.Ok (Py.Num q)
      else Py.Ok speed
  | Py.Num _ => Py.Ok speed
  end.

(** ** The controller's state *)

(** The methods a [screen] list can hold. *)
Inductive Screen : Type :=
| Scr_main_screen
| Scr_edit_interval
| Scr_edit_frames
| Scr_edit_speed
| Scr_shoot_timelapse
| Scr_stop_timelapse.

(** The attributes of an [Artemis] object that the methods below read
    or write.  [motor_pulse] and [sleep_time] exist from the first
    [calculate_intervals] on, which [__init__] runs. *)
Record Artemis : Type := mkArtemis {
  motor_pin : Z;
  shutter_pin : Z;
  frame : Z;
  frames : Z;
  interval : Z;
  time_to_end : Z;
  shutter_index : Z;
  shutter_speed : Py.value;
  motor_pulse : Q;
  sleep_time : Q;
  screen : list Screen;
  run : bool;
  wait_for_key : bool;
  run_timelapse : bool }.

(** Attribute assignment, [self.x = v]. *)
Definition set_frame (v : Z) (self : Artemis) : Artemis :=
  {| motor_pin := motor_pin self;
     shutter_pin := shutter_pin self;
     frame := v;
     frames := frames self;
     interval := interval self;
     time_to_end := time_to_end self;
     shutter_index := shutter_index self;
     shutter_speed := shutter_speed self;
     motor_pulse := motor_pulse self;
     sleep_time := sleep_time self;
     screen := screen self;
     run := run self;
     wait_for_key := wait_for_key self;
     run_timelapse := run_timelapse self |}.

Definition set_frames (v : Z) (self : Artemis) : Artemis :=
  {| motor_pin := motor_pin self;
     shutter_pin := shutter_pin self;
     frame := frame self;
     frames := v;
     interval := interval self;
     time_to_end := time_to_end self;
     shutter_index := shutter_index self;
     shutter_speed := shutter_speed self;
     motor_pulse := motor_pulse self;
     sleep_time := sleep_time self;
     screen := screen self;
     run := run self;
     wait_for_key := wait_for_key self;
     run_timelapse := run_timelapse self |}.

Definition set_interval (v : Z) (self : Artemis) : Artemis :=
  {| motor_pin := motor_pin self;
     shutter_pin := shutter_pin self;
     frame := frame self;
     frames := frames self;
     interval := v;
     time_to_end := time_to_end self;
     shutter_index := shutter_index self;
     shutter_speed := shutter_speed self;
     motor_pulse := motor_pulse self;
     sleep_time := sleep_time self;
     screen := screen self;
     run := run self;
     wait_for_key := wait_for_key self;
     run_timelapse := run_timelapse self |}.

Definition set_shutter_index (v : Z) (self : Artemis) : Artemis :=
  {| motor_pin := motor_pin self;
     shutter_pin := shutter_pin self;
     frame := frame self;
     frames := frames self;
     interval := interval self;
     time_to_end := time_to_end self;
     shutter_index := v;
     shutter_speed := shutter_speed self;
     motor_pulse := motor_pulse self;
     sleep_time := sleep_time self;
     screen := screen self;
     run := run self;
     wait_for_key := wait_for_key self;
     run_timelapse := run_timelapse self |}.

Definition set_shutter_speed (v : Py.value) (self : Artemis) : Artemis :=
  {| motor_pin := motor_pin self;
     shutter_pin := shutter_pin self;
     frame := frame self;
     frames := frames self;
     interval := interval self;
     time_to_end := time_to_end self;
     shutter_index := shutter_index self;
     shutter_speed := v;
     motor_pulse := motor_pulse self;
     sleep_time := sleep_time self;
     screen := screen self;
     run := run self;
     wait_for_key := wait_for_key self;
     run_timelapse := run_timelapse self |}.

Definition set_motor_pulse (v : Q) (self : Artemis) : Artemis :=
  {| motor_pin := motor_pin self;
     shutter_pin := shutter_pin self;
     frame := frame self;
     frames := frames self;
     interval := interval self;
     time_to_end := time_to_end self;
     shutter_index := shutter_index self;
     shutter_speed := shutter_speed self;
     motor_pulse := v;
     sleep_time := sleep_time self;
     screen := screen self;
     run := run self;
     wait_for_key := wait_for_key self;
     run_timelapse := run_timelapse self |}.

Definition set_sleep_time (v : Q) (self : Artemis) : Artemis :=
  {| motor_pin := motor_pin self;
     shutter_pin := shutter_pin self;
     frame := frame self;
     frames := frames self;
     interval := interval self;
     time_to_end := time_to_end self;
     shutter_index := shutter_index self;
     shutter_speed := shutter_speed self;
     motor_pulse := motor_pulse self;
     sleep_time := v;
     screen := screen self;
     run := run self;
     wait_for_key := wait_for_key self;
     run_timelapse := run_timelapse self |}.

Definition set_screen (v : list Screen) (self : Artemis) : Artemis :=
  {| motor_pin := motor_pin self;
     shutter_pin := shutter_pin self;
     frame := frame self;
     frames := frames self;
     interval := interval self;
     time_to_end := time_to_end self;
     shutter_index := shutter_index self;
     shutter_speed := shutter_speed self;
     motor_pulse := motor_pulse self;
     sleep_time := sleep_time self;
     screen := v;
     run := run self;
     wait_for_key := wait_for_key self;
     run_timelapse := run_timelapse self |}.

Definition set_wait_for_key (v : bool) (self : Artemis) : Artemis :=
  {| motor_pin := motor_pin self;
     shutter_pin := shutter_pin self;
     frame := frame self;
     frames := frames self;
     interval := interval self;
     time_to_end := time_to_end self;
     shutter_index := shutter_index self;
     shutter_speed := shutter_speed self;
     motor_pulse := motor_pulse self;
     sleep_time := sleep_time self;
     screen := screen self;
     run := run self;
     wait_for_key := v;
     run_timelapse := run_timelapse self |}.

Definition set_run_timelapse (v : bool) (self : Artemis) : Artemis :=
  {| motor_pin := motor_pin self;
     shutter_pin := shutter_pin self;
     frame := frame self;
     frames := frames self;
     interval := interval self;
     time_to_end := time_to_end self;
     shutter_index := shutter_index self;
     shutter_speed := shutter_speed self;
     motor_pulse := motor_pulse self;
     sleep_time := sleep_time self;
     screen := screen self;
     run := run self;
     wait_for_key := wait_for_key self;
     run_timelapse := v |}.

(** Methods that mutate [self] and may raise: the state reached is
    returned in both cases. *)
Definition M (A : Type) : Type := Artemis -> Py.result A * Artemis.

Definition ret {A} (a : A) : M A := fun self => (Py.Ok a, self).

Definition bindM {A B} (c : M A) (k : A -> M B) : M B :=
  fun self =>
    match c self with
    | (Py.Ok a, self') => k a self'
    | (Py.Raise e, self') => (Py.Raise e, self')
    end.

(** Evaluate an expression over [self] that may raise. *)
Definition eval {A} (f : Artemis -> Py.result A) : M A :=
  fun self => (f self, self).

(** Run an assignment. *)
Definition assign (f : Artemis -> Artemis) : M unit :=
  fun self => (Py.Ok tt, f self).

Notation "'let!' x ':=' c 'in' k" := (bindM c (fun x => k))
  (at level 10, x name, c at level 100, k at level 200).
Notation "c ';;' k" := (bindM c (fun _ => k))
  (at level 100, k at level 200, right associativity).

(** ** The interval planner *)

(** [Artemis.calculate_intervals], the durations as exact rationals;
    [B64.calculate_intervals] below computes them in binary64. *)
Definition calculate_intervals : M unit :=
  let! pulse := eval (fun self =>
      Py.div (inject_Z (time_to_end self)) (inject_Z (frames self))) in
  assign (set_motor_pulse pulse) ;;
  let! speed := eval (fun self => get_shutter_speed (shutter_index self)) in
  assign (set_shutter_speed speed) ;;
  let! cap := eval (fun self =>
      let* s := Py.number (shutter_speed self) in
      Py.Ok (inject_Z (interval self) - s - settle_time)%Q) in
  assign (fun self =>
      if Py.gt (motor_pulse self) cap then set_motor_pulse cap self else self) ;;
  let! sleep := eval (fun self =>
      let* s := Py.number (shutter_speed self) in
      Py.Ok (inject_Z (interval self) - motor_pulse self - s)%Q) in
  assign (set_sleep_time sleep).

(** [Artemis.check_settings]. *)
Definition check_settings (self : Artemis) : bool :=
  if Py.lt (sleep_time self) 0
     || Py.gt (motor_pulse self) (inject_Z (interval self))
     || Py.gt (motor_pulse self + sleep_time self)%Q (inject_Z (interval self))
  then false
  else true.

(** ** The interval planner in binary64 *)

(** Lines 81-89 and 112-126 once more, on the values Python computes
    with: an [int] is exact, a [float] is an IEEE 754 binary64 with
    round to nearest even ([SpecFloat], precision 53, [emax] 1024), and
    an operation on an [int] and a [float] converts the [int] first. *)
Module B64.

Definition prec : Z := 53.
Definition emax : Z := 1024.

Inductive exn : Type :=
| IndexError
| ValueError
| ZeroDivisionError
| TypeError
| OverflowError.

Inductive result (A : Type) : Type :=
| Ok (a : A)
| Raise (e : exn).
Arguments Ok {A} a.
Arguments Raise {A} e.

Definition bind {A B} (r : result A) (k : A -> result B) : result B :=
  match r with
  | Ok a => k a
  | Raise e => Raise e
  end.

(** What the other primitives raise, here. *)
Definition lift {A} (r : Py.result A) : result A :=
  match r with
  | Py.Ok a => Ok a
  | Py.Raise Py.IndexError => Raise IndexError
  | Py.Raise Py.ValueError => Raise ValueError
  | Py.Raise Py.ZeroDivisionError => Raise ZeroDivisionError
  | Py.Raise Py.TypeError => Raise TypeError
  end.

(** A value of the planner: an [int], a [float], or a label of the
    table that [get_shutter_speed] hands back as it is. *)
Inductive value : Type :=
| Int (z : Z)
| Flt (f : SpecFloat.spec_float)
| Str (s : string).

(** The binary64 nearest to an integer, infinite when there is none. *)
Definition nearest (z : Z) : SpecFloat.spec_float :=
  SpecFloat.binary_normalize prec emax z 0 false.

(** [float(z)] on an [int]: [OverflowError] when it is too large. *)
Definition of_int (z : Z) : result SpecFloat.spec_float :=
  match nearest z with
  | SpecFloat.S754_infinity _ => Raise OverflowError
  | f => Ok f
  end.

(** [float(s)] on a decimal literal of the kind [Py.float] reads: the
    quotient of the digits, the point dropped, by the power of ten.
    It is the binary64 nearest to the literal as long as both are below
    2^53, as they are for every label of the table. *)
Definition float (s : string) : result SpecFloat.spec_float :=
  match Py.float s with
  | Py.Ok q => Ok (SpecFloat.SFdiv prec emax (nearest (Qnum q)) (nearest (Zpos (Qden q))))
  | Py.Raise _ => Raise ValueError
  end.

(** The literal [0.1] of line 60. *)
Definition settle_time : SpecFloat.spec_float :=
  SpecFloat.SFdiv prec emax (nearest 1) (nearest 10).

(** An operand of [-], [+], [/] or a comparison as a [float]. *)
Definition to_float (v : value) : result SpecFloat.spec_float :=
  match v with
  | Int z => of_int z
  | Flt f => Ok f
  | Str _ => Raise TypeError
  end.

(** [a - b] and [a + b]: exact on two [int]s, in binary64 otherwise. *)
Definition sub (a b : value) : result value :=
  match a, b with
  | Int x, Int y => Ok (Int (x - y))
  | _, _ =>
      bind (to_float a) (fun f =>
      bind (to_float b) (fun g => Ok (Flt (SpecFloat.SFsub prec emax f g))))
  end.

Definition add (a b : value) : result value :=
  match a, b with
  | Int x, Int y => Ok (Int (x + y))
  | _, _ =>
      bind (to_float a) (fun f =>
      bind (to_float b) (fun g => Ok (Flt (SpecFloat.SFadd prec emax f g))))
  end.

Definition is_zero (f : SpecFloat.spec_float) : bool :=
  match f with
  | SpecFloat.S754_zero _ => true
  | _ => false
  end.

(** [a / b] with a [float] divisor. *)
Definition truediv (a : value) (b : SpecFloat.spec_float) : result value :=
  bind (to_float a) (fun f =>
  if is_zero b then Raise ZeroDivisionError
  else Ok (Flt (SpecFloat.SFdiv prec emax f b))).

(** The rational a finite [float] is. *)
Definition exact (f : SpecFloat.spec_float) : Q :=
  match f with
  | SpecFloat.S754_finite s m e =>
      let v := if s then Zneg m else Zpos m in
      match e with
      | Z0 => inject_Z v
      | Zpos p => inject_Z (v * 2 ^ Zpos p)
      | Zneg p => v # (2 ^ p)
      end
  | _ => 0%Q
  end.

(** [f < z] and [z < f] for a [float] and an [int]: Python compares
    the two exactly. *)
Definition float_lt_int (f : SpecFloat.spec_float) (z : Z) : bool :=
  match f with
  | SpecFloat.S754_nan => false
  | SpecFloat.S754_infinity s => s
  | _ => negb (Qle_bool (inject_Z z) (exact f))
  end.

Definition int_lt_float (z : Z) (f : SpecFloat.spec_float) : bool :=
  match f with
  | SpecFloat.S754_nan => false
  | SpecFloat.S754_infinity s => negb s
  | _ => negb (Qle_bool (exact f) (inject_Z z))
  end.

(** [a < b] and [a > b]. *)
Definition lt (a b : value) : result bool :=
  match a, b with
  | Int x, Int y => Ok (x <? y)
  | Flt f, Flt g => Ok (SpecFloat.SFltb f g)
  | Flt f, Int y => Ok (float_lt_int f y)
  | Int x, Flt g => Ok (int_lt_float x g)
  | _, _ => Raise TypeError
  end.

Definition gt (a b : value) : result bool := lt b a.

(** [Artemis.get_shutter_speed]. *)
Definition get_shutter_speed (position : Z) : result value :=
  bind (lift (Py.index shutter_values position)) (fun speed =>
  match speed with
  | Py.Str s =>
      if Py.contains "/" s then
        let parts := Py.split "/" s in
        bind (lift (Py.index parts 0)) (fun a0 =>
        bind (lift (Py.index parts 1)) (fun a1 =>
        bind (float a0) (fun n =>
        bind (float a1) (fun m => truediv (Flt n) m))))
      else if Py.contains dquote s then
        bind (float (Py.replace dquote "." s)) (fun f => Ok (Flt f))
      else Ok (Str s)
  | Py.Num q => Ok (Int (Qnum q))   (* the bare entries are [int]s *)
  end).

(** The three attributes [calculate_intervals] assigns. *)
Record plan : Type := mkPlan {
  shutter_speed : value;
  motor_pulse : value;
  sleep_time : value }.

(** Line 113, and the right-hand side of line 116. *)
Definition travel (self : Artemis) : result value :=
  bind (of_int (frames self)) (fun f => truediv (Int (time_to_end self)) f).

Definition cap (self : Artemis) (speed : value) : result value :=
  bind (sub (Int (interval self)) speed) (fun d => sub d (Flt settle_time)).

(** The test of line 116: the cap applies. *)
Definition capped (self : Artemis) : result bool :=
  bind (travel self) (fun pulse =>
  bind (get_shutter_speed (shutter_index self)) (fun speed =>
  bind (cap self speed) (fun c => gt pulse c))).

(** [Artemis.calculate_intervals]: the plan it leaves, when it
    returns. *)
Definition calculate_intervals (self : Artemis) : result plan :=
  bind (travel self) (fun pulse =>
  bind (get_shutter_speed (shutter_index self)) (fun speed =>
  bind (cap self speed) (fun c =>
  bind (gt pulse c) (fun over =>
  let pulse := if over then c else pulse in
  bind (sub (Int (interval self)) pulse) (fun d =>
  bind (sub d speed) (fun sleep =>
  Ok {| shutter_speed := speed; motor_pulse := pulse; sleep_time := sleep |})))))).

(** [Artemis.check_settings] on a plan. *)
Definition check_settings (self : Artemis) (p : plan) : result bool :=
  bind (lt (sleep_time p) (Int 0)) (fun negative =>
  if negative then Ok false
  else
    bind (gt (motor_pulse p) (Int (interval self))) (fun long =>
    if long then Ok false
    else
      bind (add (motor_pulse p) (sleep_time p)) (fun total =>
      bind (gt total (Int (interval self))) (fun over =>
      Ok (negb over))))).

(** The plan when the cap applies: it depends on the interval and the
    shutter index only. *)
Definition capped_plan (self : Artemis) : result plan :=
  bind (get_shutter_speed (shutter_index self)) (fun speed =>
  bind (cap self speed) (fun c =>
  bind (sub (Int (interval self)) c) (fun d =>
  bind (sub d speed) (fun sleep =>
  Ok {| shutter_speed := speed; motor_pulse := c; sleep_time := sleep |})))).

(** [a == b] on numbers. *)
Definition eq (a b : value) : result bool :=
  match a, b with
  | Int x, Int y => Ok (x =? y)
  | Flt f, Flt g => Ok (SpecFloat.SFeqb f g)
  | Flt f, Int y => Ok (negb (float_lt_int f y) && negb (int_lt_float y f)
                        && match f with SpecFloat.S754_nan => false | _ => true end)
  | Int x, Flt g => Ok (negb (float_lt_int g x) && negb (int_lt_float x g)
                        && match g with SpecFloat.S754_nan => false | _ => true end)
  | _, _ => Ok false
  end.

(** An [int], or a [float] that is neither infinite nor a NaN. *)
Definition finite (v : value) : bool :=
  match v with
  | Int _ => true
  | Flt (SpecFloat.S754_zero _) | Flt (SpecFloat.S754_finite _ _ _) => true
  | _ => false
  end.

(** The rational a number is; 0 for what is none. *)
Definition rational (v : value) : Q :=
  match v with
  | Int z => inject_Z z
  | Flt f => exact f
  | Str _ => 0%Q
  end.



End B64.

(** ** Edit actions *)

(** [Artemis.increase_interval]. *)
Definition increase_interval (self : Artemis) : Artemis :=
  if negb (interval self =? 30) then set_interval (interval self + 1) self
  else self.

(** [Artemis.decrease_interval]. *)
Definition decrease_interval (self : Artemis) : Artemis :=
  if interval self >? 1 then set_interval (interval self - 1) self
  else self.

(** [Artemis.increase_frames]. *)
Definition increase_frames (self : Artemis) : Artemis :=
  set_frames (frames self + 1) self.

(** [Artemis.decrease_frames]. *)
Definition decrease_frames (self : Artemis) : Artemis :=
  if negb (frames self =? 1) then set_frames (frames self - 1) self
  else self.

(** [Artemis.increase_speed]. *)
Definition increase_speed (self : Artemis) : Artemis :=
  if shutter_index self <? Z.of_nat (List.length shutter_values) - 1
  then set_shutter_index (shutter_index self + 1) self
  else self.

(** [Artemis.decrease_speed]. *)
Definition decrease_speed (self : Artemis) : Artemis :=
  if shutter_index self >? 0 then set_shutter_index (shutter_index self - 1) self
  else self.

(** ** The persisted configuration *)

(** What [~/.artemisrc] holds.  A file that parses is read at the type
    its interface gives it: a flat JSON object whose values are
    integers.  [Unparsable] is any content on which [json.load] raises
    [ValueError]. *)
Inductive file : Type :=
| Missing
| Unparsable
| Json (config : gmap string Z).

(** [Artemis.save_config]: the content of the file afterwards. *)
Definition save_config (self : Artemis) : file :=
  Json (<["frames" := frames self]>
        (<["interval" := interval self]>
         (<["shutter" := shutter_index self]> ∅))).

(** [Artemis.load_config]; it returns [False] ([Some false]) or falls
    off the end ([None]). *)
Definition load_config (f : file) : M (option bool) :=
  match f with
  | Missing => ret None
  | Unparsable => ret (Some false)
  | Json config =>
      assign (fun self =>
        match config !! "frames" with
        | Some v => set_frames v self
        | None => self
        end) ;;
      assign (fun self =>
        match config !! "interval" with
        | Some v => set_interval v self
        | None => self
        end) ;;
      match config !! "shutter" with
      | Some v =>
          assign (set_shutter_index v) ;;
          let! speed := eval (fun self => get_shutter_speed (shutter_index self)) in
          assign (set_shutter_speed speed) ;;
          ret None
      | None => ret None
      end
  end.

(** [Artemis.__init__] with the file found at [config_file]; an
    exception leaves no object. *)
Definition init (shutter_pin motor_pin frames interval shutter_index time_to_end : Z)
    (f : file) : Py.result Artemis :=
  let* speed := get_shutter_speed shutter_index in
  let self :=
    {| motor_pin := motor_pin; shutter_pin := shutter_pin; frame := 1;
       frames := frames; interval := interval; time_to_end := time_to_end;
       shutter_index := shutter_index; shutter_speed := speed;
       motor_pulse := 0; sleep_time := 0; screen := [Scr_main_screen];
       run := true; wait_for_key := true; run_timelapse := true |} in
  match (load_config f ;; calculate_intervals) self with
  | (Py.Ok _, self) => Py.Ok self
  | (Py.Raise e, _) => Py.Raise e
  end.

(** [Artemis(shutter_pin=3, motor_pin=7)], as [__main__] builds it. *)
Definition artemis (f : file) : Py.result Artemis := init 3 7 5 2 2 160 f.

(** ** The capture run *)

Inductive level : Type := LOW | HIGH.

(** What the display, the pins and the clock see of a run. *)
Inductive event : Type :=
| Show_starting (pause : Z)
| Show_timelapse (frame frames : Z)
| DigitalWrite (pin : Z) (l : level)
| Sleep (seconds : Q).

(** [time.sleep(seconds)]: a negative length raises [ValueError]. *)
Definition sleep (seconds : Q) : Py.result (list event) :=
  if Py.lt seconds 0 then Py.Raise Py.ValueError else Py.Ok [Sleep seconds].

(** [Artemis.set_stop_timelapse], the handler the watcher thread
    ([stop_timelapse]) registers for the cancel key. *)
Definition set_stop_timelapse (self : Artemis) : Artemis :=
  set_run_timelapse false self.

(** [Artemis.set_shoot_timelapse]. *)
Definition set_shoot_timelapse (self : Artemis) : Artemis :=
  set_screen [Scr_shoot_timelapse; Scr_stop_timelapse] self.

(** The statements of [shoot_timelapse], with [delayed_start],
    [take_photo] and [move_camera] inlined.  The runner thread is at one
    of them. *)
Inductive point : Type :=
| P_check_settings            (* 269-272 *)
| P_delayed_start (pause : Z) (* 262-266, called at 274 *)
| P_reset                     (* 276-277 *)
| P_first_screen              (* 279-280 *)
| P_while                     (* 282 *)
| P_timelapse_screen          (* 283 *)
| P_shutter_high              (* 316 *)
| P_shutter_sleep             (* 317 *)
| P_shutter_low               (* 318 *)
| P_next_frame                (* 286 *)
| P_last_frame                (* 287-290 *)
| P_first_frame               (* 292 *)
| P_first_sleep               (* 293-294 *)
| P_motor_high                (* 321 *)
| P_motor_sleep               (* 322 *)
| P_motor_low                 (* 323 *)
| P_settle                    (* 324 *)
| P_sleep                     (* 297 *)
| P_main_screen               (* 299-300 *)
| P_return (r : Py.result bool).

(** A statement that only sleeps: on to [next], or out with the
    exception. *)
Definition sleeping (seconds : Py.result Q) (next : point) (self : Artemis)
  : point * Artemis * list event :=
  match (let* q := seconds in sleep q) with
  | Py.Ok evs => (next, self, evs)
  | Py.Raise e => (P_return (Py.Raise e), self, [])
  end.

(** One statement of the runner thread: where it goes, the state it
    leaves and what it shows, writes or sleeps. *)
Definition step (p : point) (self : Artemis) : point * Artemis * list event :=
  match p with
  | P_check_settings =>
      if negb (check_settings self) then
        (P_return (Py.Ok false),
         set_screen [Scr_main_screen] (set_run_timelapse false self), [])
      else (P_delayed_start 5, self, [])
  | P_delayed_start pause =>
      if pause >? 0 then
        (P_delayed_start (pause - 1), self, [Show_starting pause; Sleep 1])
      else (P_reset, self, [])
  | P_reset => (P_first_screen, set_run_timelapse true (set_frame 1 self), [])
  | P_first_screen =>
      (P_while, self, [Show_timelapse (frame self) (frames self); Sleep (1 # 2)])
  | P_while =>
      if run_timelapse self then (P_timelapse_screen, self, [])
      else (P_main_screen, self, [])
  | P_timelapse_screen =>
      (P_shutter_high, self, [Show_timelapse (frame self) (frames self)])
  | P_shutter_high =>
      (P_shutter_sleep, self, [DigitalWrite (shutter_pin self) HIGH])
  | P_shutter_sleep =>
      sleeping (Py.number (shutter_speed self)) P_shutter_low self
  | P_shutter_low =>
      (P_next_frame, self, [DigitalWrite (shutter_pin self) LOW])
  | P_next_frame => (P_last_frame, set_frame (frame self + 1) self, [])
  | P_last_frame =>
      if frame self >? frames self then
        (P_main_screen, set_wait_for_key false (set_run_timelapse false self), [])
      else (P_first_frame, self, [])
  | P_first_frame =>
      if frame self =? 1 then (P_first_sleep, self, [])
      else (P_motor_high, self, [])
  | P_first_sleep => sleeping (Py.Ok (motor_pulse self)) P_while self
  | P_motor_high =>
      (P_motor_sleep, self, [DigitalWrite (motor_pin self) HIGH])
  | P_motor_sleep => sleeping (Py.Ok (motor_pulse self)) P_motor_low self
  | P_motor_low => (P_settle, self, [DigitalWrite (motor_pin self) LOW])
  | P_settle => sleeping (Py.Ok settle_time) P_sleep self
  | P_sleep => sleeping (Py.Ok (sleep_time self)) P_while self
  | P_main_screen =>
      (P_return (Py.Ok true), set_screen [Scr_main_screen] self, [])
  | P_return r => (P_return r, self, [])
  end.

(** The runner thread, its object and the trace so far. *)
Definition config : Type := point * Artemis * list event.

Definition runner_step (c : config) : config :=
  let '(p, self, tr) := c in
  let '(p', self', evs) := step p self in
  (p', self', tr ++ evs).

(** [Artemis.stop_timelapse], the watcher thread, writes the shared
    state twice: [run_timelapse] through [set_stop_timelapse] when it
    handles the cancel key, and [wait_for_key] (line 308) when it
    leaves its loop. *)
Definition leave_stop_timelapse (self : Artemis) : Artemis :=
  set_wait_for_key true self.

(** Who moves next in a run: the runner by one statement, or the
    watcher by one of its two writes. *)
Inductive thread : Type := Runner | Cancel | Leave.

Definition move (c : config) (t : thread) : config :=
  match t with
  | Runner => runner_step c
  | Cancel => let '(p, self, tr) := c in (p, set_stop_timelapse self, tr)
  | Leave => let '(p, self, tr) := c in (p, leave_stop_timelapse self, tr)
  end.

Definition exec (schedule : list thread) (c : config) : config :=
  fold_left move schedule c.

(** [Artemis.shoot_timelapse] run alone for [fuel] statements. *)
Definition shoot_timelapse (fuel : nat) (self : Artemis) : config :=
  exec (repeat Runner fuel) (P_check_settings, self, []).

(** ** Specification vocabulary *)

(** The three attributes the edit screens change, and all the others. *)
Definition configuration (self : Artemis) : Z * Z * Z :=
  (frames self, interval self, shutter_index self).

Definition other_attributes (self : Artemis) :=
  (motor_pin self, shutter_pin self, frame self, time_to_end self,
   shutter_speed self, motor_pulse self, sleep_time self, screen self,
   run self, wait_for_key self, run_timelapse self).

(** An index into the table, as the configuration's invariant has it. *)
Definition valid_index (i : Z) : Prop :=
  0 <= i < Z.of_nat (List.length shutter_values).

(** The invariants of a configuration: a positive frame count, an
    interval between 1 and 30, an index into the table. *)
Definition configuration_ok (self : Artemis) : Prop :=
  1 <= frames self /\ 1 <= interval self <= 30 /\ valid_index (shutter_index self).

(** How a table entry reads as seconds: a fraction label [N/M] as N
    over M, a label [N], double quote, [M] as N point M, a bare number
    as itself. *)
Inductive reads : Py.value -> Q -> Prop :=
| reads_fraction (N M : string) (n m : Z) (q : Q) :
    N <> EmptyString -> M <> EmptyString ->
    Py.digits N 0 = Some n -> Py.digits M 0 = Some m -> m <> 0 ->
    (q == inject_Z n / inject_Z m)%Q ->
    reads (Py.Str (N ++ String "/" M)) q
| reads_decimal (N M : string) (n m : Z) (q : Q) :
    N <> EmptyString -> M <> EmptyString ->
    Py.digits N 0 = Some n -> Py.digits M 0 = Some m ->
    (q == inject_Z n + inject_Z m / inject_Z (10 ^ Z.of_nat (String.length M)))%Q ->
    reads (Py.Str (inch N M)) q
| reads_number (n : Q) : reads (Py.Num n) n.

(** A configuration file whose values, where present, are in range. *)
Definition file_ok (f : file) : Prop :=
  match f with
  | Missing | Unparsable => True
  | Json config =>
      (forall v, config !! "frames" = Some v -> 1 <= v) /\
      (forall v, config !! "interval" = Some v -> 1 <= v <= 30) /\
      (forall v, config !! "shutter" = Some v -> valid_index v)
  end.

(** The compiled-in defaults of [__main__], before the first plan, with
    the frame count, interval and shutter index given. *)
Definition defaults (frames interval shutter_index : Z) : Artemis :=
  {| motor_pin := 7; shutter_pin := 3; frame := 1;
     frames := frames; interval := interval; time_to_end := 160;
     shutter_index := shutter_index; shutter_speed := Py.Num 0;
     motor_pulse := 0; sleep_time := 0; screen := [Scr_main_screen];
     run := true; wait_for_key := true; run_timelapse := true |}.

(** Scenario A: 5 frames, a 2 second interval, a 1 second exposure. *)
Definition scenario_A : Artemis := defaults 5 2 10.

(** Scenario B: 5 frames, a 2 second interval, a 2 second exposure. *)
Definition scenario_B : Artemis := defaults 5 2 13.

(** The intervals and the shutter indices of a configuration. *)
Definition intervals : list Z := map Z.of_nat (seq 1 30).
Definition indices : list Z := map Z.of_nat (seq 0 34).

(** A test of the capped plan at every interval and index of a
    configuration. *)
Definition every_capped_plan (test : Z -> B64.plan -> bool) : bool :=
  forallb
    (fun i =>
       forallb
         (fun k =>
            match B64.capped_plan (defaults 1 i k) with
            | B64.Ok p => test i p
            | B64.Raise _ => false
            end) indices) intervals.

Definition is_true (r : B64.result bool) : bool :=
  match r with
  | B64.Ok true => true
  | _ => false
  end.

Definition is_false (r : B64.result bool) : bool :=
  match r with
  | B64.Ok false => true
  | _ => false
  end.

(** The plan [calculate_intervals] leaves in binary64, when it
    returns. *)
Definition plan_of (self : Artemis) : B64.plan :=
  match B64.calculate_intervals self with
  | B64.Ok p => p
  | B64.Raise _ =>
      {| B64.shutter_speed := B64.Int 0; B64.motor_pulse := B64.Int 0;
         B64.sleep_time := B64.Int 0 |}
  end.

(** [|a - b| <= d]. *)
Definition within (d a b : Q) : bool := Qle_bool (Qabs (a - b)) d.

(** The capped plan sleeps the settle time up to rounding, not the
    settle time, and [check_settings] accepts it. *)
Definition sleeps_about_settle_time (i : Z) (p : B64.plan) : bool :=
  B64.finite (B64.sleep_time p) &&
  within (1 # 2 ^ 48) (B64.rational (B64.sleep_time p))
    (B64.exact B64.settle_time) &&
  is_false (B64.eq (B64.sleep_time p) (B64.Flt B64.settle_time)) &&
  negb (Qle_bool (B64.rational (B64.sleep_time p)) 0) &&
  is_true (B64.check_settings (defaults 1 i 0) p).


(** The pulse length before the cap, [time_to_end / float(frames)]. *)
Definition travel_share (self : Artemis) : Q :=
  (inject_Z (time_to_end self) / inject_Z (frames self))%Q.

(** A plan the run can sleep on: a numeric exposure, no negative
    duration, and two distinct pins. *)
Definition plan_ok (self : Artemis) : Prop :=
  (exists e, shutter_speed self = Py.Num e /\ (0 <= e)%Q) /\
  (0 <= motor_pulse self)%Q /\
  (0 <= sleep_time self)%Q /\
  shutter_pin self <> motor_pin self.

Definition level_eqb (a b : level) : bool :=
  match a, b with
  | LOW, LOW | HIGH, HIGH => true
  | _, _ => false
  end.

Definition is_write (pin : Z) (l : level) (ev : event) : bool :=
  match ev with
  | DigitalWrite p l' => (p =? pin) && level_eqb l' l
  | _ => false
  end.

(** How often a trace drives [pin] to [l]. *)
Definition writes (pin : Z) (l : level) (tr : list event) : nat :=
  List.length (List.filter (is_write pin l) tr).

(** Exposures started and exposures completed in a trace. *)
Definition exposures_started (self : Artemis) (tr : list event) : nat :=
  writes (shutter_pin self) HIGH tr.

Definition exposures_completed (self : Artemis) (tr : list event) : nat :=
  writes (shutter_pin self) LOW tr.

(** Carriage moves started and completed in a trace. *)
Definition moves_started (self : Artemis) (tr : list event) : nat :=
  writes (motor_pin self) HIGH tr.

Definition moves_completed (self : Artemis) (tr : list event) : nat :=
  writes (motor_pin self) LOW tr.

(** 1 at the statements where the shutter pin is high. *)
Definition exposing (p : point) : nat :=
  match p with
  | P_shutter_sleep | P_shutter_low => 1
  | _ => 0
  end.

(** 1 at the statements where the motor pin is high. *)
Definition moving (p : point) : nat :=
  match p with
  | P_motor_sleep | P_motor_low => 1
  | _ => 0
  end.

(** 1 where an exposure is complete and [frame] not yet advanced. *)
Definition uncounted (p : point) : Z :=
  match p with
  | P_next_frame => 1
  | _ => 0
  end.


(** The least value [frame] can have at a statement of the loop. *)
Definition min_frame (p : point) : Z :=
  match p with
  | P_last_frame | P_first_frame | P_motor_high | P_motor_sleep
  | P_motor_low | P_settle | P_sleep => 2
  | _ => 1
  end.


(** What holds of a run of [shoot_timelapse] on a plan without
    negative durations, whatever the watcher does. *)
Definition run_invariant (c : config) : Prop :=
  let '(p, self, tr) := c in
  plan_ok self /\
  match p with
  | P_check_settings => tr = []
  | P_delayed_start _ | P_reset => forall pin l, writes pin l tr = 0%nat
  | P_return (Py.Ok false) => tr = []
  | P_return (Py.Raise _) => False
  | P_first_sleep => False
  | _ =>
      exposures_started self tr = (exposures_completed self tr + exposing p)%nat /\
      moves_started self tr = (moves_completed self tr + moving p)%nat /\
      Z.of_nat (exposures_completed self tr) + 1 = frame self + uncounted p /\
      min_frame p <= frame self
  end /\
  match p with
  | P_return (Py.Ok _) => screen self = [Scr_main_screen]
  | _ => True
  end.




Definition at_point (c : config) : point := fst (fst c).

(** A run on a refused plan: nothing shown, written or slept, and the
    runner either still at its test or back with [False]. *)
Definition refusing (c : config) : Prop :=
  let '(p, self, tr) := c in
  tr = [] /\
  ((p = P_check_settings /\ check_settings self = false) \/
   (p = P_return (Py.Ok false) /\ screen self = [Scr_main_screen] /\
    run_timelapse self = false)).

(** The plan of Scenario A, and the same plan for a run of 2 frames. *)
Definition plan_A : Artemis := snd (calculate_intervals scenario_A).
Definition plan_A2 : Artemis := snd (calculate_intervals (defaults 2 2 10)).

Definition runner_moves (schedule : list thread) : nat :=
  List.length
    (List.filter (fun t => match t with Runner => true | _ => false end)
       schedule).

(** ** The display and the menu *)

(** The methods the screens register as key handlers. *)
Inductive Handler : Type :=
| H_set_edit_interval_screen
| H_set_shoot_timelapse
| H_set_edit_frames_screen
| H_increase_interval
| H_decrease_interval
| H_set_edit_speed_screen
| H_increase_frames
| H_decrease_frames
| H_set_main_screen
| H_increase_speed
| H_decrease_speed
| H_set_stop_timelapse.

(** The attributes of a [Display]: [active] is [False] ([None]) or a
    handler. *)
Record Display : Type := mkDisplay {
  active : option Handler;
  key_handler : gmap string Handler }.

(** What a screen method sends to [Display.show], by the values it
    formats into its two lines. *)
Inductive Message : Type :=
| Msg_main (interval frames : Z) (label : Py.value)
| Msg_interval (interval : Z)
| Msg_frames (frames : Z)
| Msg_speed (label : Py.value).

(** What the menu shows and sleeps. *)
Inductive ui_event : Type :=
| Shown (m : Message)
| Waited (seconds : Q).

(** The object, its display, the file at [config_file] and what the
    menu has shown and slept so far, latest first. *)
Record Rig : Type := mkRig {
  art : Artemis;
  display : Display;
  config_file : file;
  log : list ui_event }.

Definition with_art (f : Artemis -> Artemis) (r : Rig) : Rig :=
  {| art := f (art r); display := display r;
     config_file := config_file r; log := log r |}.

Definition with_display (f : Display -> Display) (r : Rig) : Rig :=
  {| art := art r; display := f (display r);
     config_file := config_file r; log := log r |}.

Definition logged (ev : ui_event) (r : Rig) : Rig :=
  {| art := art r; display := display r;
     config_file := config_file r; log := ev :: log r |}.

(** [self.save_config()] on the rig: the file is rewritten. *)
Definition saved (r : Rig) : Rig :=
  {| art := art r; display := display r;
     config_file := save_config (art r); log := log r |}.

(** [Display.show]. *)
Definition show (m : Message) (r : Rig) : Rig := logged (Shown m) r.

(** [Display.register_keys]; [None] stands for an argument that is not
    a dict.  It returns [False] then, and falls off the end
    otherwise. *)
Definition register_keys (keys : option (gmap string Handler)) (r : Rig)
  : option bool * Rig :=
  let r := with_display (fun _ => {| active := None; key_handler := ∅ |}) r in
  match keys with
  | None => (Some false, r)
  | Some keys =>
      (None,
       with_display (fun d => {| active := active d; key_handler := keys |}) r)
  end.

(** A call of a handler: what it returns, [None] when it falls off the
    end. *)
Definition call (h : Handler) (r : Rig) : Py.result (option bool) * Rig :=
  match h with
  | H_set_edit_interval_screen =>
      (Py.Ok None, with_art (set_screen [Scr_edit_interval]) r)
  | H_set_shoot_timelapse => (Py.Ok None, with_art set_shoot_timelapse r)
  | H_set_edit_frames_screen =>
      (Py.Ok (Some true), with_art (set_screen [Scr_edit_frames]) (saved r))
  | H_increase_interval => (Py.Ok None, with_art increase_interval r)
  | H_decrease_interval => (Py.Ok None, with_art decrease_interval r)
  | H_set_edit_speed_screen =>
      (Py.Ok (Some true), with_art (set_screen [Scr_edit_speed]) (saved r))
  | H_increase_frames => (Py.Ok None, with_art increase_frames r)
  | H_decrease_frames => (Py.Ok None, with_art decrease_frames r)
  | H_set_main_screen =>
      let r := saved r in
      match calculate_intervals (art r) with
      | (Py.Ok _, a) =>
          (Py.Ok (Some true), with_art (fun _ => set_screen [Scr_main_screen] a) r)
      | (Py.Raise e, a) => (Py.Raise e, with_art (fun _ => a) r)
      end
  | H_increase_speed => (Py.Ok None, with_art increase_speed r)
  | H_decrease_speed => (Py.Ok None, with_art decrease_speed r)
  | H_set_stop_timelapse => (Py.Ok (Some true), with_art set_stop_timelapse r)
  end.

(** How a method that polls the keys ends: it returns, it raises, it
    is still polling when the keys given are used up, or it is still
    looping when the fuel is. *)
Inductive outcome (A : Type) : Type :=
| Returned (a : A)
| Raised (e : Py.exn)
| Starved
| Unfinished.
Arguments Returned {A} a.
Arguments Raised {A} e.
Arguments Starved {A}.
Arguments Unfinished {A}.

Definition of_result {A} (r : Py.result A) : outcome A :=
  match r with
  | Py.Ok a => Returned a
  | Py.Raise e => Raised e
  end.

(** [not key] on what [getKey] returns: nothing, or a string. *)
Definition no_key (key : option string) : bool :=
  match key with
  | None => true
  | Some s => String.eqb s EmptyString
  end.

(** The truth value of what a handler returns. *)
Definition truthy (v : option bool) : bool :=
  match v with
  | Some true => true
  | _ => false
  end.

(** [Display.get_key], given what the coming calls of [getKey] return.
    It also returns the polls it has not used. *)
Fixpoint get_key (polls : list (option string)) (r : Rig)
  : outcome (option bool) * Rig * list (option string) :=
  if negb (wait_for_key (art r)) then (Returned None, r, polls)
  else
    match polls with
    | [] => (Starved, r, [])
    | key :: rest =>
        let r := logged (Waited (1 # 10)) r in
        if no_key key then
          match active (display r) with
          | Some h => let '(v, r') := call h r in (of_result v, r', rest)
          | None => get_key rest r
          end
        else
          match active (display r) with
          | None =>
              match key_handler (display r) !! default EmptyString key with
              | Some h =>
                  let r :=
                    with_display
                      (fun d => {| active := Some h;
                                   key_handler := key_handler d |}) r in
                  let '(v, r') := call h r in (of_result v, r', rest)
              | None => get_key rest r
              end
          | Some _ =>
              get_key rest
                (with_display
                   (fun d => {| active := None;
                                key_handler := key_handler d |}) r)
          end
    end.

(** [Artemis.interval_screen], [frames_screen] and [speed_screen]. *)
Definition interval_screen (r : Rig) : Py.result Rig :=
  Py.Ok (show (Msg_interval (interval (art r))) r).

Definition frames_screen (r : Rig) : Py.result Rig :=
  Py.Ok (show (Msg_frames (frames (art r))) r).

Definition speed_screen (r : Rig) : Py.result Rig :=
  let* label := Py.index shutter_values (shutter_index (art r)) in
  Py.Ok (show (Msg_speed label) r).

(** The loop of the three edit screens: [get_key] until a handler
    returns a true value, the screen drawn again after each call. *)
Fixpoint edit_loop (draw : Rig -> Py.result Rig) (fuel : nat)
    (polls : list (option string)) (r : Rig)
  : outcome bool * Rig * list (option string) :=
  match fuel with
  | O => (Unfinished, r, polls)
  | S fuel' =>
      match get_key polls r with
      | (Returned v, r', rest) =>
          if truthy v then (Returned true, r', rest)
          else match draw r' with
               | Py.Ok r'' => edit_loop draw fuel' rest r''
               | Py.Raise e => (Raised e, r', rest)
               end
      | (Raised e, r', rest) => (Raised e, r', rest)
      | (Starved, r', rest) => (Starved, r', rest)
      | (Unfinished, r', rest) => (Unfinished, r', rest)
      end
  end.

Definition interval_keys : gmap string Handler :=
  <["A" := H_set_edit_frames_screen]>
    (<["C" := H_increase_interval]> (<["D" := H_decrease_interval]> ∅)).

Definition frames_keys : gmap string Handler :=
  <["A" := H_set_edit_speed_screen]>
    (<["C" := H_increase_frames]> (<["D" := H_decrease_frames]> ∅)).

Definition speed_keys : gmap string Handler :=
  <["A" := H_set_main_screen]>
    (<["C" := H_increase_speed]> (<["D" := H_decrease_speed]> ∅)).

Definition main_keys : gmap string Handler :=
  <["A" := H_set_edit_interval_screen]> (<["C" := H_set_shoot_timelapse]> ∅).

(** An edit screen: draw, register, loop. *)
Definition edit_screen (draw : Rig -> Py.result Rig)
    (keys : gmap string Handler) (fuel : nat)
    (polls : list (option string)) (r : Rig)
  : outcome bool * Rig * list (option string) :=
  match draw r with
  | Py.Ok r1 => edit_loop draw fuel polls (snd (register_keys (Some keys) r1))
  | Py.Raise e => (Raised e, r, polls)
  end.

(** [Artemis.edit_interval], [edit_frames] and [edit_speed]. *)
Definition edit_interval := edit_screen interval_screen interval_keys.
Definition edit_frames := edit_screen frames_screen frames_keys.
Definition edit_speed := edit_screen speed_screen speed_keys.

(** [Artemis.main_screen]: what [get_key] returns is dropped. *)
Definition main_screen (polls : list (option string)) (r : Rig)
  : outcome bool * Rig * list (option string) :=
  match Py.index shutter_values (shutter_index (art r)) with
  | Py.Ok label =>
      let r1 := show (Msg_main (interval (art r)) (frames (art r)) label) r in
      let r2 := snd (register_keys (Some main_keys) r1) in
      match get_key polls r2 with
      | (Returned _, r', rest) => (Returned true, r', rest)
      | (Raised e, r', rest) => (Raised e, r', rest)
      | (Starved, r', rest) => (Starved, r', rest)
      | (Unfinished, r', rest) => (Unfinished, r', rest)
      end
  | Py.Raise e => (Raised e, r, polls)
  end.

(** Where [Artemis.main] stands when it is looked at. *)
Inductive standing : Type :=
| Armed        (* the screen list is a run: runner and watcher *)
| Waiting      (* a screen polls and the keys given are used up *)
| Looping      (* a screen loops without polling *)
| Off          (* [run] is down *)
| Running.     (* out of fuel between two screens *)

(** [Artemis.main] with [start_threads], as far as the screen list
    holds one of the four menu screens: the screen is run to its end
    and the loop goes on, also when the screen raised.  The loop of an
    edit screen gets as much fuel as there are polls left, and one
    more. *)
Fixpoint main (fuel : nat) (polls : list (option string)) (r : Rig)
  : standing * Rig * list (option string) :=
  match fuel with
  | O => (Running, r, polls)
  | S fuel' =>
      if negb (run (art r)) then (Off, r, polls)
      else
        let go (res : outcome bool * Rig * list (option string)) :=
          match res with
          | (Returned _, r', rest) => main fuel' rest r'
          | (Raised _, r', rest) => main fuel' rest r'
          | (Starved, r', rest) => (Waiting, r', rest)
          | (Unfinished, r', rest) => (Looping, r', rest)
          end in
        match screen (art r) with
        | [Scr_main_screen] => go (main_screen polls r)
        | [Scr_edit_interval] =>
            go (edit_interval (S (List.length polls)) polls r)
        | [Scr_edit_frames] => go (edit_frames (S (List.length polls)) polls r)
        | [Scr_edit_speed] => go (edit_speed (S (List.length polls)) polls r)
        | _ => (Armed, r, polls)
        end
  end.

(** The rig as [__main__] has it once the object is built. *)
Definition rig (a : Artemis) (f : file) : Rig :=
  {| art := a; display := {| active := None; key_handler := ∅ |};
     config_file := f; log := [] |}.

(** ** The watcher thread and the two threads of a run *)

(** The keys [stop_timelapse] registers. *)
Definition cancel_keys : gmap string Handler :=
  <["C" := H_set_stop_timelapse]> ∅.

(** The statements of [stop_timelapse]; the watcher thread is at one
    of them.  A round of the loop of [get_key] is one statement. *)
Inductive wpoint : Type :=
| W_register_keys                 (* 303 *)
| W_while                         (* 305 *)
| W_get_key                       (* 306, and a round of 32-46 *)
| W_leave                         (* 308 *)
| W_return (r : Py.result bool).  (* 309 *)

(** One statement of the watcher thread.  A round of [get_key] takes
    the next poll, if it comes to poll; with no poll left to take it
    stays where it is. *)
Definition watcher_step (w : wpoint) (polls : list (option string)) (r : Rig)
  : wpoint * Rig * list (option string) :=
  match w with
  | W_register_keys =>
      (W_while, snd (register_keys (Some cancel_keys) r), polls)
  | W_while =>
      if run_timelapse (art r) then (W_get_key, r, polls)
      else (W_leave, r, polls)
  | W_get_key =>
      match get_key (firstn 1 polls) r with
      | (Returned v, r', unread) =>
          (if truthy v then W_leave else W_while, r', unread ++ skipn 1 polls)
      | (Raised e, r', unread) =>
          (W_return (Py.Raise e), r', unread ++ skipn 1 polls)
      | (Starved, r', _) => (W_get_key, r', skipn 1 polls)
      | (Unfinished, r', _) => (W_get_key, r', skipn 1 polls)
      end
  | W_leave => (W_return (Py.Ok true), with_art leave_stop_timelapse r, polls)
  | W_return x => (W_return x, r, polls)
  end.

(** [Artemis.stop_timelapse] run alone for [fuel] statements, from the
    statement [w] on. *)
Fixpoint watch (fuel : nat) (w : wpoint) (polls : list (option string)) (r : Rig)
  : wpoint * Rig * list (option string) :=
  match fuel with
  | O => (w, r, polls)
  | S fuel' =>
      let '(w', r', polls') := watcher_step w polls r in
      watch fuel' w' polls' r'
  end.

Definition stop_timelapse (fuel : nat) (polls : list (option string)) (r : Rig)
  : wpoint * Rig * list (option string) :=
  watch fuel W_register_keys polls r.

(** The two threads [start_threads] runs for the screen list of a run:
    where each is, the rig they share, the polls not yet taken and
    what the runner has shown, written and slept. *)
Record Threads : Type := mkThreads {
  runner : point;
  watcher : wpoint;
  shared : Rig;
  unread : list (option string);
  events : list event }.

(** Whose turn it is: each thread moves by one statement. *)
Inductive turn : Type := Run | Watch.

Definition take_turn (s : Threads) (t : turn) : Threads :=
  match t with
  | Run =>
      let '(p', self', evs) := step (runner s) (art (shared s)) in
      {| runner := p'; watcher := watcher s;
         shared := with_art (fun _ => self') (shared s);
         unread := unread s; events := events s ++ evs |}
  | Watch =>
      let '(w', r', polls') := watcher_step (watcher s) (unread s) (shared s) in
      {| runner := runner s; watcher := w'; shared := r';
         unread := polls'; events := events s |}
  end.

(** [Artemis.start_threads] on the screen list of a run: both threads
    at their first statement, then the turns of [schedule]. *)
Definition spawn (polls : list (option string)) (r : Rig) : Threads :=
  {| runner := P_check_settings; watcher := W_register_keys;
     shared := r; unread := polls; events := [] |}.

Definition turns (schedule : list turn) (s : Threads) : Threads :=
  fold_left take_turn schedule s.

Definition start_threads (schedule : list turn) (polls : list (option string))
    (r : Rig) : Threads :=
  turns schedule (spawn polls r).

(** Both threads have ended: [start_threads] has joined them. *)
Definition joined (s : Threads) : bool :=
  match runner s, watcher s with
  | P_return _, W_return _ => true
  | _, _ => false
  end.

(** ** Vocabulary of the further properties *)

(** What the display shows: the message sent last. *)
Fixpoint last_shown (l : list ui_event) : option Message :=
  match l with
  | [] => None
  | Shown m :: _ => Some m
  | Waited _ :: l' => last_shown l'
  end.

(** [n] polls that called nothing: a tenth of a second each. *)
Fixpoint polled (n : nat) (r : Rig) : Rig :=
  match n with
  | O => r
  | S n' => polled n' (logged (Waited (1 # 10)) r)
  end.

(** The display holds the keys of a screen, and as its active handler
    one of that screen if any. *)
Definition registered (keys : gmap string Handler) (r : Rig) : Prop :=
  key_handler (display r) = keys /\
  forall h, active (display r) = Some h -> exists k, keys !! k = Some h.

(** An edit screen is on: of the object [a0] it was entered with, only
    the attribute it edits has changed, within its bounds [ok]; the
    file is as it was. *)
Definition editing (set : Z -> Artemis -> Artemis) (ok : Z -> Prop)
    (a0 : Artemis) (f0 : file) (a : Artemis) (f : file) : Prop :=
  (exists v, ok v /\ a = set v a0) /\ f = f0.

(** An edit screen has been left for the screen [next]: the
    configuration is saved. *)
Definition left_for (next : Screen) (set : Z -> Artemis -> Artemis)
    (ok : Z -> Prop) (a0 : Artemis) (a : Artemis) (f : file) : Prop :=
  exists v, ok v /\ a = set_screen [next] (set v a0) /\ f = save_config a.

(** The speed screen has been left for the main screen: the
    configuration is saved and the plan computed anew. *)
Definition left_for_main (a0 : Artemis) (a : Artemis) (f : file) : Prop :=
  exists v plan,
    valid_index v /\
    calculate_intervals (set_shutter_index v a0) = (Py.Ok tt, plan) /\
    a = set_screen [Scr_main_screen] plan /\ f = save_config a.

(** The table entry the speed and main screens format. *)
Definition label_at (i : Z) : Py.value :=
  nth (Z.to_nat i) shutter_values (Py.Num 0).

(** The plan is fresh: [calculate_intervals] would change nothing. *)
Definition planned (a : Artemis) : Prop :=
  calculate_intervals a = (Py.Ok tt, a).

(** The screen list holds one screen of the menu. *)
Definition menu_screen (s : list Screen) : Prop :=
  s = [Scr_main_screen] \/ s = [Scr_edit_interval] \/
  s = [Scr_edit_frames] \/ s = [Scr_edit_speed].

(** The screen list [set_shoot_timelapse] sets: runner and watcher. *)
Definition run_screen : list Screen :=
  [Scr_shoot_timelapse; Scr_stop_timelapse].

(** The menu is in order: both flags of the loops are up, the
    configuration is in range, the screen list is one the menu sets,
    and on the main screen and at the start of a run the plan is
    fresh. *)
Definition menu_ok (r : Rig) : Prop :=
  run (art r) = true /\
  wait_for_key (art r) = true /\
  configuration_ok (art r) /\
  (menu_screen (screen (art r)) \/ screen (art r) = run_screen) /\
  (screen (art r) = [Scr_main_screen] \/ screen (art r) = run_screen ->
   planned (art r)).

(** On the main screen: a handler of it has set the next screen, or
    none was called yet. *)
Definition on_main (a0 : Artemis) (f0 : file) (a : Artemis) (f : file) : Prop :=
  (a = a0 \/ a = set_screen [Scr_edit_interval] a0 \/ a = set_shoot_timelapse a0)
  /\ f = f0.

(** How often the menu has slept. *)
Fixpoint waits (l : list ui_event) : nat :=
  match l with
  | [] => O
  | Waited _ :: l' => S (waits l')
  | Shown _ :: l' => waits l'
  end.

(** Nothing but the display has changed, and the menu has not slept. *)
Definition only_shown (r r' : Rig) : Prop :=
  art r' = art r /\ config_file r' = config_file r /\
  waits (log r') = waits (log r).

(** The runner's side of the two threads. *)
Definition runner_side (s : Threads) : config :=
  (runner s, art (shared s), events s).

(** The turns a schedule gives to a thread. *)
Definition runs (schedule : list turn) : nat :=
  List.length
    (List.filter (fun t => match t with Run => true | Watch => false end)
       schedule).

Definition watches (schedule : list turn) : nat :=
  List.length
    (List.filter (fun t => match t with Watch => true | Run => false end)
       schedule).

(** The writes of the watcher in a schedule of moves on the object. *)
Definition watcher_writes (schedule : list thread) : list thread :=
  List.filter (fun t => match t with Runner => false | _ => true end) schedule.

(** The runner has left its loop. *)
Definition past_exit (p : point) : Prop :=
  match p with
  | P_main_screen | P_return _ => True
  | _ => False
  end.

(** A poll that [get_key] passes over while no handler is active:
    no key, or a key that is not registered. *)
Definition idle_poll (keys : gmap string Handler) (key : option string) : bool :=
  no_key key ||
  match keys !! default EmptyString key with
  | Some _ => false
  | None => true
  end.

(** The watcher's side of a run in which the cancel key does not come
    in: it leaves its loop only after the runner has left its own. *)
Definition watching (s : Threads) : Prop :=
  forallb (idle_poll cancel_keys) (unread s) = true /\
  match watcher s with
  | W_register_keys => True
  | W_while | W_get_key =>
      key_handler (display (shared s)) = cancel_keys /\
      active (display (shared s)) = None
  | W_leave => past_exit (runner s)
  | W_return (Py.Ok true) =>
      past_exit (runner s) /\ wait_for_key (art (shared s)) = true
  | W_return _ => False
  end /\
  (run_timelapse (art (shared s)) = false -> past_exit (runner s)) /\
  check_settings (art (shared s)) = true.

(** The runner's side is that of the runner alone after [k]
    statements, but for [wait_for_key]. *)
Definition runs_alone (c0 : config) (k : nat) (s : Threads) : Prop :=
  let c := exec (repeat Runner k) c0 in
  runner s = at_point c /\ events s = snd c /\
  exists b, art (shared s) = set_wait_for_key b (snd (fst c)).

(** Scenario A with its plan, armed from the main screen. *)
Definition armed_A : Rig := rig (set_shoot_timelapse plan_A) Missing.

(** What [delayed_start(pause)] shows and sleeps: the count from
    [pause] down to 1, a second apart. *)
Fixpoint countdown_events (pause : nat) : list event :=
  match pause with
  | O => []
  | S k => Show_starting (Z.of_nat (S k)) :: Sleep 1 :: countdown_events k
  end.

(** The progress screen and the exposure of frame [f]. *)
Definition exposure_events (self : Artemis) (e : Q) (f : Z) : list event :=
  [Show_timelapse f (frames self);
   DigitalWrite (shutter_pin self) HIGH; Sleep e;
   DigitalWrite (shutter_pin self) LOW].

(** A carriage move, its settle time and the idle sleep. *)
Definition carriage_events (self : Artemis) : list event :=
  [DigitalWrite (motor_pin self) HIGH; Sleep (motor_pulse self);
   DigitalWrite (motor_pin self) LOW; Sleep settle_time;
   Sleep (sleep_time self)].

(** [k] frames from frame [f] on: an exposure each, a carriage move
    between two of them. *)
Fixpoint frames_events (self : Artemis) (e : Q) (f : Z) (k : nat) : list event :=
  match k with
  | O => []
  | S k' =>
      exposure_events self e f ++
      match k' with
      | O => []
      | S _ => carriage_events self ++ frames_events self e (f + 1) k'
      end
  end.

(** The seconds a trace sleeps. *)
Fixpoint duration (tr : list event) : Q :=
  match tr with
  | [] => 0
  | Sleep q :: tr' => q + duration tr'
  | _ :: tr' => duration tr'
  end.

(** The frames a run makes: [frames], and 1 when [frames] is less. *)
Definition frames_made (self : Artemis) : nat := Z.to_nat (Z.max 1 (frames self)).

(** How an uncancelled run leaves the object. *)
Definition after_run (self : Artemis) : Artemis :=
  set_screen [Scr_main_screen]
    (set_wait_for_key false
       (set_run_timelapse false
          (set_frame (Z.of_nat (frames_made self) + 1) self))).

(** ** The shutter table: facts *)

Lemma index_in_range {A} (l : list A) (i : Z) :
  0 <= i < Z.of_nat (List.length l) ->
  Py.index l i = match nth_error l (Z.to_nat i) with
                 | Some x => Py.Ok x
                 | None => Py.Raise Py.IndexError
                 end.
Proof.
  intros H. unfold Py.index.
  destruct (Z.ltb_spec i 0); [lia|].
  destruct (Z.leb_spec 0 i); [|lia].
  destruct (Z.ltb_spec i (Z.of_nat (List.length l))); [|lia].
  reflexivity.
Qed.

Lemma index_from_end {A} (l : list A) (i : Z) :
  - Z.of_nat (List.length l) <= i < 0 ->
  Py.index l i = Py.index l (i + Z.of_nat (List.length l)).
Proof.
  intros H. unfold Py.index.
  destruct (Z.ltb_spec i 0); [|lia].
  destruct (Z.ltb_spec (i + Z.of_nat (List.length l)) 0); [lia|].
  reflexivity.
Qed.

Lemma index_outside {A} (l : list A) (i : Z) :
  i < - Z.of_nat (List.length l) \/ Z.of_nat (List.length l) <= i ->
  Py.index l i = Py.Raise Py.IndexError.
Proof.
  intros H. unfold Py.index.
  destruct (Z.ltb_spec i 0).
  - destruct (Z.leb_spec 0 (i + Z.of_nat (List.length l))); [lia|]. reflexivity.
  - destruct (Z.leb_spec 0 i); [|lia].
    destruct (Z.ltb_spec i (Z.of_nat (List.length l))); [lia|]. reflexivity.
Qed.

Lemma valid_index_cases (i : Z) :
  valid_index i -> In i (map Z.of_nat (seq 0 34)).
Proof.
  unfold valid_index.
  change (Z.of_nat (List.length shutter_values)) with 34.
  intros H. apply in_map_iff. exists (Z.to_nat i). split; [lia|].
  apply in_seq. lia.
Qed.

(** Every entry of the table resolves to a positive number. *)
Lemma get_shutter_speed_positive (i : Z) :
  valid_index i ->
  exists e, get_shutter_speed i = Py.Ok (Py.Num e) /\ (0 < e)%Q.
Proof.
  intros H. apply valid_index_cases in H. simpl in H.
  repeat (destruct H as [<- | H];
          [eexists; split; [vm_compute; reflexivity | reflexivity] |]).
  contradiction.
Qed.

(** ** The interval planner: facts *)

Lemma gt_true (a b : Q) : Py.gt a b = true <-> (b < a)%Q.
Proof.
  unfold Py.gt. rewrite negb_true_iff. split; intros H.
  - apply Qnot_le_lt. intros Hle. apply Qle_bool_iff in Hle. congruence.
  - destruct (Qle_bool a b) eqn:E; [|reflexivity].
    apply Qle_bool_iff in E. exfalso. apply (Qlt_not_le _ _ H). exact E.
Qed.

Lemma gt_false (a b : Q) : Py.gt a b = false <-> (a <= b)%Q.
Proof.
  unfold Py.gt. rewrite negb_false_iff. apply Qle_bool_iff.
Qed.

Lemma lt_gt (a b : Q) : Py.lt a b = Py.gt b a.
Proof. reflexivity. Qed.

Lemma div_nonzero (a : Q) (n : Z) :
  n <> 0 -> Py.div a (inject_Z n) = Py.Ok (a / inject_Z n)%Q.
Proof.
  intros H. unfold Py.div.
  destruct (Qeq_bool (inject_Z n) 0) eqn:E; [|reflexivity].
  apply Qeq_bool_eq in E. unfold Qeq in E. simpl in E. lia.
Qed.

(** The plan that [calculate_intervals] leaves, spelled out. *)
Lemma calculate_intervals_plan (self : Artemis) (e : Q) :
  frames self <> 0 ->
  get_shutter_speed (shutter_index self) = Py.Ok (Py.Num e) ->
  exists self',
    calculate_intervals self = (Py.Ok tt, self') /\
    shutter_speed self' = Py.Num e /\
    interval self' = interval self /\
    frames self' = frames self /\
    shutter_index self' = shutter_index self /\
    motor_pulse self' =
      (let cap := (inject_Z (interval self) - e - settle_time)%Q in
       if Py.gt (travel_share self) cap then cap else travel_share self) /\
    sleep_time self' = (inject_Z (interval self) - motor_pulse self' - e)%Q.
Proof.
  intros Hf He.
  unfold calculate_intervals, bindM, eval, assign. simpl.
  rewrite (div_nonzero _ _ Hf), He. simpl.
  fold (travel_share self).
  destruct (Py.gt (travel_share self)
              (inject_Z (interval self) - e - settle_time)) eqn:Hcap;
    eexists; repeat split; simpl; rewrite ?Hcap; reflexivity.
Qed.

(** After [calculate_intervals], [check_settings] accepts whatever the
    configuration is, provided the exposure is not negative. *)
Lemma check_settings_after_plan (self self' : Artemis) (e : Q) :
  frames self <> 0 ->
  get_shutter_speed (shutter_index self) = Py.Ok (Py.Num e) ->
  (0 <= e)%Q ->
  calculate_intervals self = (Py.Ok tt, self') ->
  check_settings self' = true.
Proof.
  intros Hf He Hpos Hrun.
  destruct (calculate_intervals_plan self e Hf He)
    as (s & Hs & _ & Hi & _ & _ & Hm & Hsl).
  rewrite Hs in Hrun. injection Hrun as <-.
  unfold check_settings. rewrite Hsl, Hi, lt_gt.
  set (t := inject_Z (interval self)) in *.
  assert (Hle : (motor_pulse s <= t - e - settle_time)%Q).
  { rewrite Hm. cbv zeta.
    destruct (Py.gt (travel_share self) (t - e - settle_time)) eqn:Hcap.
    - apply Qle_refl.
    - apply gt_false in Hcap. exact Hcap. }
  unfold settle_time in Hle.
  assert (H1 : Py.gt 0 (t - motor_pulse s - e) = false) by (apply gt_false; lra).
  assert (H2 : Py.gt (motor_pulse s) t = false) by (apply gt_false; lra).
  assert (H3 : Py.gt (motor_pulse s + (t - motor_pulse s - e)) t = false)
    by (apply gt_false; lra).
  rewrite H1, H2, H3. reflexivity.
Qed.

(** C2: the code does not do what the claim says.  At Scenario B
    (5 frames, interval 2, a two second exposure, 160 seconds of
    travel) exposure + settle time is 21/10 >= 2, yet the plan has a
    motor pulse of -1/10 and an idle sleep of 1/10, [check_settings]
    returns [True], and [shoot_timelapse] is not refused: it counts
    down, fires the shutter, drives the motor pin high and dies there
    on [time.sleep(-0.1)]. *)
Theorem scenario_B_is_not_refused :
  exists self' e,
    calculate_intervals scenario_B = (Py.Ok tt, self') /\
    shutter_speed self' = Py.Num e /\
    (inject_Z (interval self') <= e + settle_time)%Q /\
    (motor_pulse self' == - (1 # 10))%Q /\
    (sleep_time self' == 1 # 10)%Q /\
    check_settings self' = true /\
    shoot_timelapse 20 self' =
      (P_return (Py.Raise Py.ValueError), set_frame 2 self',
       [Show_starting 5; Sleep 1; Show_starting 4; Sleep 1;
        Show_starting 3; Sleep 1; Show_starting 2; Sleep 1;
        Show_starting 1; Sleep 1;
        Show_timelapse 1 5; Sleep (1 # 2);
        Show_timelapse 1 5;
        DigitalWrite 3 HIGH; Sleep 2; DigitalWrite 3 LOW;
        DigitalWrite 7 HIGH]).
Proof.
  eexists. eexists. split; [vm_compute; reflexivity|].
  split; [reflexivity|].
  repeat split; try (vm_compute; congruence).
Qed.

(** ** The interval planner in binary64: claims *)

Lemma capped_plan_is_the_plan (self : Artemis) (p : B64.plan) :
  B64.capped self = B64.Ok true ->
  B64.calculate_intervals self = B64.Ok p ->
  B64.capped_plan self = B64.Ok p.
Proof.
  unfold B64.capped, B64.calculate_intervals, B64.capped_plan, B64.bind.
  destruct (B64.travel self) as [pulse|]; [|discriminate].
  destruct (B64.get_shutter_speed (shutter_index self)) as [speed|]; [|discriminate].
  destruct (B64.cap self speed) as [c|]; [|discriminate].
  destruct (B64.gt pulse c) as [[|]|]; try discriminate.
  intros _ H. exact H.
Qed.

Lemma in_intervals (i : Z) : 1 <= i <= 30 -> In i intervals.
Proof.
  intros H. unfold intervals. apply in_map_iff. exists (Z.to_nat i).
  split; [lia|]. apply in_seq. lia.
Qed.

(** What holds of the capped plan at every interval and index of a
    configuration holds of every plan on which the cap applies. *)
Lemma every_capped_plan_at
    (test : Z -> B64.plan -> bool) (self : Artemis) (p : B64.plan) :
  every_capped_plan test = true ->
  1 <= interval self <= 30 ->
  valid_index (shutter_index self) ->
  B64.capped self = B64.Ok true ->
  B64.calculate_intervals self = B64.Ok p ->
  test (interval self) p = true.
Proof.
  intros Hall Hi Hk Hcap Hp.
  unfold every_capped_plan in Hall.
  rewrite forallb_forall in Hall.
  specialize (Hall _ (in_intervals _ Hi)).
  rewrite forallb_forall in Hall.
  specialize (Hall _ (valid_index_cases _ Hk)).
  change (B64.capped_plan (defaults 1 (interval self) (shutter_index self)))
    with (B64.capped_plan self) in Hall.
  rewrite (capped_plan_is_the_plan self p Hcap Hp) in Hall. exact Hall.
Qed.

Lemma within_iff (d a b : Q) : within d a b = true <-> (Qabs (a - b) <= d)%Q.
Proof. unfold within. apply Qle_bool_iff. Qed.

(** C10, as stated, fails.  At Scenario B the cap applies and the idle
    sleep the code computes is 0.10000000000000009, which is not the
    settle time 0.1: it is 3 / 2^55 more. *)
Lemma capped_sleep_time_is_not_settle_time :
  B64.capped scenario_B = B64.Ok true /\
  B64.calculate_intervals scenario_B = B64.Ok (plan_of scenario_B) /\
  B64.eq (B64.sleep_time (plan_of scenario_B)) (B64.Flt B64.settle_time)
  = B64.Ok false /\
  (B64.rational (B64.sleep_time (plan_of scenario_B))
   - B64.exact B64.settle_time == 3 # 2 ^ 55)%Q.
Proof. vm_compute. repeat split. Qed.

(** C10, amended.  Whenever the cap applies, at an interval from 1 to
    30 and an index of the table, the idle sleep the code computes is
    the settle time up to rounding: it is within 2^-48 of it, and it is
    not equal to it.  Hence it is positive and [check_settings] returns
    [True], whether or not exposure + settle time exceeds the
    interval. *)
Theorem capped_plan_sleeps_about_settle_time (self : Artemis) (p : B64.plan) :
  1 <= interval self <= 30 ->
  valid_index (shutter_index self) ->
  B64.capped self = B64.Ok true ->
  B64.calculate_intervals self = B64.Ok p ->
  B64.finite (B64.sleep_time p) = true /\
  (Qabs (B64.rational (B64.sleep_time p) - B64.exact B64.settle_time)
   <= 1 # 2 ^ 48)%Q /\
  B64.eq (B64.sleep_time p) (B64.Flt B64.settle_time) = B64.Ok false /\
  (0 < B64.rational (B64.sleep_time p))%Q /\
  B64.check_settings self p = B64.Ok true.
Proof.
  intros Hi Hk Hcap Hp.
  assert (Hall : every_capped_plan sleeps_about_settle_time = true)
    by (vm_compute; reflexivity).
  pose proof (every_capped_plan_at _ self p Hall Hi Hk Hcap Hp) as H.
  unfold sleeps_about_settle_time in H.
  apply andb_prop in H. destruct H as [H Hcheck].
  apply andb_prop in H. destruct H as [H Hpos].
  apply andb_prop in H. destruct H as [H Hne].
  apply andb_prop in H. destruct H as [Hfin Hnear].
  split; [exact Hfin|].
  split; [exact (proj1 (within_iff _ _ _) Hnear)|].
  split.
  { destruct (B64.eq (B64.sleep_time p) (B64.Flt B64.settle_time)) as [[|]|];
      first [discriminate Hne | reflexivity]. }
  split.
  { apply Qnot_le_lt. intros Hle.
    apply (proj2 (Qle_bool_iff _ _)) in Hle.
    rewrite Hle in Hpos. discriminate Hpos. }
  change (B64.check_settings (defaults 1 (interval self) 0) p)
    with (B64.check_settings self p) in Hcheck.
  destruct (B64.check_settings self p) as [[|]|];
    first [discriminate Hcheck | reflexivity].
Qed.

(** Scenario B is capped, and exposure + settle time exceeds its
    interval. *)
Lemma capped_plan_sleeps_about_settle_time_witness :
  B64.finite (B64.sleep_time (plan_of scenario_B)) = true /\
  (Qabs (B64.rational (B64.sleep_time (plan_of scenario_B))
         - B64.exact B64.settle_time)
   <= 1 # 2 ^ 48)%Q /\
  B64.eq (B64.sleep_time (plan_of scenario_B)) (B64.Flt B64.settle_time)
  = B64.Ok false /\
  (0 < B64.rational (B64.sleep_time (plan_of scenario_B)))%Q /\
  B64.check_settings scenario_B (plan_of scenario_B) = B64.Ok true.
Proof.
  apply (capped_plan_sleeps_about_settle_time scenario_B (plan_of scenario_B)).
  - vm_compute. split; congruence.
  - unfold valid_index. vm_compute. split; congruence.
  - vm_compute. reflexivity.
  - vm_compute. reflexivity.
Defined.




(** ** The shutter table: claims *)

(** C8, as stated, fails: -1 lies outside [0, len - 1], and
    [get_shutter_speed(-1)] does not fail; it returns the last entry,
    60 seconds. *)
Lemma get_shutter_speed_minus_one :
  ~ valid_index (-1) /\
  get_shutter_speed (-1) = Py.Ok (Py.Num 60) /\
  get_shutter_speed (-1) <> Py.Raise Py.IndexError.
Proof.
  split; [unfold valid_index; lia|].
  split; [vm_compute; reflexivity | vm_compute; discriminate].
Qed.

(** C8, amended.  For every index in [0, len - 1], [get_shutter_speed]
    returns the seconds its entry reads as: N over M for a fraction
    label, N point M for a quoted-decimal label, the number itself for
    a bare number.  It raises [IndexError] for every index >= len or
    < -len; an index in [-len, -1] counts from the end of the table. *)
Theorem get_shutter_speed_resolves (i : Z) :
  let len := Z.of_nat (List.length shutter_values) in
  (valid_index i ->
   exists v q,
     Py.index shutter_values i = Py.Ok v /\
     get_shutter_speed i = Py.Ok (Py.Num q) /\
     reads v q) /\
  (i < - len \/ len <= i -> get_shutter_speed i = Py.Raise Py.IndexError) /\
  (- len <= i < 0 -> get_shutter_speed i = get_shutter_speed (i + len)).
Proof.
  intros len. split; [|split].
  - intros H. apply valid_index_cases in H. simpl in H.
    (* each label is read by cutting it at its separator *)
    repeat (destruct H as [<- | H];
            [eexists; eexists;
             split; [vm_compute; reflexivity|];
             split; [vm_compute; reflexivity|];
             lazymatch goal with
             | |- reads (Py.Num _) _ => apply reads_number
             | |- reads (Py.Str ?s) _ =>
                 let slash := eval vm_compute in (Py.split "/" s) in
                 let quote := eval vm_compute in (Py.split dquote s) in
                 lazymatch slash with
                 | [?a; ?b] =>
                     eapply (reads_fraction a b);
                     [discriminate | discriminate | reflexivity | reflexivity
                     | discriminate | vm_compute; reflexivity]
                 | _ =>
                     lazymatch quote with
                     | [?a; ?b] =>
                         eapply (reads_decimal a b);
                         [discriminate | discriminate | reflexivity
                         | reflexivity | vm_compute; reflexivity]
                     end
                 end
             end |]).
    contradiction.
  - intros H. unfold get_shutter_speed.
    rewrite (index_outside shutter_values i H). reflexivity.
  - intros H. unfold get_shutter_speed.
    rewrite (index_from_end shutter_values i H). reflexivity.
Qed.

(** Index 5 (the label 0, double quote, 3), index 34 and index -34. *)
Lemma get_shutter_speed_resolves_witness :
  (exists v q,
     Py.index shutter_values 5 = Py.Ok v /\
     get_shutter_speed 5 = Py.Ok (Py.Num q) /\
     reads v q) /\
  get_shutter_speed 34 = Py.Raise Py.IndexError /\
  get_shutter_speed (-34) = get_shutter_speed (-34 + 34).
Proof.
  split; [|split].
  - apply (proj1 (get_shutter_speed_resolves 5)).
    unfold valid_index. simpl. lia.
  - apply (proj1 (proj2 (get_shutter_speed_resolves 34))).
    right. simpl. lia.
  - apply (proj2 (proj2 (get_shutter_speed_resolves (-34)))).
    simpl. lia.
Defined.

(** ** Edit actions and the persisted configuration: claims *)

(** The object [__main__] builds when no file is there satisfies the
    invariants of the configuration. *)
Lemma artemis_defaults_ok :
  exists self, artemis Missing = Py.Ok self /\ configuration_ok self.
Proof.
  eexists. split; [vm_compute; reflexivity|].
  unfold configuration_ok, valid_index. simpl. lia.
Qed.

(** C6.  Each edit action clamps at its boundary and otherwise moves
    its value by exactly one, whatever the value, and leaves every
    other attribute as it is: [increase_interval] does nothing at 30
    and adds one everywhere else, [decrease_interval] does nothing at
    1 and below and takes one off above; [increase_frames] always adds
    one, [decrease_frames] does nothing at 1 and takes one off
    everywhere else; [increase_speed] adds one below len - 1 and does
    nothing from there on, [decrease_speed] takes one off above 0 and
    does nothing at 0 and below. *)
Theorem edit_actions_clamp (self : Artemis) :
  let len := Z.of_nat (List.length shutter_values) in
  let f := frames self in
  let i := interval self in
  let s := shutter_index self in
  (* what no action touches *)
  (other_attributes (increase_interval self) = other_attributes self /\
   other_attributes (decrease_interval self) = other_attributes self /\
   other_attributes (increase_frames self) = other_attributes self /\
   other_attributes (decrease_frames self) = other_attributes self /\
   other_attributes (increase_speed self) = other_attributes self /\
   other_attributes (decrease_speed self) = other_attributes self) /\
  (* the interval *)
  (i = 30 -> configuration (increase_interval self) = (f, 30, s)) /\
  (i <> 30 -> configuration (increase_interval self) = (f, i + 1, s)) /\
  (i <= 1 -> configuration (decrease_interval self) = (f, i, s)) /\
  (1 < i -> configuration (decrease_interval self) = (f, i - 1, s)) /\
  (* the frame count *)
  configuration (increase_frames self) = (f + 1, i, s) /\
  (f = 1 -> configuration (decrease_frames self) = (1, i, s)) /\
  (f <> 1 -> configuration (decrease_frames self) = (f - 1, i, s)) /\
  (* the shutter index *)
  (s < len - 1 -> configuration (increase_speed self) = (f, i, s + 1)) /\
  (len - 1 <= s -> configuration (increase_speed self) = (f, i, s)) /\
  (0 < s -> configuration (decrease_speed self) = (f, i, s - 1)) /\
  (s <= 0 -> configuration (decrease_speed self) = (f, i, s)).
Proof.
  intros len f i s. subst len f i s.
  unfold increase_interval, decrease_interval, increase_frames,
    decrease_frames, increase_speed, decrease_speed.
  split.
  - repeat apply conj;
      repeat match goal with
             | |- context [if ?c then _ else _] => destruct c
             end; reflexivity.
  - repeat apply conj; try intros H; unfold configuration;
      repeat match goal with
             | |- context [Z.eqb ?x ?y] => destruct (Z.eqb_spec x y)
             | |- context [Z.gtb ?x ?y] => destruct (Z.gtb_spec x y)
             | |- context [Z.ltb ?x ?y] => destruct (Z.ltb_spec x y)
             end;
      cbn [negb frames interval shutter_index set_interval set_frames
           set_shutter_index];
      try lia; try contradiction; rewrite ?H; try reflexivity; congruence.
Qed.

(** The actions at the boundaries, interval 30, 1 frame, index 33 and
    index 0, and away from them. *)
Lemma edit_actions_clamp_witness :
  configuration (increase_interval (defaults 1 30 33)) = (1, 30, 33) /\
  configuration (decrease_interval (defaults 1 30 33)) = (1, 29, 33) /\
  configuration (decrease_frames (defaults 1 30 33)) = (1, 30, 33) /\
  configuration (increase_speed (defaults 1 30 33)) = (1, 30, 33) /\
  configuration (decrease_speed (defaults 1 30 33)) = (1, 30, 32) /\
  configuration (increase_interval (defaults 5 1 0)) = (5, 2, 0) /\
  configuration (decrease_interval (defaults 5 1 0)) = (5, 1, 0) /\
  configuration (decrease_frames (defaults 5 1 0)) = (4, 1, 0) /\
  configuration (increase_speed (defaults 5 1 0)) = (5, 1, 1) /\
  configuration (decrease_speed (defaults 5 1 0)) = (5, 1, 0).
Proof.
  pose proof (edit_actions_clamp (defaults 1 30 33))
    as (_ & a1 & _ & _ & a4 & _ & a6 & _ & _ & a9 & a10 & _).
  pose proof (edit_actions_clamp (defaults 5 1 0))
    as (_ & _ & b2 & b3 & _ & _ & _ & b7 & b8 & _ & _ & b11).
  repeat apply conj.
  - apply a1. reflexivity.
  - apply a4. reflexivity.
  - apply a6. reflexivity.
  - apply a9. vm_compute. congruence.
  - apply a10. reflexivity.
  - apply b2. vm_compute. congruence.
  - apply b3. vm_compute. congruence.
  - apply b7. vm_compute. congruence.
  - apply b8. reflexivity.
  - apply b11. vm_compute. congruence.
Defined.

(** C7, as stated, fails: [load_config] copies what the file holds.
    Read into a configuration that satisfies the invariants, a file
    whose only field is a frame count of 0 leaves 0 frames. *)
Lemma load_config_keeps_zero_frames :
  configuration_ok scenario_A /\
  exists self',
    load_config (Json {["frames" := 0]}) scenario_A = (Py.Ok None, self') /\
    frames self' = 0 /\
    ~ configuration_ok self'.
Proof.
  split.
  - unfold configuration_ok, valid_index. simpl. lia.
  - eexists. split; [vm_compute; reflexivity|].
    split; [reflexivity|].
    unfold configuration_ok. simpl. lia.
Qed.

(** C7, amended.  Every edit action preserves the invariants of the
    configuration (a positive frame count, an interval between 1 and
    30, a shutter index into the table), and so does [load_config] on
    a file that is missing, unparsable, or whose values are in range;
    then it also returns without raising.  [load_config] does not
    check the values it reads. *)
Theorem configuration_ok_preserved (self : Artemis) :
  configuration_ok self ->
  configuration_ok (increase_interval self) /\
  configuration_ok (decrease_interval self) /\
  configuration_ok (increase_frames self) /\
  configuration_ok (decrease_frames self) /\
  configuration_ok (increase_speed self) /\
  configuration_ok (decrease_speed self) /\
  (forall f, file_ok f ->
     exists r self',
       load_config f self = (Py.Ok r, self') /\ configuration_ok self').
Proof.
  unfold configuration_ok, valid_index.
  intros (Hf & Hi & Hs).
  repeat apply conj.
  all: try (unfold increase_interval, decrease_interval, increase_frames,
              decrease_frames, increase_speed, decrease_speed;
            change (Z.of_nat (List.length shutter_values)) with 34 in *;
            repeat match goal with
                   | |- context [?a =? ?b] => destruct (Z.eqb_spec a b)
                   | |- context [?a >? ?b] => destruct (Z.gtb_spec a b)
                   | |- context [?a <? ?b] => destruct (Z.ltb_spec a b)
                   end;
            simpl; lia).
  intros [| |config] Hok; simpl;
    change (Z.of_nat (List.length shutter_values)) with 34 in *.
  - exists None, self. split; [reflexivity|]. repeat apply conj; lia.
  - exists (Some false), self. split; [reflexivity|]. repeat apply conj; lia.
  - destruct Hok as (Kf & Ki & Ks).
    unfold bindM, assign, eval, ret.
    destruct (config !! "frames") as [vf|] eqn:Ef;
      destruct (config !! "interval") as [vi|] eqn:Ei;
      destruct (config !! "shutter") as [vs|] eqn:Es;
      simpl;
      try (destruct (get_shutter_speed_positive vs (Ks _ eq_refl))
             as (e & -> & _); simpl);
      try specialize (Kf _ eq_refl);
      try specialize (Ki _ eq_refl);
      try specialize (Ks _ eq_refl);
      unfold valid_index in *;
      change (Z.of_nat (List.length shutter_values)) with 34 in *;
      eexists; eexists; (split; [reflexivity|]); simpl;
      repeat apply conj; lia.
Qed.

(** Scenario A satisfies the invariants. *)
Lemma configuration_ok_preserved_witness :
  configuration_ok (increase_interval scenario_A) /\
  configuration_ok (decrease_interval scenario_A) /\
  configuration_ok (increase_frames scenario_A) /\
  configuration_ok (decrease_frames scenario_A) /\
  configuration_ok (increase_speed scenario_A) /\
  configuration_ok (decrease_speed scenario_A) /\
  (forall f, file_ok f ->
     exists r self',
       load_config f scenario_A = (Py.Ok r, self') /\ configuration_ok self').
Proof.
  apply (configuration_ok_preserved scenario_A).
  unfold configuration_ok, valid_index. simpl. lia.
Defined.

(** C9.  For every configuration, [save_config] followed by
    [load_config], into whatever object reads the file, returns
    without raising and reproduces the frame count, the interval and
    the shutter index that were saved. *)
Theorem save_then_load_round_trip (self reader : Artemis) :
  valid_index (shutter_index self) ->
  exists self',
    load_config (save_config self) reader = (Py.Ok None, self') /\
    frames self' = frames self /\
    interval self' = interval self /\
    shutter_index self' = shutter_index self.
Proof.
  intros Hi.
  destruct (get_shutter_speed_positive _ Hi) as (e & He & _).
  unfold load_config, save_config.
  rewrite lookup_insert_eq.
  rewrite lookup_insert_ne by discriminate.
  rewrite lookup_insert_eq.
  do 2 rewrite lookup_insert_ne by discriminate.
  rewrite lookup_insert_eq.
  unfold bindM, assign, eval, ret. simpl.
  rewrite He.
  eexists. split; [reflexivity|]. simpl. repeat apply conj; reflexivity.
Qed.

(** 9 frames, interval 4, index 33, saved and read back into the
    defaults. *)
Lemma save_then_load_round_trip_witness :
  exists self',
    load_config (save_config (defaults 9 4 33)) scenario_A = (Py.Ok None, self') /\
    frames self' = frames (defaults 9 4 33) /\
    interval self' = interval (defaults 9 4 33) /\
    shutter_index self' = shutter_index (defaults 9 4 33).
Proof.
  apply (save_then_load_round_trip (defaults 9 4 33) scenario_A).
  unfold valid_index. simpl. lia.
Defined.

(** ** The capture run: facts *)

Lemma writes_app (pin : Z) (l : level) (a b : list event) :
  writes pin l (a ++ b) = (writes pin l a + writes pin l b)%nat.
Proof.
  unfold writes. rewrite List.filter_app, List.length_app. reflexivity.
Qed.

Lemma lt_zero_false (q : Q) : (0 <= q)%Q -> Py.lt q 0 = false.
Proof. intros H. rewrite lt_gt. apply gt_false. exact H. Qed.

Lemma sleeping_ok (q : Q) (next : point) (self : Artemis) :
  (0 <= q)%Q -> sleeping (Py.Ok q) next self = (next, self, [Sleep q]).
Proof.
  intros H. unfold sleeping, sleep. simpl. rewrite (lt_zero_false q H).
  reflexivity.
Qed.

(** The runner writes [frame], [run_timelapse], [wait_for_key] and
    [screen], and nothing else. *)
Lemma step_keeps_plan (p : point) (self : Artemis) :
  let self' := snd (fst (step p self)) in
  shutter_speed self' = shutter_speed self /\
  motor_pulse self' = motor_pulse self /\
  sleep_time self' = sleep_time self /\
  shutter_pin self' = shutter_pin self /\
  motor_pin self' = motor_pin self /\
  frames self' = frames self /\
  interval self' = interval self.
Proof.
  destruct p; simpl; unfold sleeping;
    repeat match goal with
           | |- context [if ?b then _ else _] => destruct b
           | |- context [match ?r with Py.Ok _ => _ | Py.Raise _ => _ end] =>
               destruct r
           end;
    simpl; repeat apply conj; reflexivity.
Qed.

Lemma plan_ok_step (p : point) (self : Artemis) :
  plan_ok self -> plan_ok (snd (fst (step p self))).
Proof.
  unfold plan_ok.
  destruct (step_keeps_plan p self) as (-> & -> & -> & -> & -> & _).
  intros H. exact H.
Qed.

Lemma watcher_keeps_invariant (p : point) (self : Artemis) (tr : list event) :
  run_invariant (p, self, tr) ->
  run_invariant (p, set_stop_timelapse self, tr) /\
  run_invariant (p, leave_stop_timelapse self, tr).
Proof.
  unfold run_invariant, plan_ok, exposures_started, exposures_completed,
    moves_started, moves_completed.
  simpl. intros H. split; exact H.
Qed.

(** Splits the counts of a trace extended by the events of one
    statement and decides which of them write the shutter pin. *)
Ltac count_writes Hpin :=
  unfold exposures_started, exposures_completed, moves_started,
    moves_completed in *;
  cbn [shutter_pin motor_pin frame set_frame set_run_timelapse
       set_wait_for_key set_screen] in *;
  rewrite ?writes_app, ?app_nil_r;
  unfold writes; cbn [List.filter is_write level_eqb List.length];
  rewrite ?Z.eqb_refl;
  rewrite ?(proj2 (Z.eqb_neq _ _) (not_eq_sym Hpin));
  rewrite ?(proj2 (Z.eqb_neq _ _) Hpin);
  cbn [andb List.length exposing moving uncounted min_frame] in *;
  unfold writes in *;
  repeat match goal with
         | H : Qle _ _ |- _ => clear H
         | H : plan_ok _ |- _ => clear H
         end.

Lemma runner_keeps_invariant (c : config) :
  run_invariant c -> run_invariant (runner_step c).
Proof.
  destruct c as [[p self] tr].
  unfold run_invariant, runner_step.
  intros (Hplan & Hp & Hscr). pose proof Hplan as Hplan'.
  destruct Hplan' as ((e & He & He0) & Hm & Hs & Hpin).
  destruct p; cbn [step];
    try rewrite He; cbn [Py.number];
    rewrite ?(sleeping_ok e _ _ He0), ?(sleeping_ok _ _ _ Hm),
      ?(sleeping_ok _ _ _ Hs),
      ?(sleeping_ok settle_time _ _ ltac:(unfold settle_time; lra));
    try contradiction;
    repeat match goal with
           | |- context [if ?b then _ else _] => destruct b eqn:?
           end;
    (split; [exact Hplan|]);
    (split; [|first [exact I | reflexivity | assumption | idtac]]).
  all: try (subst tr; first [reflexivity | intros pin l; reflexivity]).
  all: try (intros pin l; rewrite writes_app, Hp; reflexivity).
  all: try (pose proof (Hp (shutter_pin self) HIGH);
            pose proof (Hp (shutter_pin self) LOW);
            pose proof (Hp (motor_pin self) HIGH);
            pose proof (Hp (motor_pin self) LOW); clear Hp).
  all: count_writes Hpin; lia.
Qed.

Lemma move_keeps_invariant (c : config) (t : thread) :
  run_invariant c -> run_invariant (move c t).
Proof.
  destruct t; [apply runner_keeps_invariant | |];
    destruct c as [[p self] tr]; intros H;
    apply (watcher_keeps_invariant p self tr H).
Qed.

Lemma exec_keeps_invariant (schedule : list thread) (c : config) :
  run_invariant c -> run_invariant (exec schedule c).
Proof.
  revert c. induction schedule as [|t schedule IH]; intros c H.
  - exact H.
  - apply IH, move_keeps_invariant, H.
Qed.

(** A run on a plan without negative durations starts in the
    invariant. *)
Lemma run_invariant_start (self : Artemis) :
  plan_ok self -> run_invariant (P_check_settings, self, []).
Proof.
  intros H. unfold run_invariant. split; [exact H|]. split; [reflexivity | exact I].
Qed.






(** ** The capture run: claims *)

(** The branch of [shoot_timelapse] that only sleeps after the first
    frame is dead: no run reaches it, whatever the schedule. *)
Lemma first_sleep_unreachable (self : Artemis) (schedule : list thread) :
  plan_ok self ->
  at_point (exec schedule (P_check_settings, self, [])) <> P_first_sleep.
Proof.
  intros Hplan Heq.
  pose proof (exec_keeps_invariant schedule _ (run_invariant_start self Hplan))
    as Hinv.
  destruct (exec schedule (P_check_settings, self, [])) as [[p s] tr].
  unfold at_point in Heq. simpl in Heq. subst p.
  destruct Hinv as (_ & Hfalse & _). exact Hfalse.
Qed.

(** C3: the code does not do what the claim says.  In a run of 2
    frames on the plan of Scenario A (exposure 1, motor pulse 9/10,
    idle sleep 1/10), the first exposure is followed by a pulse of the
    motor pin (pin 7), the settle time and the idle sleep, exactly as
    frames 2..N-1 would be; the runner never sleeps [motor_pulse] with
    the motor pin low.  [frame] is incremented before it is compared
    with 1. *)
Theorem first_frame_moves_the_carriage :
  frames plan_A2 = 2 /\
  check_settings plan_A2 = true /\
  (motor_pulse plan_A2 == 9 # 10)%Q /\
  exists self',
    shoot_timelapse 40 plan_A2 =
      (P_return (Py.Ok true), self',
       [Show_starting 5; Sleep 1; Show_starting 4; Sleep 1;
        Show_starting 3; Sleep 1; Show_starting 2; Sleep 1;
        Show_starting 1; Sleep 1;
        Show_timelapse 1 2; Sleep (1 # 2);
        Show_timelapse 1 2;
        DigitalWrite 3 HIGH; Sleep 1; DigitalWrite 3 LOW;
        DigitalWrite 7 HIGH; Sleep (motor_pulse plan_A2); DigitalWrite 7 LOW;
        Sleep settle_time; Sleep (sleep_time plan_A2);
        Show_timelapse 2 2;
        DigitalWrite 3 HIGH; Sleep 1; DigitalWrite 3 LOW]).
Proof.
  split; [reflexivity|]. split; [reflexivity|]. split; [reflexivity|].
  eexists. vm_compute. reflexivity.
Qed.

(** A cancel written before the run resets its flag (line 277) is
    overwritten: the run of 2 frames on the plan of Scenario A, with
    the cancel as the very first move, still makes both exposures. *)
Lemma cancel_before_reset_is_lost :
  let '(p, self', tr) :=
    exec (Cancel :: repeat Runner 40) (P_check_settings, plan_A2, []) in
  p = P_return (Py.Ok true) /\ exposures_completed self' tr = 2%nat.
Proof. vm_compute. split; reflexivity. Qed.




Lemma refusing_move (c : config) (t : thread) :
  refusing c ->
  refusing (move c t) /\
  (t = Runner -> exists s, fst (move c t) = (P_return (Py.Ok false), s)).
Proof.
  destruct c as [[p self] tr]. unfold refusing.
  intros (-> & [(-> & Hc) | (-> & Hs & Hf)]); destruct t; simpl.
  - rewrite Hc. simpl. split; [|eexists; reflexivity].
    split; [reflexivity|]. right. repeat split.
  - split; [|discriminate]. split; [reflexivity|]. left. split; [reflexivity|].
    exact Hc.
  - split; [|discriminate]. split; [reflexivity|]. left. split; [reflexivity|].
    exact Hc.
  - split; [|eexists; reflexivity]. split; [reflexivity|]. right.
    repeat split; assumption.
  - split; [|discriminate]. split; [reflexivity|]. right. repeat split.
    exact Hs.
  - split; [|discriminate]. split; [reflexivity|]. right. repeat split;
      assumption.
Qed.

Lemma refusing_exec (schedule : list thread) (c : config) :
  refusing c ->
  refusing (exec schedule c) /\
  ((exists s, fst c = (P_return (Py.Ok false), s)) \/
   (1 <= runner_moves schedule)%nat ->
   exists s, fst (exec schedule c) = (P_return (Py.Ok false), s)).
Proof.
  revert c. induction schedule as [|t schedule IH]; intros c Hc.
  - simpl. split; [exact Hc|]. intros [H|H]; [exact H|].
    unfold runner_moves in H. simpl in H. lia.
  - destruct (refusing_move c t Hc) as (Hc' & Hret).
    destruct (IH _ Hc') as (Hfin & Hend).
    change (exec (t :: schedule) c) with (exec schedule (move c t)).
    split; [exact Hfin|]. intros H. apply Hend.
    destruct t.
    + left. apply Hret. reflexivity.
    + destruct H as [(s & Hs)|H].
      * left. destruct c as [[p self] tr]. simpl in *.
        injection Hs as -> <-. eexists. reflexivity.
      * right. unfold runner_moves in *. simpl in H. exact H.
    + destruct H as [(s & Hs)|H].
      * left. destruct c as [[p self] tr]. simpl in *.
        injection Hs as -> <-. eexists. reflexivity.
      * right. unfold runner_moves in *. simpl in H. exact H.
Qed.

(** C5.  Whenever [check_settings] returns [False], [shoot_timelapse]
    refuses the run, whatever the watcher does meanwhile: its first
    statement returns [False] with the main screen as the next screen
    and [run_timelapse] down, and the trace stays empty: no countdown
    is shown, no pin is written, nothing is slept. *)
Theorem infeasible_run_is_refused (self : Artemis) (schedule : list thread) :
  check_settings self = false ->
  let '(p, self', tr) := exec schedule (P_check_settings, self, []) in
  tr = [] /\
  ((1 <= runner_moves schedule)%nat ->
   p = P_return (Py.Ok false) /\
   screen self' = [Scr_main_screen] /\
   run_timelapse self' = false).
Proof.
  intros Hc.
  assert (Hstart : refusing (P_check_settings, self, []))
    by (split; [reflexivity | left; split; [reflexivity | exact Hc]]).
  destruct (refusing_exec schedule _ Hstart) as (Hfin & Hend).
  destruct (exec schedule (P_check_settings, self, [])) as [[p s] tr].
  destruct Hfin as (-> & Hcases). split; [reflexivity|].
  intros Hmoves.
  destruct (Hend (or_intror Hmoves)) as (s' & Hs').
  simpl in Hs'. injection Hs' as -> <-.
  destruct Hcases as [(Habs & _) | (_ & H1 & H2)]; [discriminate|].
  repeat split; assumption.
Qed.

(** A plan with a negative idle sleep, under a schedule in which both
    threads move. *)
Lemma infeasible_run_is_refused_witness :
  let '(p, self', tr) :=
    exec [Cancel; Runner; Leave; Runner]
      (P_check_settings, set_sleep_time (- (1 # 10)) plan_A, []) in
  tr = [] /\
  ((1 <= runner_moves [Cancel; Runner; Leave; Runner])%nat ->
   p = P_return (Py.Ok false) /\
   screen self' = [Scr_main_screen] /\
   run_timelapse self' = false).
Proof.
  apply (infeasible_run_is_refused
           (set_sleep_time (- (1 # 10)) plan_A) [Cancel; Runner; Leave; Runner]).
  vm_compute. reflexivity.
Defined.

(** * Further properties of the code *)

(** ** The shutter table and the planner *)

(** X1.  The table is strictly increasing: a larger index resolves to a
    longer exposure, so [increase_speed] never shortens it. *)
Theorem shutter_table_increasing (i j : Z) (a b : Q) :
  valid_index i -> valid_index j -> i < j ->
  get_shutter_speed i = Py.Ok (Py.Num a) ->
  get_shutter_speed j = Py.Ok (Py.Num b) ->
  (a < b)%Q.
Proof.
  intros Hi Hj Hlt Ha Hb.
  assert (Hall :
    forallb (fun i =>
      forallb (fun j =>
        if i <? j then
          match get_shutter_speed i, get_shutter_speed j with
          | Py.Ok (Py.Num a), Py.Ok (Py.Num b) => Py.gt b a
          | _, _ => false
          end
        else true) (map Z.of_nat (seq 0 34))) (map Z.of_nat (seq 0 34)) = true)
    by (vm_compute; reflexivity).
  rewrite forallb_forall in Hall.
  specialize (Hall i (valid_index_cases i Hi)).
  rewrite forallb_forall in Hall.
  specialize (Hall j (valid_index_cases j Hj)).
  destruct (Z.ltb_spec i j); [|lia].
  rewrite Ha, Hb in Hall. apply gt_true. exact Hall.
Qed.

(** Indices 9 and 10: 8/10 of a second, then 1 second. *)
Lemma shutter_table_increasing_witness : (8 # 10 < 1)%Q.
Proof.
  apply (shutter_table_increasing 9 10 (8 # 10) 1).
  - unfold valid_index. simpl. lia.
  - unfold valid_index. simpl. lia.
  - lia.
  - vm_compute. reflexivity.
  - vm_compute. reflexivity.
Defined.

(** X3.  How [calculate_intervals] fails.  With 0 frames it raises
    [ZeroDivisionError] and leaves the object as it was.  With an index
    >= len or < -len it raises [IndexError] after it has overwritten
    [motor_pulse] with the travel share, and before it assigns
    [shutter_speed] or [sleep_time]. *)
Theorem calculate_intervals_failures (self : Artemis) :
  let len := Z.of_nat (List.length shutter_values) in
  (frames self = 0 ->
   calculate_intervals self = (Py.Raise Py.ZeroDivisionError, self)) /\
  (frames self <> 0 ->
   shutter_index self < - len \/ len <= shutter_index self ->
   calculate_intervals self
   = (Py.Raise Py.IndexError, set_motor_pulse (travel_share self) self)).
Proof.
  intros len. split.
  - intros Hf. unfold calculate_intervals, bindM, eval, assign. simpl.
    rewrite Hf. reflexivity.
  - intros Hf Hi. unfold calculate_intervals, bindM, eval, assign. simpl.
    rewrite (div_nonzero _ _ Hf). simpl.
    unfold get_shutter_speed.
    rewrite (index_outside shutter_values _ Hi). reflexivity.
Qed.

(** 0 frames, and index 34, on the defaults. *)
Lemma calculate_intervals_failures_witness :
  calculate_intervals (defaults 0 2 10)
  = (Py.Raise Py.ZeroDivisionError, defaults 0 2 10) /\
  calculate_intervals (defaults 5 2 34)
  = (Py.Raise Py.IndexError,
     set_motor_pulse (travel_share (defaults 5 2 34)) (defaults 5 2 34)).
Proof.
  split.
  - apply (proj1 (calculate_intervals_failures (defaults 0 2 10))).
    reflexivity.
  - apply (proj2 (calculate_intervals_failures (defaults 5 2 34))).
    + simpl. lia.
    + right. simpl. lia.
Defined.

(** What a successful [calculate_intervals] read. *)
Lemma calculate_intervals_inversion (self self' : Artemis) :
  calculate_intervals self = (Py.Ok tt, self') ->
  frames self <> 0 /\
  exists e, get_shutter_speed (shutter_index self) = Py.Ok (Py.Num e).
Proof.
  unfold calculate_intervals, bindM, eval, assign. simpl.
  unfold Py.div.
  destruct (Qeq_bool (inject_Z (frames self)) 0) eqn:Hz; [discriminate|].
  simpl.
  destruct (get_shutter_speed (shutter_index self)) as [[e|s]|x];
    simpl; try discriminate.
  intros _. split; [|exists e; reflexivity].
  intros Hf. rewrite Hf in Hz. discriminate.
Qed.

Lemma calculate_intervals_stable (self self' : Artemis) :
  calculate_intervals self = (Py.Ok tt, self') ->
  calculate_intervals self' = (Py.Ok tt, self').
Proof.
  intros H.
  destruct (calculate_intervals_inversion _ _ H) as (Hf & e & He).
  revert H.
  unfold calculate_intervals, bindM, eval, assign. simpl.
  rewrite (div_nonzero _ _ Hf), He. simpl.
  destruct (Py.gt (inject_Z (time_to_end self) / inject_Z (frames self))
              (inject_Z (interval self) - e - settle_time)) eqn:Hcap;
    simpl; intros H; injection H as <-; simpl;
    rewrite (div_nonzero _ _ Hf), He; simpl; rewrite ?Hcap; simpl;
    try reflexivity.
Qed.

(** X4.  Planning twice is planning once: [calculate_intervals] on its
    own result returns the same object. *)
Theorem calculate_intervals_idempotent (self self' : Artemis) :
  calculate_intervals self = (Py.Ok tt, self') ->
  calculate_intervals self' = (Py.Ok tt, self').
Proof. exact (calculate_intervals_stable self self'). Qed.

(** The plan of Scenario A, planned again. *)
Lemma calculate_intervals_idempotent_witness :
  calculate_intervals plan_A = (Py.Ok tt, plan_A).
Proof.
  apply (calculate_intervals_idempotent scenario_A plan_A).
  vm_compute. reflexivity.
Defined.



(** ** The persisted configuration and the constructor *)

(** X6.  What [load_config] reads.  A missing file changes nothing and
    returns [None]; an unparsable one changes nothing and returns
    [False].  From a parsed file each of [frames], [interval] and
    [shutter_index] takes the file's value where its key is present
    and keeps its own otherwise; apart from [shutter_speed] nothing
    else is written, whether or not the call raises. *)
Theorem load_config_reads_present_keys (config : gmap string Z) (self : Artemis) :
  load_config Missing self = (Py.Ok None, self) /\
  load_config Unparsable self = (Py.Ok (Some false), self) /\
  let self' := snd (load_config (Json config) self) in
  frames self' = default (frames self) (config !! "frames") /\
  interval self' = default (interval self) (config !! "interval") /\
  shutter_index self' = default (shutter_index self) (config !! "shutter") /\
  (config !! "shutter" = None -> shutter_speed self' = shutter_speed self) /\
  motor_pulse self' = motor_pulse self /\
  sleep_time self' = sleep_time self /\
  time_to_end self' = time_to_end self /\
  frame self' = frame self /\
  screen self' = screen self /\
  run_timelapse self' = run_timelapse self /\
  wait_for_key self' = wait_for_key self.
Proof.
  split; [reflexivity|]. split; [reflexivity|].
  unfold load_config, bindM, assign, eval, ret.
  destruct (config !! "frames") as [vf|];
    destruct (config !! "interval") as [vi|];
    destruct (config !! "shutter") as [vs|]; simpl;
    try destruct (get_shutter_speed vs); simpl;
    repeat apply conj; try reflexivity; discriminate.
Qed.

Lemma load_config_unchecked_shutter_aux
    (config : gmap string Z) (self : Artemis) (v : Z) :
  config !! "shutter" = Some v ->
  (v < - Z.of_nat (List.length shutter_values)
   \/ Z.of_nat (List.length shutter_values) <= v ->
   exists self',
     load_config (Json config) self = (Py.Raise Py.IndexError, self') /\
     shutter_index self' = v /\
     shutter_speed self' = shutter_speed self) /\
  (- Z.of_nat (List.length shutter_values) <= v < 0 ->
   exists self' e,
     load_config (Json config) self = (Py.Ok None, self') /\
     shutter_index self' = v /\
     get_shutter_speed (v + Z.of_nat (List.length shutter_values))
     = Py.Ok (Py.Num e) /\
     shutter_speed self' = Py.Num e).
Proof.
  set (len := Z.of_nat (List.length shutter_values)).
  intros Hv. split.
  - intros Hout.
    unfold load_config, bindM, assign, eval, ret. rewrite Hv.
    destruct (config !! "frames"); destruct (config !! "interval"); simpl;
      unfold get_shutter_speed;
      rewrite (index_outside shutter_values v Hout); simpl;
      eexists; repeat apply conj; reflexivity.
  - intros Hneg.
    assert (Hin : valid_index (v + len)) by (unfold valid_index; subst len; lia).
    destruct (get_shutter_speed_positive _ Hin) as (e & He & _).
    assert (Hwrap : get_shutter_speed v = Py.Ok (Py.Num e)).
    { rewrite <- He. unfold get_shutter_speed.
      rewrite (index_from_end shutter_values v Hneg). reflexivity. }
    unfold load_config, bindM, assign, eval, ret. rewrite Hv.
    destruct (config !! "frames"); destruct (config !! "interval"); simpl;
      rewrite Hwrap; simpl;
      eexists; exists e; repeat apply conj; try reflexivity; exact He.
Qed.

(** X7.  A shutter index read from the file is not checked.  An index
    >= len or < -len makes [load_config] raise [IndexError] with
    [shutter_index] already overwritten and [shutter_speed] left as it
    was; an index in [-len, -1] is accepted, and the exposure becomes
    that of the entry counted from the end of the table. *)
Theorem load_config_unchecked_shutter
    (config : gmap string Z) (self : Artemis) (v : Z) :
  let len := Z.of_nat (List.length shutter_values) in
  config !! "shutter" = Some v ->
  (v < - len \/ len <= v ->
   exists self',
     load_config (Json config) self = (Py.Raise Py.IndexError, self') /\
     shutter_index self' = v /\
     shutter_speed self' = shutter_speed self) /\
  (- len <= v < 0 ->
   exists self' e,
     load_config (Json config) self = (Py.Ok None, self') /\
     shutter_index self' = v /\
     get_shutter_speed (v + len) = Py.Ok (Py.Num e) /\
     shutter_speed self' = Py.Num e).
Proof.
  intros len. exact (load_config_unchecked_shutter_aux config self v).
Qed.

(** A file with shutter 99, and a file with shutter -1. *)
Lemma load_config_unchecked_shutter_witness :
  (exists self',
     load_config (Json {["shutter" := 99]}) scenario_A
     = (Py.Raise Py.IndexError, self') /\
     shutter_index self' = 99 /\
     shutter_speed self' = shutter_speed scenario_A) /\
  (exists self' e,
     load_config (Json {["shutter" := -1]}) scenario_A = (Py.Ok None, self') /\
     shutter_index self' = -1 /\
     get_shutter_speed (-1 + 34) = Py.Ok (Py.Num e) /\
     shutter_speed self' = Py.Num e).
Proof.
  split.
  - assert (H : ({["shutter" := 99]} : gmap string Z) !! "shutter" = Some 99)
      by (vm_compute; reflexivity).
    apply (proj1 (load_config_unchecked_shutter _ scenario_A 99 H)).
    right. simpl. lia.
  - assert (H : ({["shutter" := -1]} : gmap string Z) !! "shutter" = Some (-1))
      by (vm_compute; reflexivity).
    apply (proj2 (load_config_unchecked_shutter _ scenario_A (-1) H)).
    simpl. lia.
Defined.

(** [load_config] on a file whose values are in range. *)
Lemma load_config_in_range (f : file) (self : Artemis) :
  configuration_ok self -> file_ok f ->
  exists r self',
    load_config f self = (Py.Ok r, self') /\
    configuration_ok self' /\
    time_to_end self' = time_to_end self /\
    frame self' = frame self /\
    screen self' = screen self /\
    run self' = run self /\
    run_timelapse self' = run_timelapse self /\
    wait_for_key self' = wait_for_key self.
Proof.
  unfold configuration_ok, valid_index.
  intros (Hf & Hi & Hs) Hok.
  change (Z.of_nat (List.length shutter_values)) with 34 in *.
  destruct f as [| |config]; simpl.
  - exists None, self. repeat apply conj; try reflexivity; lia.
  - exists (Some false), self. repeat apply conj; try reflexivity; lia.
  - destruct Hok as (Kf & Ki & Ks).
    unfold bindM, assign, eval, ret.
    destruct (config !! "frames") as [vf|] eqn:Ef;
      destruct (config !! "interval") as [vi|] eqn:Ei;
      destruct (config !! "shutter") as [vs|] eqn:Es;
      simpl;
      try (destruct (get_shutter_speed_positive vs (Ks _ eq_refl))
             as (e & -> & _); simpl);
      try specialize (Kf _ eq_refl);
      try specialize (Ki _ eq_refl);
      try specialize (Ks _ eq_refl);
      unfold valid_index in *;
      change (Z.of_nat (List.length shutter_values)) with 34 in *;
      eexists; eexists; (split; [reflexivity|]); simpl;
      repeat apply conj; try reflexivity; lia.
Qed.

(** [calculate_intervals] writes [motor_pulse], [shutter_speed] and
    [sleep_time], and nothing else, whether or not it raises. *)
Lemma calculate_intervals_keeps (self : Artemis) :
  let self' := snd (calculate_intervals self) in
  frame self' = frame self /\
  frames self' = frames self /\
  interval self' = interval self /\
  time_to_end self' = time_to_end self /\
  shutter_index self' = shutter_index self /\
  screen self' = screen self /\
  run self' = run self /\
  run_timelapse self' = run_timelapse self /\
  wait_for_key self' = wait_for_key self /\
  shutter_pin self' = shutter_pin self /\
  motor_pin self' = motor_pin self.
Proof.
  unfold calculate_intervals, bindM, eval, assign. simpl.
  destruct (Py.div (inject_Z (time_to_end self)) (inject_Z (frames self)));
    simpl; [|repeat apply conj; reflexivity].
  destruct (get_shutter_speed (shutter_index self)) as [[e|l]|x];
    simpl; try (repeat apply conj; reflexivity).
  destruct (Py.gt a (inject_Z (interval self) - e - settle_time));
    simpl; repeat apply conj; reflexivity.
Qed.

(** X8.  The constructor, given arguments and a file in range, builds
    an object that satisfies the invariants of the configuration,
    stands at frame 1 on the main screen with its three flags up, and
    carries the plan of its configuration, which [check_settings]
    accepts. *)
Theorem init_builds_a_planned_object (sp mp fr iv si tte : Z) (f : file) :
  1 <= fr ->
  1 <= iv <= 30 ->
  valid_index si ->
  file_ok f ->
  exists self,
    init sp mp fr iv si tte f = Py.Ok self /\
    configuration_ok self /\
    calculate_intervals self = (Py.Ok tt, self) /\
    check_settings self = true /\
    frame self = 1 /\
    screen self = [Scr_main_screen] /\
    run self = true /\
    run_timelapse self = true /\
    wait_for_key self = true.
Proof.
  intros Hf Hi Hs Hfile. unfold init.
  destruct (get_shutter_speed_positive _ Hs) as (e0 & He0 & _).
  rewrite He0. cbn [Py.bind].
  match goal with
  | |- context [(load_config f;; calculate_intervals) ?s0] => set (self0 := s0)
  end.
  assert (Hok0 : configuration_ok self0).
  { unfold configuration_ok. simpl. repeat apply conj; try lia; apply Hs. }
  destruct (load_config_in_range f self0 Hok0 Hfile)
    as (r & s1 & Hload & Hok1 & Ht & Hfr & Hsc & Hrun & Hrt & Hw).
  unfold bindM. rewrite Hload.
  pose proof Hok1 as (Hf1 & Hi1 & Hs1).
  destruct (get_shutter_speed_positive _ Hs1) as (e & He & Hpos).
  assert (Hnz : frames s1 <> 0) by lia.
  destruct (calculate_intervals_plan s1 e Hnz He) as (s2 & Hs2 & _).
  pose proof (calculate_intervals_keeps s1) as Hkeep.
  rewrite Hs2 in *. cbn [snd] in Hkeep.
  destruct Hkeep as (K1 & K2 & K3 & K4 & K5 & K6 & K7 & K8 & K9 & _).
  exists s2. split; [reflexivity|].
  split.
  { unfold configuration_ok. rewrite K2, K3, K5. exact Hok1. }
  split; [exact (calculate_intervals_stable s1 s2 Hs2)|].
  split.
  { apply (check_settings_after_plan s1 s2 e Hnz He); [lra | exact Hs2]. }
  rewrite K1, K6, K7, K8, K9, Hfr, Hsc, Hrun, Hrt, Hw.
  repeat apply conj; reflexivity.
Qed.

(** The object [__main__] builds from a file that holds 9 frames. *)
Lemma init_builds_a_planned_object_witness :
  exists self,
    init 3 7 5 2 2 160 (Json {["frames" := 9]}) = Py.Ok self /\
    configuration_ok self /\
    calculate_intervals self = (Py.Ok tt, self) /\
    check_settings self = true /\
    frame self = 1 /\
    screen self = [Scr_main_screen] /\
    run self = true /\
    run_timelapse self = true /\
    wait_for_key self = true.
Proof.
  apply (init_builds_a_planned_object 3 7 5 2 2 160 (Json {["frames" := 9]})).
  - lia.
  - lia.
  - unfold valid_index. simpl. lia.
  - unfold file_ok. repeat apply conj; intros v Hv.
    + assert (v = 9) by (vm_compute in Hv; congruence). lia.
    + vm_compute in Hv. discriminate.
    + vm_compute in Hv. discriminate.
Defined.

(** X9.  What keeps the constructor from building an object: an index
    argument outside [-len, len), whatever the file holds; a file whose
    shutter index is outside [-len, len); a file whose frame count is
    0, when the indices are in the table. *)
Theorem init_failures (sp mp fr iv si tte : Z) (config : gmap string Z) (f : file) :
  let len := Z.of_nat (List.length shutter_values) in
  (si < - len \/ len <= si ->
   init sp mp fr iv si tte f = Py.Raise Py.IndexError) /\
  (valid_index si ->
   (exists v, config !! "shutter" = Some v /\ (v < - len \/ len <= v)) ->
   init sp mp fr iv si tte (Json config) = Py.Raise Py.IndexError) /\
  (valid_index si ->
   config !! "frames" = Some 0 ->
   (forall v, config !! "shutter" = Some v -> valid_index v) ->
   init sp mp fr iv si tte (Json config) = Py.Raise Py.ZeroDivisionError).
Proof.
  intros len. repeat apply conj.
  - intros Hout. unfold init, get_shutter_speed.
    rewrite (index_outside shutter_values si Hout). reflexivity.
  - intros Hs (v & Hv & Hout). unfold init.
    destruct (get_shutter_speed_positive _ Hs) as (e0 & -> & _).
    cbn [Py.bind]. unfold bindM.
    match goal with
    | |- context [load_config (Json config) ?s0] =>
        destruct (proj1 (load_config_unchecked_shutter_aux config s0 v Hv) Hout)
          as (s1 & -> & _)
    end.
    reflexivity.
  - intros Hs Hz Hsh. unfold init.
    destruct (get_shutter_speed_positive _ Hs) as (e0 & -> & _).
    cbn [Py.bind].
    unfold load_config, calculate_intervals, bindM, assign, eval, ret.
    rewrite Hz. simpl.
    destruct (config !! "interval"); destruct (config !! "shutter") as [v|];
      simpl;
      try (destruct (get_shutter_speed_positive v (Hsh v eq_refl))
             as (e & -> & _); simpl);
      reflexivity.
Qed.

(** Index 34 as argument; shutter 99 in the file; 0 frames in the
    file. *)
Lemma init_failures_witness :
  init 3 7 5 2 34 160 Missing = Py.Raise Py.IndexError /\
  init 3 7 5 2 2 160 (Json {["shutter" := 99]}) = Py.Raise Py.IndexError /\
  init 3 7 5 2 2 160 (Json {["frames" := 0]}) = Py.Raise Py.ZeroDivisionError.
Proof.
  repeat apply conj.
  - apply (proj1 (init_failures 3 7 5 2 34 160 ∅ Missing)).
    right. simpl. lia.
  - apply (proj1 (proj2 (init_failures 3 7 5 2 2 160 {["shutter" := 99]} Missing))).
    + unfold valid_index. simpl. lia.
    + exists 99. split; [vm_compute; reflexivity | right; simpl; lia].
  - apply (proj2 (proj2 (init_failures 3 7 5 2 2 160 {["frames" := 0]} Missing))).
    + unfold valid_index. simpl. lia.
    + vm_compute. reflexivity.
    + intros v Hv. vm_compute in Hv. discriminate.
Defined.

(** ** Complete runs *)

Lemma exec_app (a b : list thread) (c : config) :
  exec (a ++ b) c = exec b (exec a c).
Proof. unfold exec. apply fold_left_app. Qed.

Lemma exec_returned (n : nat) (r : Py.result bool) (self : Artemis)
    (tr : list event) :
  exec (repeat Runner n) (P_return r, self, tr) = (P_return r, self, tr).
Proof.
  induction n as [|n IH]; [reflexivity|].
  change (exec (repeat Runner (S n)) (P_return r, self, tr))
    with (exec (repeat Runner n) (runner_step (P_return r, self, tr))).
  cbn [runner_step step]. rewrite app_nil_r. exact IH.
Qed.

(** One statement of the runner, run alone. *)
Ltac run_statement :=
  lazymatch goal with
  | |- exec (repeat Runner (S ?n)) ?c = _ =>
      change (exec (repeat Runner (S n)) c)
        with (exec (repeat Runner n) (runner_step c));
      cbn [runner_step step frame frames set_frame set_run_timelapse
           set_wait_for_key set_screen run_timelapse shutter_speed
           motor_pulse sleep_time shutter_pin motor_pin Py.number]
  end.

(** [delayed_start(pause)] run alone: [pause] + 1 statements. *)
Lemma delayed_start_runs (pause : nat) (self : Artemis) (tr : list event) :
  exec (repeat Runner (S pause)) (P_delayed_start (Z.of_nat pause), self, tr)
  = (P_reset, self, tr ++ countdown_events pause).
Proof.
  revert tr. induction pause as [|k IH]; intros tr.
  - run_statement. cbn [exec fold_left repeat]. simpl.
    rewrite !app_nil_r. reflexivity.
  - run_statement.
    destruct (Z.gtb_spec (Z.of_nat (S k)) 0) as [_|Hle]; [|lia].
    replace (Z.of_nat (S k) - 1) with (Z.of_nat k) by lia.
    rewrite IH. cbn [countdown_events]. rewrite <- app_assoc. reflexivity.
Qed.

(** A frame that is not the last, run alone from the loop test: 13
    statements, an exposure and a carriage move. *)
Lemma frame_runs (self : Artemis) (e : Q) (tr : list event) :
  plan_ok self ->
  shutter_speed self = Py.Num e ->
  run_timelapse self = true ->
  1 <= frame self < frames self ->
  exec (repeat Runner 13) (P_while, self, tr)
  = (P_while, set_frame (frame self + 1) self,
     tr ++ exposure_events self e (frame self) ++ carriage_events self).
Proof.
  intros ((e' & He' & He0) & Hm & Hs & _) He Hrun Hf.
  rewrite He in He'. injection He' as <-.
  assert (Hlast : (frame self + 1 >? frames self) = false)
    by (destruct (Z.gtb_spec (frame self + 1) (frames self)); [lia | reflexivity]).
  assert (Hfirst : (frame self + 1 =? 1) = false)
    by (destruct (Z.eqb_spec (frame self + 1) 1); [lia | reflexivity]).
  do 13 (run_statement;
         rewrite ?Hrun, ?He, ?Hlast, ?Hfirst;
         cbn [Py.number];
         rewrite ?(sleeping_ok e _ _ He0), ?(sleeping_ok _ _ _ Hm),
           ?(sleeping_ok _ _ _ Hs),
           ?(sleeping_ok settle_time _ _ ltac:(unfold settle_time; lra))).
  cbn [exec fold_left repeat].
  unfold exposure_events, carriage_events.
  rewrite ?app_nil_r, <- ?app_assoc. reflexivity.
Qed.

(** The last frame, run alone from the loop test: 8 statements, an
    exposure and the return to the main screen. *)
Lemma last_frame_runs (self : Artemis) (e : Q) (tr : list event) :
  plan_ok self ->
  shutter_speed self = Py.Num e ->
  run_timelapse self = true ->
  frames self <= frame self ->
  exec (repeat Runner 8) (P_while, self, tr)
  = (P_return (Py.Ok true),
     set_screen [Scr_main_screen]
       (set_wait_for_key false
          (set_run_timelapse false (set_frame (frame self + 1) self))),
     tr ++ exposure_events self e (frame self)).
Proof.
  intros ((e' & He' & He0) & Hm & Hs & _) He Hrun Hf.
  rewrite He in He'. injection He' as <-.
  assert (Hlast : (frame self + 1 >? frames self) = true)
    by (destruct (Z.gtb_spec (frame self + 1) (frames self)); [reflexivity | lia]).
  do 8 (run_statement;
        rewrite ?Hrun, ?He, ?Hlast;
        cbn [Py.number];
        rewrite ?(sleeping_ok e _ _ He0)).
  cbn [exec fold_left repeat].
  unfold exposure_events.
  rewrite ?app_nil_r, <- ?app_assoc. reflexivity.
Qed.

Lemma plan_ok_set_frame (v : Z) (self : Artemis) :
  plan_ok self -> plan_ok (set_frame v self).
Proof. intros H. exact H. Qed.

Lemma frames_events_set_frame (v : Z) (self : Artemis) (e : Q) (f : Z) (k : nat) :
  frames_events (set_frame v self) e f k = frames_events self e f k.
Proof.
  revert f. induction k as [|k IH]; intros f; [reflexivity|].
  cbn [frames_events]. rewrite IH. reflexivity.
Qed.

(** The loop run alone, [k] frames from the end. *)
Lemma loop_runs (k : nat) (self : Artemis) (e : Q) (tr : list event) :
  plan_ok self ->
  shutter_speed self = Py.Num e ->
  run_timelapse self = true ->
  1 <= frame self ->
  Z.max (frame self) (frames self) = frame self + Z.of_nat k ->
  exec (repeat Runner (13 * k + 8)) (P_while, self, tr)
  = (P_return (Py.Ok true),
     set_screen [Scr_main_screen]
       (set_wait_for_key false
          (set_run_timelapse false
             (set_frame (frame self + Z.of_nat k + 1) self))),
     tr ++ frames_events self e (frame self) (S k)).
Proof.
  revert self tr. induction k as [|k IH]; intros self tr Hplan He Hrun Hf Hk.
  - change (13 * 0 + 8)%nat with 8%nat.
    rewrite (last_frame_runs self e tr Hplan He Hrun ltac:(lia)).
    replace (frame self + Z.of_nat 0 + 1) with (frame self + 1) by lia.
    cbn [frames_events]. rewrite app_nil_r. reflexivity.
  - replace (13 * S k + 8)%nat with (13 + (13 * k + 8))%nat by lia.
    rewrite repeat_app, exec_app.
    rewrite (frame_runs self e tr Hplan He Hrun ltac:(lia)).
    rewrite (IH (set_frame (frame self + 1) self) _ Hplan He Hrun);
      cbn [frame frames set_frame]; [|lia|lia].
    rewrite frames_events_set_frame.
    replace (frame self + 1 + Z.of_nat k + 1)
      with (frame self + Z.of_nat (S k) + 1) by lia.
    cbn [frames_events]. rewrite <- !app_assoc. reflexivity.
Qed.

Lemma frames_events_same (a b : Artemis) (e : Q) (f : Z) (k : nat) :
  frames a = frames b -> shutter_pin a = shutter_pin b ->
  motor_pin a = motor_pin b -> motor_pulse a = motor_pulse b ->
  sleep_time a = sleep_time b ->
  frames_events a e f k = frames_events b e f k.
Proof.
  intros H1 H2 H3 H4 H5. revert f.
  induction k as [|k IH]; intros f; [reflexivity|].
  cbn [frames_events]. rewrite IH.
  unfold exposure_events, carriage_events.
  rewrite H1, H2, H3, H4, H5. reflexivity.
Qed.

Lemma frames_made_positive (self : Artemis) :
  exists k, frames_made self = S k /\
            Z.max 1 (frames self) = 1 + Z.of_nat k.
Proof.
  unfold frames_made.
  exists (Z.to_nat (Z.max 1 (frames self)) - 1)%nat. split; lia.
Qed.

(** [shoot_timelapse] run alone on an accepted plan without negative
    durations. *)
Lemma shoot_timelapse_runs (self : Artemis) (e : Q) (fuel : nat) :
  plan_ok self ->
  shutter_speed self = Py.Num e ->
  check_settings self = true ->
  (13 * frames_made self + 4 <= fuel)%nat ->
  shoot_timelapse fuel self
  = (P_return (Py.Ok true), after_run self,
     countdown_events 5
     ++ [Show_timelapse 1 (frames self); Sleep (1 # 2)]
     ++ frames_events self e 1 (frames_made self)).
Proof.
  intros Hplan He Hcheck Hfuel.
  destruct (frames_made_positive self) as (k & Hn & Hmax).
  unfold shoot_timelapse, after_run. rewrite Hn in *.
  set (loop_fuel := (13 * k + 8)%nat).
  replace fuel
    with (1 + (6 + (2 + (loop_fuel + (fuel - (13 * S k + 4))))))%nat
    by (subst loop_fuel; lia).
  rewrite !repeat_app, !exec_app. subst loop_fuel.
  (* the test of the settings *)
  change (exec (repeat Runner 1) (P_check_settings, self, []))
    with (runner_step (P_check_settings, self, [])).
  cbn [runner_step step]. rewrite Hcheck. cbn [negb app].
  (* the countdown *)
  change (P_delayed_start 5) with (P_delayed_start (Z.of_nat 5)).
  rewrite (delayed_start_runs 5 self []).
  (* the reset and the first progress screen *)
  match goal with
  | |- context [exec (repeat Runner 2) ?c] =>
      change (exec (repeat Runner 2) c) with (runner_step (runner_step c))
  end.
  cbn [runner_step step].
  (* the frames *)
  set (self1 := set_run_timelapse true (set_frame 1 self)).
  rewrite (loop_runs k self1 e);
    [ | exact Hplan | exact He | reflexivity | simpl; lia | simpl; lia ].
  rewrite exec_returned.
  rewrite (frames_events_same self1 self e) by reflexivity.
  change (frame self1) with 1. change (frames self1) with (frames self).
  replace (Z.of_nat (S k) + 1) with (1 + Z.of_nat k + 1) by lia.
  reflexivity.
Qed.

Lemma duration_app (a b : list event) :
  (duration (a ++ b) == duration a + duration b)%Q.
Proof.
  induction a as [|ev a IH]; simpl; [ring|].
  destruct ev; try exact IH. rewrite IH. ring.
Qed.

Lemma inject_nat_succ (k : nat) :
  (inject_Z (Z.of_nat (S k)) == inject_Z (Z.of_nat k) + 1)%Q.
Proof.
  rewrite Nat2Z.inj_succ. unfold Z.succ. rewrite inject_Z_plus. reflexivity.
Qed.

Lemma duration_countdown (n : nat) :
  (duration (countdown_events n) == inject_Z (Z.of_nat n))%Q.
Proof.
  induction n as [|n IH]; [reflexivity|].
  cbn [countdown_events duration]. rewrite IH, inject_nat_succ. ring.
Qed.

Lemma duration_frames (self : Artemis) (e : Q) (f : Z) (k : nat) :
  (duration (frames_events self e f (S k))
   == inject_Z (Z.of_nat (S k)) * e
      + inject_Z (Z.of_nat k)
        * (motor_pulse self + settle_time + sleep_time self))%Q.
Proof.
  revert f. induction k as [|k IH]; intros f.
  - cbn. ring.
  - change (frames_events self e f (S (S k)))
      with (exposure_events self e f
            ++ carriage_events self ++ frames_events self e (f + 1) (S k)).
    rewrite !duration_app, IH, !inject_nat_succ.
    unfold exposure_events, carriage_events. cbn [duration]. ring.
Qed.

Lemma writes_countdown (pin : Z) (l : level) (n : nat) :
  writes pin l (countdown_events n) = 0%nat.
Proof. induction n as [|n IH]; [reflexivity|]. exact IH. Qed.

Lemma writes_frames (self : Artemis) (e : Q) (f : Z) (k : nat) :
  shutter_pin self <> motor_pin self ->
  exposures_started self (frames_events self e f (S k)) = S k /\
  exposures_completed self (frames_events self e f (S k)) = S k /\
  moves_started self (frames_events self e f (S k)) = k /\
  moves_completed self (frames_events self e f (S k)) = k.
Proof.
  intros Hpin. revert f. induction k as [|k IH]; intros f.
  - unfold exposures_started, exposures_completed, moves_started,
      moves_completed, writes.
    cbn [frames_events exposure_events app List.filter is_write level_eqb].
    rewrite ?Z.eqb_refl, ?(proj2 (Z.eqb_neq _ _) Hpin).
    cbn. repeat apply conj; reflexivity.
  - change (frames_events self e f (S (S k)))
      with (exposure_events self e f
            ++ carriage_events self ++ frames_events self e (f + 1) (S k)).
    destruct (IH (f + 1)) as (I1 & I2 & I3 & I4).
    unfold exposures_started, exposures_completed, moves_started,
      moves_completed in *.
    rewrite !writes_app, I1, I2, I3, I4.
    unfold writes, exposure_events, carriage_events.
    cbn [List.filter is_write level_eqb].
    rewrite ?Z.eqb_refl, ?(proj2 (Z.eqb_neq _ _) Hpin),
      ?(proj2 (Z.eqb_neq _ _) (not_eq_sym Hpin)).
    cbn. repeat apply conj; lia.
Qed.

(** X10.  An uncancelled run.  On a plan that [check_settings] accepts
    and that has no negative duration, [shoot_timelapse] run alone
    returns [True] within 13 n + 4 statements, where n is [frames], or
    1 if [frames] is less.  It shows the count 5 to 1, the first
    progress screen for half a second, then n frames: an exposure
    each, and between two exposures a carriage move, the settle time
    and the idle sleep.  It leaves [frame] at n + 1, [run_timelapse]
    and [wait_for_key] down and the main screen next. *)
Theorem uncancelled_run_trace (self : Artemis) (e : Q) (fuel : nat) :
  plan_ok self ->
  shutter_speed self = Py.Num e ->
  check_settings self = true ->
  (13 * frames_made self + 4 <= fuel)%nat ->
  shoot_timelapse fuel self
  = (P_return (Py.Ok true), after_run self,
     countdown_events 5
     ++ [Show_timelapse 1 (frames self); Sleep (1 # 2)]
     ++ frames_events self e 1 (frames_made self)).
Proof. exact (shoot_timelapse_runs self e fuel). Qed.

Lemma plan_A_ok : plan_ok plan_A.
Proof.
  unfold plan_ok. split; [exists 1%Q; split; [reflexivity | vm_compute; congruence]|].
  split; [vm_compute; congruence|].
  split; [vm_compute; congruence|].
  vm_compute. congruence.
Defined.

(** The 5 frames of Scenario A, in 69 statements. *)
Lemma uncancelled_run_trace_witness :
  shoot_timelapse 69 plan_A
  = (P_return (Py.Ok true), after_run plan_A,
     countdown_events 5
     ++ [Show_timelapse 1 (frames plan_A); Sleep (1 # 2)]
     ++ frames_events plan_A 1 1 (frames_made plan_A)).
Proof.
  apply (uncancelled_run_trace plan_A 1 69).
  - exact plan_A_ok.
  - reflexivity.
  - reflexivity.
  - vm_compute. lia.
Defined.

(** X11.  What an uncancelled run does in numbers: n exposures, each
    completed, n - 1 carriage moves, each completed, and
    5 + 1/2 + n e + (n - 1) (motor pulse + settle time + idle sleep)
    seconds of sleep, where e is the exposure and n the frames made. *)
Theorem uncancelled_run_counts (self : Artemis) (e : Q) (fuel : nat) :
  plan_ok self ->
  shutter_speed self = Py.Num e ->
  check_settings self = true ->
  (13 * frames_made self + 4 <= fuel)%nat ->
  let tr := snd (shoot_timelapse fuel self) in
  let n := frames_made self in
  exposures_started self tr = n /\
  exposures_completed self tr = n /\
  moves_started self tr = (n - 1)%nat /\
  moves_completed self tr = (n - 1)%nat /\
  (duration tr
   == (11 # 2) + inject_Z (Z.of_nat n) * e
      + inject_Z (Z.of_nat (n - 1))
        * (motor_pulse self + settle_time + sleep_time self))%Q.
Proof.
  intros Hplan He Hcheck Hfuel.
  rewrite (shoot_timelapse_runs self e fuel Hplan He Hcheck Hfuel).
  cbn [snd].
  destruct (frames_made_positive self) as (k & -> & _).
  replace (S k - 1)%nat with k by lia.
  destruct Hplan as (_ & _ & _ & Hpin).
  destruct (writes_frames self e 1 k Hpin) as (W1 & W2 & W3 & W4).
  unfold exposures_started, exposures_completed, moves_started,
    moves_completed in *.
  rewrite !writes_app, !writes_countdown, W1, W2, W3, W4.
  repeat apply conj; try reflexivity.
  rewrite !duration_app, duration_countdown, duration_frames.
  cbn [duration]. ring.
Qed.

(** The 5 frames of Scenario A. *)
Lemma uncancelled_run_counts_witness :
  let tr := snd (shoot_timelapse 69 plan_A) in
  let n := frames_made plan_A in
  exposures_started plan_A tr = n /\
  exposures_completed plan_A tr = n /\
  moves_started plan_A tr = (n - 1)%nat /\
  moves_completed plan_A tr = (n - 1)%nat /\
  (duration tr
   == (11 # 2) + inject_Z (Z.of_nat n) * 1
      + inject_Z (Z.of_nat (n - 1))
        * (motor_pulse plan_A + settle_time + sleep_time plan_A))%Q.
Proof.
  apply (uncancelled_run_counts plan_A 1 69).
  - exact plan_A_ok.
  - reflexivity.
  - reflexivity.
  - vm_compute. lia.
Defined.

(** The present keys of a file with two of the three. *)
Lemma load_config_reads_present_keys_witness :
  let self' :=
    snd (load_config (Json (<["frames" := 9]> {["interval" := 4]})) scenario_A) in
  frames self' = 9 /\ interval self' = 4 /\
  shutter_index self' = shutter_index scenario_A /\
  shutter_speed self' = shutter_speed scenario_A.
Proof.
  pose proof (load_config_reads_present_keys
                (<["frames" := 9]> {["interval" := 4]}) scenario_A)
    as (_ & _ & Hf & Hi & Hs & Hsp & _).
  repeat apply conj.
  - exact Hf.
  - exact Hi.
  - exact Hs.
  - apply Hsp. vm_compute. reflexivity.
Defined.







(** X14.  [delayed_start(pause)], for any [pause]: it shows the count
    from [pause] down to 1 with a second of sleep after each, and
    nothing when [pause] is 0 or less; it takes [pause] seconds, or
    none. *)
Theorem delayed_start_counts_down (pause : Z) (self : Artemis) (tr : list event) :
  exec (repeat Runner (S (Z.to_nat pause))) (P_delayed_start pause, self, tr)
  = (P_reset, self, tr ++ countdown_events (Z.to_nat pause)) /\
  (duration (countdown_events (Z.to_nat pause)) == inject_Z (Z.max 0 pause))%Q.
Proof.
  split.
  - destruct (Z.leb_spec pause 0) as [Hle|Hgt].
    + replace (Z.to_nat pause) with 0%nat by lia.
      run_statement.
      destruct (Z.gtb_spec pause 0); [lia|].
      cbn [exec fold_left repeat countdown_events]. reflexivity.
    + rewrite <- (Z2Nat.id pause) at 2 by lia.
      apply delayed_start_runs.
  - rewrite duration_countdown.
    replace (Z.of_nat (Z.to_nat pause)) with (Z.max 0 pause) by lia.
    reflexivity.
Qed.

(** ** The display and the menu: facts *)

Lemma get_key_poll (key : option string) (rest : list (option string)) (r : Rig) :
  wait_for_key (art r) = true ->
  get_key (key :: rest) r
  = let r1 := logged (Waited (1 # 10)) r in
    if no_key key then
      match active (display r) with
      | Some h => let '(v, r') := call h r1 in (of_result v, r', rest)
      | None => get_key rest r1
      end
    else
      match active (display r) with
      | None =>
          match key_handler (display r) !! default EmptyString key with
          | Some h =>
              let r2 :=
                with_display
                  (fun d => {| active := Some h;
                               key_handler := key_handler d |}) r1 in
              let '(v, r') := call h r2 in (of_result v, r', rest)
          | None => get_key rest r1
          end
      | Some _ =>
          get_key rest
            (with_display
               (fun d => {| active := None;
                            key_handler := key_handler d |}) r1)
      end.
Proof. intros H. cbn [get_key]. rewrite H. reflexivity. Qed.

(** X15.  While no handler is active, [get_key] passes over every poll
    that returns no key or a key that is not registered: it calls
    nothing, changes neither the object nor the display nor the file,
    and sleeps its tenth of a second for each. *)
Theorem get_key_passes_idle_polls
    (idle rest : list (option string)) (r : Rig) :
  wait_for_key (art r) = true ->
  active (display r) = None ->
  forallb (idle_poll (key_handler (display r))) idle = true ->
  get_key (idle ++ rest) r = get_key rest (polled (List.length idle) r).
Proof.
  revert r. induction idle as [|key idle IH]; intros r Hw Ha Hidle.
  - reflexivity.
  - cbn [forallb] in Hidle. apply andb_true_iff in Hidle.
    destruct Hidle as (Hkey & Hidle).
    cbn [app List.length polled].
    rewrite (get_key_poll key (idle ++ rest) r Hw), Ha. cbv zeta.
    unfold idle_poll in Hkey.
    destruct (no_key key).
    + apply IH; assumption.
    + cbn [orb] in Hkey.
      destruct (key_handler (display r) !! default EmptyString key);
        [discriminate|].
      apply IH; assumption.
Qed.

(** Key B, which no screen registers, between two silent polls. *)
Lemma get_key_passes_idle_polls_witness :
  get_key ([None; Some "B"; None] ++ [Some "A"])
    (snd (register_keys (Some interval_keys) (rig scenario_A Missing)))
  = get_key [Some "A"]
      (polled 3 (snd (register_keys (Some interval_keys) (rig scenario_A Missing)))).
Proof.
  apply (get_key_passes_idle_polls [None; Some "B"; None] [Some "A"]
           (snd (register_keys (Some interval_keys) (rig scenario_A Missing)))).
  - reflexivity.
  - reflexivity.
  - vm_compute. reflexivity.
Defined.

Lemma last_shown_polled (n : nat) (r : Rig) :
  last_shown (log (polled n r)) = last_shown (log r) /\
  art (polled n r) = art r /\
  display (polled n r) = display r /\
  config_file (polled n r) = config_file r.
Proof.
  revert r. induction n as [|n IH]; intros r; [repeat split|].
  cbn [polled]. destruct (IH (logged (Waited (1 # 10)) r)) as (H1 & H2 & H3 & H4).
  rewrite H1, H2, H3, H4. repeat split.
Qed.

(** An edit screen in general: [msg] is what it draws, [keys] what it
    registers, [P] what holds of the object and the file while the
    screen is on, [Q] what holds when a handler has returned a true
    value. *)
Section EditScreen.

Variable msg : Artemis -> Message.
Variable draw : Rig -> Py.result Rig.
Variable keys : gmap string Handler.
Variables P Q : Artemis -> file -> Prop.

Hypothesis draw_shows :
  forall r, P (art r) (config_file r) -> draw r = Py.Ok (show (msg (art r)) r).
Hypothesis P_waits : forall a f, P a f -> wait_for_key a = true.
Hypothesis handlers :
  forall k h r,
    keys !! k = Some h -> P (art r) (config_file r) ->
    exists v r',
      call h r = (Py.Ok v, r') /\
      display r' = display r /\ log r' = log r /\
      if truthy v then Q (art r') (config_file r')
      else P (art r') (config_file r').

Lemma get_key_on_screen (polls : list (option string)) (r : Rig) :
  P (art r) (config_file r) -> registered keys r ->
  match get_key polls r with
  | (Returned v, r', rest) =>
      (List.length rest < List.length polls)%nat /\
      registered keys r' /\
      last_shown (log r') = last_shown (log r) /\
      if truthy v then Q (art r') (config_file r')
      else P (art r') (config_file r')
  | (Starved, r', rest) =>
      rest = [] /\ registered keys r' /\
      P (art r') (config_file r') /\
      art r' = art r /\ config_file r' = config_file r /\
      last_shown (log r') = last_shown (log r)
  | _ => False
  end.
Proof.
  revert r. induction polls as [|key polls IH]; intros r HP Hreg.
  - cbn [get_key]. rewrite (P_waits _ _ HP). cbn [negb].
    repeat split; try assumption; apply Hreg.
  - rewrite (get_key_poll key polls r (P_waits _ _ HP)). cbv zeta.
    set (r1 := logged (Waited (1 # 10)) r).
    assert (Hlater : forall r2 : Rig,
               P (art r2) (config_file r2) -> registered keys r2 ->
               last_shown (log r2) = last_shown (log r) ->
               art r2 = art r -> config_file r2 = config_file r ->
               match get_key polls r2 with
               | (Returned v, r', rest) =>
                   (List.length rest < List.length (key :: polls))%nat /\
                   registered keys r' /\
                   last_shown (log r') = last_shown (log r) /\
                   if truthy v then Q (art r') (config_file r')
                   else P (art r') (config_file r')
               | (Starved, r', rest) =>
                   rest = [] /\ registered keys r' /\
                   P (art r') (config_file r') /\
                   art r' = art r /\ config_file r' = config_file r /\
                   last_shown (log r') = last_shown (log r)
               | _ => False
               end).
    { intros r2 HP2 Hreg2 Hlog2 Hart2 Hcf2.
      specialize (IH r2 HP2 Hreg2).
      destruct (get_key polls r2) as [[[v| | |] r'] rest]; try exact IH.
      - destruct IH as (Hlen & Hreg' & Hlast & Hv).
        cbn [List.length].
        split; [lia|]. split; [exact Hreg'|]. split; [congruence | exact Hv].
      - destruct IH as (Hrest & Hreg' & HP' & Hart & Hcf & Hlast).
        split; [exact Hrest|]. split; [exact Hreg'|]. split; [exact HP'|].
        repeat split; congruence. }
    assert (Hcalled : forall (h : Handler) (r2 : Rig),
               (exists k, keys !! k = Some h) ->
               P (art r2) (config_file r2) -> registered keys r2 ->
               last_shown (log r2) = last_shown (log r) ->
               match (let '(v, r') := call h r2 in (of_result v, r', polls)) with
               | (Returned v, r', rest) =>
                   (List.length rest < List.length (key :: polls))%nat /\
                   registered keys r' /\
                   last_shown (log r') = last_shown (log r) /\
                   if truthy v then Q (art r') (config_file r')
                   else P (art r') (config_file r')
               | (Starved, r', rest) =>
                   rest = [] /\ registered keys r' /\
                   P (art r') (config_file r') /\
                   art r' = art r /\ config_file r' = config_file r /\
                   last_shown (log r') = last_shown (log r)
               | _ => False
               end).
    { intros h r2 (k & Hkh) HP2 Hreg2 Hlog2.
      destruct (handlers k h r2 Hkh HP2) as (v & r' & -> & Hd & Hl & Hv).
      cbn [of_result List.length].
      split; [lia|]. split; [unfold registered; rewrite Hd; exact Hreg2|].
      split; [rewrite Hl; exact Hlog2 | exact Hv]. }
    assert (Hreg1 : registered keys r1) by exact Hreg.
    assert (Hoff : registered keys
                     (with_display
                        (fun d => {| active := None;
                                     key_handler := key_handler d |}) r1)).
    { split; [apply Hreg|]. cbn. intros h' Hh'. discriminate. }
    assert (Hon : forall h, (exists k, keys !! k = Some h) ->
               registered keys
                 (with_display
                    (fun d => {| active := Some h;
                                 key_handler := key_handler d |}) r1)).
    { intros h Hh. split; [apply Hreg|]. cbn. intros h' Hh'.
      injection Hh' as <-. exact Hh. }
    destruct Hreg as (Hk & Ha).
    destruct (no_key key).
    + destruct (active (display r)) as [h|] eqn:Hact.
      * apply Hcalled; try assumption; try reflexivity.
        apply Ha. reflexivity.
      * apply Hlater; try assumption; reflexivity.
    + destruct (active (display r)) as [h|] eqn:Hact.
      * apply Hlater; try assumption; reflexivity.
      * rewrite Hk.
        destruct (keys !! default EmptyString key) as [h|] eqn:Hkh.
        -- apply Hcalled; try assumption; try reflexivity.
           ++ exists (default EmptyString key). exact Hkh.
           ++ apply Hon. exists (default EmptyString key). exact Hkh.
        -- apply Hlater; try assumption; reflexivity.
Qed.

Lemma edit_loop_on_screen (fuel : nat) (polls : list (option string)) (r : Rig) :
  P (art r) (config_file r) -> registered keys r ->
  last_shown (log r) = Some (msg (art r)) ->
  (List.length polls < fuel)%nat ->
  match edit_loop draw fuel polls r with
  | (Returned _, r', _) => Q (art r') (config_file r')
  | (Starved, r', rest) =>
      rest = [] /\ P (art r') (config_file r') /\
      last_shown (log r') = Some (msg (art r'))
  | _ => False
  end.
Proof.
  revert polls r. induction fuel as [|fuel IH]; intros polls r HP Hreg Hlog Hfuel;
    [lia|].
  cbn [edit_loop].
  pose proof (get_key_on_screen polls r HP Hreg) as Hget.
  destruct (get_key polls r) as [[[v| | |] r'] rest]; try contradiction.
  - destruct Hget as (Hlen & Hreg' & Hlast & Hv).
    destruct (truthy v); [exact Hv|].
    rewrite (draw_shows r' Hv).
    apply IH; try assumption; try reflexivity. lia.
  - destruct Hget as (-> & _ & HP' & Hart & _ & Hlast).
    split; [reflexivity|]. split; [exact HP'|].
    rewrite Hlast, Hart. exact Hlog.
Qed.

Lemma edit_screen_on_screen (fuel : nat) (polls : list (option string)) (r : Rig) :
  P (art r) (config_file r) ->
  (List.length polls < fuel)%nat ->
  match edit_screen draw keys fuel polls r with
  | (Returned _, r', _) => Q (art r') (config_file r')
  | (Starved, r', rest) =>
      rest = [] /\ P (art r') (config_file r') /\
      last_shown (log r') = Some (msg (art r'))
  | _ => False
  end.
Proof.
  intros HP Hfuel. unfold edit_screen. rewrite (draw_shows r HP).
  apply edit_loop_on_screen; try exact HP; try reflexivity; [|exact Hfuel].
  split; [reflexivity|]. cbn. intros h Hh. discriminate.
Qed.

End EditScreen.

Lemma interval_keys_cases (k : string) (h : Handler) :
  interval_keys !! k = Some h ->
  h = H_set_edit_frames_screen \/ h = H_increase_interval \/ h = H_decrease_interval.
Proof.
  unfold interval_keys. intros H.
  repeat (apply lookup_insert_Some in H; destruct H as [[_ <-]|[_ H]]; [tauto|]).
  rewrite lookup_empty in H. discriminate.
Qed.

Lemma frames_keys_cases (k : string) (h : Handler) :
  frames_keys !! k = Some h ->
  h = H_set_edit_speed_screen \/ h = H_increase_frames \/ h = H_decrease_frames.
Proof.
  unfold frames_keys. intros H.
  repeat (apply lookup_insert_Some in H; destruct H as [[_ <-]|[_ H]]; [tauto|]).
  rewrite lookup_empty in H. discriminate.
Qed.

Lemma speed_keys_cases (k : string) (h : Handler) :
  speed_keys !! k = Some h ->
  h = H_set_main_screen \/ h = H_increase_speed \/ h = H_decrease_speed.
Proof.
  unfold speed_keys. intros H.
  repeat (apply lookup_insert_Some in H; destruct H as [[_ <-]|[_ H]]; [tauto|]).
  rewrite lookup_empty in H. discriminate.
Qed.

Lemma main_keys_cases (k : string) (h : Handler) :
  main_keys !! k = Some h ->
  h = H_set_edit_interval_screen \/ h = H_set_shoot_timelapse.
Proof.
  unfold main_keys. intros H.
  repeat (apply lookup_insert_Some in H; destruct H as [[_ <-]|[_ H]]; [tauto|]).
  rewrite lookup_empty in H. discriminate.
Qed.

Lemma set_interval_same (a : Artemis) : a = set_interval (interval a) a.
Proof. destruct a. reflexivity. Qed.

Lemma set_frames_same (a : Artemis) : a = set_frames (frames a) a.
Proof. destruct a. reflexivity. Qed.

Lemma set_shutter_index_same (a : Artemis) :
  a = set_shutter_index (shutter_index a) a.
Proof. destruct a. reflexivity. Qed.

Lemma edit_interval_on_screen (fuel : nat) (polls : list (option string)) (r : Rig) :
  1 <= interval (art r) <= 30 ->
  wait_for_key (art r) = true ->
  (List.length polls < fuel)%nat ->
  match edit_interval fuel polls r with
  | (Returned _, r', _) =>
      left_for Scr_edit_frames set_interval (fun v => 1 <= v <= 30)
        (art r) (art r') (config_file r')
  | (Starved, r', rest) =>
      rest = [] /\
      editing set_interval (fun v => 1 <= v <= 30)
        (art r) (config_file r) (art r') (config_file r') /\
      last_shown (log r') = Some (Msg_interval (interval (art r')))
  | _ => False
  end.
Proof.
  intros Hi Hw Hfuel.
  apply (edit_screen_on_screen (fun a => Msg_interval (interval a))
           interval_screen interval_keys
           (editing set_interval (fun v => 1 <= v <= 30) (art r) (config_file r))
           (left_for Scr_edit_frames set_interval (fun v => 1 <= v <= 30) (art r))).
  - reflexivity.
  - intros a f [(v & _ & ->) _]. exact Hw.
  - intros k h r2 Hk [(v & Hv & Ha) Hf].
    destruct (interval_keys_cases k h Hk) as [-> | [-> | ->]]; cbn [call].
    + exists (Some true), (with_art (set_screen [Scr_edit_frames]) (saved r2)).
      repeat apply conj; try reflexivity. cbn [truthy].
      exists v. repeat apply conj; [lia .. | |].
      * cbn. rewrite Ha. reflexivity.
      * reflexivity.
    + exists None, (with_art increase_interval r2).
      repeat apply conj; try reflexivity; [|exact Hf].
      cbn [art with_art]. rewrite Ha.
      unfold increase_interval. cbn [interval set_interval].
      destruct (Z.eqb_spec v 30); cbn [negb].
      * exists v. split; [lia | reflexivity].
      * exists (v + 1). split; [lia | reflexivity].
    + exists None, (with_art decrease_interval r2).
      repeat apply conj; try reflexivity; [|exact Hf].
      cbn [art with_art]. rewrite Ha.
      unfold decrease_interval. cbn [interval set_interval].
      destruct (Z.gtb_spec v 1).
      * exists (v - 1). split; [lia | reflexivity].
      * exists v. split; [lia | reflexivity].
  - split; [|reflexivity]. exists (interval (art r)).
    split; [exact Hi | apply set_interval_same].
  - exact Hfuel.
Qed.

Lemma edit_frames_on_screen (fuel : nat) (polls : list (option string)) (r : Rig) :
  1 <= frames (art r) ->
  wait_for_key (art r) = true ->
  (List.length polls < fuel)%nat ->
  match edit_frames fuel polls r with
  | (Returned _, r', _) =>
      left_for Scr_edit_speed set_frames (fun v => 1 <= v)
        (art r) (art r') (config_file r')
  | (Starved, r', rest) =>
      rest = [] /\
      editing set_frames (fun v => 1 <= v)
        (art r) (config_file r) (art r') (config_file r') /\
      last_shown (log r') = Some (Msg_frames (frames (art r')))
  | _ => False
  end.
Proof.
  intros Hi Hw Hfuel.
  apply (edit_screen_on_screen (fun a => Msg_frames (frames a))
           frames_screen frames_keys
           (editing set_frames (fun v => 1 <= v) (art r) (config_file r))
           (left_for Scr_edit_speed set_frames (fun v => 1 <= v) (art r))).
  - reflexivity.
  - intros a f [(v & _ & ->) _]. exact Hw.
  - intros k h r2 Hk [(v & Hv & Ha) Hf].
    destruct (frames_keys_cases k h Hk) as [-> | [-> | ->]]; cbn [call].
    + exists (Some true), (with_art (set_screen [Scr_edit_speed]) (saved r2)).
      repeat apply conj; try reflexivity. cbn [truthy].
      exists v. repeat apply conj; [lia | |].
      * cbn. rewrite Ha. reflexivity.
      * reflexivity.
    + exists None, (with_art increase_frames r2).
      repeat apply conj; try reflexivity; [|exact Hf].
      cbn [art with_art]. rewrite Ha.
      unfold increase_frames. cbn [frames set_frames].
      exists (v + 1). split; [lia | reflexivity].
    + exists None, (with_art decrease_frames r2).
      repeat apply conj; try reflexivity; [|exact Hf].
      cbn [art with_art]. rewrite Ha.
      unfold decrease_frames. cbn [frames set_frames].
      destruct (Z.eqb_spec v 1); cbn [negb].
      * exists v. split; [lia | reflexivity].
      * exists (v - 1). split; [lia | reflexivity].
  - split; [|reflexivity]. exists (frames (art r)).
    split; [exact Hi | apply set_frames_same].
  - exact Hfuel.
Qed.

Lemma index_label (i : Z) :
  valid_index i -> Py.index shutter_values i = Py.Ok (label_at i).
Proof.
  intros H. rewrite (index_in_range shutter_values i H).
  unfold label_at, valid_index in *.
  rewrite (nth_error_nth' shutter_values (Py.Num 0)) by lia.
  reflexivity.
Qed.

Lemma edit_speed_on_screen (fuel : nat) (polls : list (option string)) (r : Rig) :
  valid_index (shutter_index (art r)) ->
  frames (art r) <> 0 ->
  wait_for_key (art r) = true ->
  (List.length polls < fuel)%nat ->
  match edit_speed fuel polls r with
  | (Returned _, r', _) => left_for_main (art r) (art r') (config_file r')
  | (Starved, r', rest) =>
      rest = [] /\
      editing set_shutter_index valid_index
        (art r) (config_file r) (art r') (config_file r') /\
      last_shown (log r') = Some (Msg_speed (label_at (shutter_index (art r'))))
  | _ => False
  end.
Proof.
  intros Hi Hfr Hw Hfuel.
  apply (edit_screen_on_screen (fun a => Msg_speed (label_at (shutter_index a)))
           speed_screen speed_keys
           (editing set_shutter_index valid_index (art r) (config_file r))
           (left_for_main (art r))).
  - intros r2 [(v & Hv & Ha) _]. unfold speed_screen.
    rewrite Ha. cbn [shutter_index set_shutter_index].
    rewrite (index_label v Hv). reflexivity.
  - intros a f [(v & _ & ->) _]. exact Hw.
  - intros k h r2 Hk [(v & Hv & Ha) Hf].
    destruct (speed_keys_cases k h Hk) as [-> | [-> | ->]]; cbn [call].
    + destruct (get_shutter_speed_positive v Hv) as (e & He & _).
      destruct (calculate_intervals_plan (set_shutter_index v (art r)) e)
        as (plan & Hplan & _); [exact Hfr | exact He |].
      cbn [art saved]. rewrite Ha, Hplan.
      eexists _, _. split; [reflexivity|].
      repeat apply conj; try reflexivity. cbn [truthy].
      exists v, plan. split; [exact Hv|]. split; [exact Hplan|].
      split; [reflexivity|].
      pose proof (calculate_intervals_keeps (set_shutter_index v (art r))) as K.
      rewrite Hplan in K. cbn [snd] in K.
      destruct K as (_ & Kf & Ki & _ & Ks & _).
      cbn [config_file art with_art saved]. rewrite Ha.
      unfold save_config. cbn [frames interval shutter_index set_screen].
      rewrite Kf, Ki, Ks. reflexivity.
    + exists None, (with_art increase_speed r2).
      repeat apply conj; try reflexivity; [|exact Hf].
      cbn [art with_art]. rewrite Ha.
      unfold increase_speed. cbn [shutter_index set_shutter_index].
      unfold valid_index in *.
      destruct (Z.ltb_spec v (Z.of_nat (List.length shutter_values) - 1)).
      * exists (v + 1). split; [lia | reflexivity].
      * exists v. split; [lia | reflexivity].
    + exists None, (with_art decrease_speed r2).
      repeat apply conj; try reflexivity; [|exact Hf].
      cbn [art with_art]. rewrite Ha.
      unfold decrease_speed. cbn [shutter_index set_shutter_index].
      unfold valid_index in *.
      destruct (Z.gtb_spec v 0).
      * exists (v - 1). split; [lia | reflexivity].
      * exists v. split; [lia | reflexivity].
  - split; [|reflexivity]. exists (shutter_index (art r)).
    split; [exact Hi | apply set_shutter_index_same].
  - exact Hfuel.
Qed.

(** X16.  [edit_interval] under any keys, as long as [wait_for_key] is
    up and the interval it starts with is between 1 and 30: it neither
    raises nor loops without polling; of the object it changes the
    interval only, which stays between 1 and 30; it returns only
    through [set_edit_frames_screen], with the configuration saved and
    [edit_frames] as the next screen; and while it waits for a key the
    display shows the interval the object holds and the file is
    untouched. *)
Theorem edit_interval_any_keys
    (fuel : nat) (polls : list (option string)) (r : Rig) :
  1 <= interval (art r) <= 30 ->
  wait_for_key (art r) = true ->
  (List.length polls < fuel)%nat ->
  exists v, 1 <= v <= 30 /\
    match edit_interval fuel polls r with
    | (Returned _, r', _) =>
        art r' = set_screen [Scr_edit_frames] (set_interval v (art r)) /\
        config_file r' = save_config (art r')
    | (Starved, r', rest) =>
        rest = [] /\ art r' = set_interval v (art r) /\
        config_file r' = config_file r /\
        last_shown (log r') = Some (Msg_interval v)
    | _ => False
    end.
Proof.
  intros Hi Hw Hfuel.
  pose proof (edit_interval_on_screen fuel polls r Hi Hw Hfuel) as H.
  destruct (edit_interval fuel polls r) as [[[b|e| |] r'] rest].
  - destruct H as (v & Hv & Ha & Hf). exists v. auto.
  - contradiction.
  - destruct H as (-> & [(v & Hv & Ha) Hf] & Hshown).
    exists v. rewrite Ha in Hshown. auto.
  - contradiction.
Qed.

Lemma edit_interval_any_keys_witness :
  exists v, 1 <= v <= 30 /\
    match edit_interval 6 [Some "C"; None; None; Some "c"; Some "A"]
            (rig scenario_A Missing) with
    | (Returned _, r', _) =>
        art r' = set_screen [Scr_edit_frames] (set_interval v scenario_A) /\
        config_file r' = save_config (art r')
    | (Starved, r', rest) =>
        rest = [] /\ art r' = set_interval v scenario_A /\
        config_file r' = Missing /\
        last_shown (log r') = Some (Msg_interval v)
    | _ => False
    end.
Proof.
  apply (edit_interval_any_keys 6 [Some "C"; None; None; Some "c"; Some "A"]
           (rig scenario_A Missing)).
  - vm_compute. split; congruence.
  - reflexivity.
  - vm_compute. lia.
Defined.

(** X17.  [edit_frames] under any keys, as long as [wait_for_key] is
    up and the frame count it starts with is at least 1: it neither
    raises nor loops without polling; of the object it changes the
    frame count only, which stays at least 1; it returns only through
    [set_edit_speed_screen], with the configuration saved and
    [edit_speed] as the next screen; and while it waits for a key the
    display shows the frame count the object holds and the file is
    untouched. *)
Theorem edit_frames_any_keys
    (fuel : nat) (polls : list (option string)) (r : Rig) :
  1 <= frames (art r) ->
  wait_for_key (art r) = true ->
  (List.length polls < fuel)%nat ->
  exists v, 1 <= v /\
    match edit_frames fuel polls r with
    | (Returned _, r', _) =>
        art r' = set_screen [Scr_edit_speed] (set_frames v (art r)) /\
        config_file r' = save_config (art r')
    | (Starved, r', rest) =>
        rest = [] /\ art r' = set_frames v (art r) /\
        config_file r' = config_file r /\
        last_shown (log r') = Some (Msg_frames v)
    | _ => False
    end.
Proof.
  intros Hi Hw Hfuel.
  pose proof (edit_frames_on_screen fuel polls r Hi Hw Hfuel) as H.
  destruct (edit_frames fuel polls r) as [[[b|e| |] r'] rest].
  - destruct H as (v & Hv & Ha & Hf). exists v. auto.
  - contradiction.
  - destruct H as (-> & [(v & Hv & Ha) Hf] & Hshown).
    exists v. rewrite Ha in Hshown. auto.
  - contradiction.
Qed.

Lemma edit_frames_any_keys_witness :
  exists v, 1 <= v /\
    match edit_frames 5 [Some "D"; None; Some "x"; Some "A"]
            (rig scenario_A Missing) with
    | (Returned _, r', _) =>
        art r' = set_screen [Scr_edit_speed] (set_frames v scenario_A) /\
        config_file r' = save_config (art r')
    | (Starved, r', rest) =>
        rest = [] /\ art r' = set_frames v scenario_A /\
        config_file r' = Missing /\
        last_shown (log r') = Some (Msg_frames v)
    | _ => False
    end.
Proof.
  apply (edit_frames_any_keys 5 [Some "D"; None; Some "x"; Some "A"]
           (rig scenario_A Missing)).
  - vm_compute. congruence.
  - reflexivity.
  - vm_compute. lia.
Defined.

(** X18.  [edit_speed] under any keys, as long as [wait_for_key] is up,
    the index it starts with is one of the table and [frames] is not
    0: it neither raises nor loops without polling; while it is on it
    changes the index only, which stays in the table, the display
    shows the entry at the index and the file is untouched; it
    returns only through [set_main_screen], and then the configuration
    is saved, the plan is the one [calculate_intervals] computes for
    the index chosen, and [main_screen] is the next screen. *)
Theorem edit_speed_any_keys
    (fuel : nat) (polls : list (option string)) (r : Rig) :
  valid_index (shutter_index (art r)) ->
  frames (art r) <> 0 ->
  wait_for_key (art r) = true ->
  (List.length polls < fuel)%nat ->
  exists v, valid_index v /\
    match edit_speed fuel polls r with
    | (Returned _, r', _) =>
        exists plan,
          calculate_intervals (set_shutter_index v (art r)) = (Py.Ok tt, plan) /\
          art r' = set_screen [Scr_main_screen] plan /\
          config_file r' = save_config (art r')
    | (Starved, r', rest) =>
        rest = [] /\ art r' = set_shutter_index v (art r) /\
        config_file r' = config_file r /\
        last_shown (log r') = Some (Msg_speed (label_at v))
    | _ => False
    end.
Proof.
  intros Hi Hfr Hw Hfuel.
  pose proof (edit_speed_on_screen fuel polls r Hi Hfr Hw Hfuel) as H.
  destruct (edit_speed fuel polls r) as [[[b|e| |] r'] rest].
  - destruct H as (v & plan & Hv & Hplan & Ha & Hf).
    exists v. split; [exact Hv|]. exists plan. auto.
  - contradiction.
  - destruct H as (-> & [(v & Hv & Ha) Hf] & Hshown).
    exists v. rewrite Ha in Hshown. auto.
  - contradiction.
Qed.

Lemma edit_speed_any_keys_witness :
  exists v, valid_index v /\
    match edit_speed 5 [Some "C"; None; None; Some "A"]
            (rig scenario_A Missing) with
    | (Returned _, r', _) =>
        exists plan,
          calculate_intervals (set_shutter_index v scenario_A) = (Py.Ok tt, plan) /\
          art r' = set_screen [Scr_main_screen] plan /\
          config_file r' = save_config (art r')
    | (Starved, r', rest) =>
        rest = [] /\ art r' = set_shutter_index v scenario_A /\
        config_file r' = Missing /\
        last_shown (log r') = Some (Msg_speed (label_at v))
    | _ => False
    end.
Proof.
  apply (edit_speed_any_keys 5 [Some "C"; None; None; Some "A"]
           (rig scenario_A Missing)).
  - vm_compute. split; congruence.
  - vm_compute. congruence.
  - reflexivity.
  - vm_compute. lia.
Defined.

(** ** A key held down *)






(** ** The menu as a whole *)

Lemma calculate_intervals_set_screen (s : list Screen) (a : Artemis) :
  calculate_intervals (set_screen s a)
  = (fst (calculate_intervals a), set_screen s (snd (calculate_intervals a))).
Proof.
  unfold calculate_intervals, bindM, eval, assign.
  cbn [frames time_to_end shutter_index set_screen].
  destruct (Py.div _ _) as [pulse|e]; [|reflexivity].
  destruct (get_shutter_speed _) as [speed|e]; [|reflexivity].
  cbn [shutter_speed set_shutter_speed set_motor_pulse set_screen interval].
  destruct (Py.number speed) as [q|e] eqn:Hq; [|reflexivity].
  cbn [Py.bind motor_pulse set_shutter_speed set_motor_pulse set_screen].
  destruct (Py.gt pulse _);
    cbn [shutter_speed interval motor_pulse set_shutter_speed set_motor_pulse
         set_screen fst snd];
    rewrite Hq; reflexivity.
Qed.

Lemma planned_set_screen (s : list Screen) (a : Artemis) :
  planned a -> planned (set_screen s a).
Proof.
  unfold planned. intros H. rewrite calculate_intervals_set_screen, H. reflexivity.
Qed.

Lemma planned_check_settings (a : Artemis) :
  planned a -> valid_index (shutter_index a) -> check_settings a = true.
Proof.
  intros Hp Hi.
  destruct (calculate_intervals_inversion a a Hp) as (Hfr & _).
  destruct (get_shutter_speed_positive _ Hi) as (e & He & Hpos).
  apply (check_settings_after_plan a a e); try assumption.
  apply Qlt_le_weak. exact Hpos.
Qed.

Lemma main_screen_on_screen (polls : list (option string)) (r : Rig) :
  valid_index (shutter_index (art r)) ->
  wait_for_key (art r) = true ->
  match main_screen polls r with
  | (Returned _, r', rest) =>
      (List.length rest < List.length polls)%nat /\
      on_main (art r) (config_file r) (art r') (config_file r')
  | (Starved, r', rest) =>
      rest = [] /\ art r' = art r /\ config_file r' = config_file r /\
      last_shown (log r')
      = Some (Msg_main (interval (art r)) (frames (art r))
                (label_at (shutter_index (art r))))
  | _ => False
  end.
Proof.
  intros Hi Hw. unfold main_screen. rewrite (index_label _ Hi). cbv zeta.
  set (r2 := snd (register_keys _ _)).
  pose proof (get_key_on_screen main_keys
                (on_main (art r) (config_file r)) (fun _ _ => False)) as H.
  specialize (H ltac:(intros a f [[-> | [-> | ->]] _]; exact Hw)).
  assert (Hh : forall (k : string) (h : Handler) (r0 : Rig),
             main_keys !! k = Some h ->
             on_main (art r) (config_file r) (art r0) (config_file r0) ->
             exists (v : option bool) (r' : Rig),
               call h r0 = (Py.Ok v, r') /\
               display r' = display r0 /\ log r' = log r0 /\
               (if truthy v then False
                else on_main (art r) (config_file r) (art r') (config_file r'))).
  { intros k h r0 Hk [Ha Hf].
    destruct (main_keys_cases k h Hk) as [-> | ->]; cbn [call].
    - exists None, (with_art (set_screen [Scr_edit_interval]) r0).
      repeat apply conj; try reflexivity; [|exact Hf].
      right; left. cbn [art with_art].
      destruct Ha as [-> | [-> | ->]]; reflexivity.
    - exists None, (with_art set_shoot_timelapse r0).
      repeat apply conj; try reflexivity; [|exact Hf].
      right; right. cbn [art with_art].
      destruct Ha as [-> | [-> | ->]]; reflexivity. }
  specialize (H Hh polls r2).
  assert (HP : on_main (art r) (config_file r) (art r2) (config_file r2))
    by (split; [left|]; reflexivity).
  assert (Hreg : registered main_keys r2).
  { split; [reflexivity|]. cbn. intros h Hd. discriminate. }
  specialize (H HP Hreg).
  destruct (get_key polls r2) as [[[v|e| |] r'] rest]; try contradiction.
  - destruct H as (Hlen & _ & _ & Hv).
    destruct (truthy v); [contradiction|]. split; assumption.
  - destruct H as (-> & _ & _ & Ha & Hf & Hs).
    repeat apply conj; try assumption; try reflexivity.
Qed.

Lemma configuration_ok_set_screen (s : list Screen) (a : Artemis) :
  configuration_ok a -> configuration_ok (set_screen s a).
Proof. intros H. exact H. Qed.

Lemma menu_ok_intro (r : Rig) :
  run (art r) = true ->
  wait_for_key (art r) = true ->
  configuration_ok (art r) ->
  menu_screen (screen (art r)) \/ screen (art r) = run_screen ->
  (screen (art r) = [Scr_main_screen] \/ screen (art r) = run_screen ->
   planned (art r)) ->
  menu_ok r.
Proof. unfold menu_ok. auto. Qed.

Lemma menu_ok_after_main_screen (r r' : Rig) :
  menu_ok r -> screen (art r) = [Scr_main_screen] ->
  on_main (art r) (config_file r) (art r') (config_file r') ->
  menu_ok r'.
Proof.
  intros (Hrun & Hw & Hc & Hs & Hp) Hmain [Ha _].
  assert (Hplan : planned (art r)) by (apply Hp; left; exact Hmain).
  destruct Ha as [Ha | [Ha | Ha]]; apply menu_ok_intro; rewrite Ha;
    try assumption.
  - left. right. left. reflexivity.
  - cbn [screen set_screen]. intros [H | H]; discriminate.
  - right. reflexivity.
  - intros _. apply planned_set_screen. exact Hplan.
Qed.

Lemma menu_ok_edit (r r' : Rig) (s : list Screen) :
  menu_ok r ->
  menu_screen s -> s <> [Scr_main_screen] ->
  run (art r') = run (art r) ->
  wait_for_key (art r') = wait_for_key (art r) ->
  configuration_ok (art r') ->
  screen (art r') = s ->
  menu_ok r'.
Proof.
  intros (Hrun & Hw & Hc & Hs & Hp) Hmenu Hne Hr' Hw' Hc' Hs'.
  apply menu_ok_intro; rewrite ?Hr', ?Hw', ?Hs'; try assumption.
  - left. exact Hmenu.
  - intros [H | H]; [contradiction|].
    rewrite H in Hmenu. unfold run_screen in Hmenu.
    destruct Hmenu as [E | [E | [E | E]]]; discriminate.
Qed.

Lemma menu_ok_after_edit_speed (r r' : Rig) :
  menu_ok r ->
  left_for_main (art r) (art r') (config_file r') ->
  menu_ok r'.
Proof.
  intros (Hrun & Hw & (Hfr & Hiv & Hsi) & Hs & Hp) (v & plan & Hv & Hplan & Ha & _).
  pose proof (calculate_intervals_keeps (set_shutter_index v (art r))) as K.
  rewrite Hplan in K. cbn [snd] in K.
  destruct K as (_ & Kf & Ki & _ & Ks & _ & Kr & _ & Kw & _).
  apply menu_ok_intro; rewrite Ha; cbn [run wait_for_key screen set_screen].
  - rewrite Kr. exact Hrun.
  - rewrite Kw. exact Hw.
  - unfold configuration_ok. cbn [frames interval shutter_index set_screen].
    rewrite Kf, Ki, Ks. cbn [frames interval shutter_index set_shutter_index].
    split; [exact Hfr|]. split; [exact Hiv | exact Hv].
  - left. left. reflexivity.
  - intros _. apply planned_set_screen.
    exact (calculate_intervals_stable _ _ Hplan).
Qed.

(** X20.  The menu never arms a run that [shoot_timelapse] would
    refuse.  From a state in which the flags are up, the configuration
    is in range and the plan on the main screen is fresh, as [__init__]
    leaves it, [main] under any keys keeps that state: no screen
    raises, none loops without polling, [run] stays up; when it stands
    with the keys used up the screen waits for a key; and when it arms
    a run, the screen list is the runner and the watcher, the plan is
    fresh and [check_settings] accepts it. *)
Theorem menu_arms_only_accepted_plans
    (fuel : nat) (polls : list (option string)) (r : Rig) :
  menu_ok r ->
  match main fuel polls r with
  | (Armed, r', _) =>
      menu_ok r' /\ screen (art r') = run_screen /\
      planned (art r') /\ check_settings (art r') = true
  | (Waiting, r', rest) =>
      menu_ok r' /\ rest = [] /\ menu_screen (screen (art r'))
  | (Running, r', _) => menu_ok r'
  | (Looping, _, _) | (Off, _, _) => False
  end.
Proof.
  revert polls r. induction fuel as [|fuel IH]; intros polls r Hok;
    [exact Hok|].
  pose proof Hok as (Hrun & Hw & (Hfr & Hiv & Hsi) & Hs & Hp).
  cbn [main]. rewrite Hrun. cbn [negb].
  destruct Hs as [[Hs | [Hs | [Hs | Hs]]] | Hs]; rewrite Hs.
  - pose proof (main_screen_on_screen polls r Hsi Hw) as H.
    destruct (main_screen polls r) as [[[b|e| |] r'] rest]; try contradiction.
    + destruct H as (_ & Hon). apply IH.
      exact (menu_ok_after_main_screen r r' Hok Hs Hon).
    + destruct H as (-> & Ha & _).
      split; [|split; [reflexivity|]].
      * unfold menu_ok. rewrite Ha. exact Hok.
      * rewrite Ha, Hs. left. reflexivity.
  - pose proof (edit_interval_on_screen (S (List.length polls)) polls r
                  Hiv Hw ltac:(lia)) as H.
    destruct (edit_interval (S (List.length polls)) polls r)
      as [[[b|e| |] r'] rest]; try contradiction.
    + destruct H as (v & Hv & Ha & _). apply IH.
      apply (menu_ok_edit r r' [Scr_edit_frames] Hok);
        try (rewrite Ha; reflexivity).
      * right. right. left. reflexivity.
      * discriminate.
      * rewrite Ha. split; [exact Hfr|]. split; [exact Hv | exact Hsi].
    + destruct H as (-> & [(v & Hv & Ha) _] & _).
      assert (Hs' : screen (art r') = [Scr_edit_interval])
        by (rewrite Ha; exact Hs).
      split; [|split; [reflexivity|]].
      * apply (menu_ok_edit r r' [Scr_edit_interval] Hok);
          try (rewrite Ha; reflexivity); try exact Hs'.
        -- right. left. reflexivity.
        -- discriminate.
        -- rewrite Ha. split; [exact Hfr|]. split; [exact Hv | exact Hsi].
      * rewrite Hs'. right. left. reflexivity.
  - pose proof (edit_frames_on_screen (S (List.length polls)) polls r
                  Hfr Hw ltac:(lia)) as H.
    destruct (edit_frames (S (List.length polls)) polls r)
      as [[[b|e| |] r'] rest]; try contradiction.
    + destruct H as (v & Hv & Ha & _). apply IH.
      apply (menu_ok_edit r r' [Scr_edit_speed] Hok);
        try (rewrite Ha; reflexivity).
      * right. right. right. reflexivity.
      * discriminate.
      * rewrite Ha. split; [exact Hv|]. split; [exact Hiv | exact Hsi].
    + destruct H as (-> & [(v & Hv & Ha) _] & _).
      assert (Hs' : screen (art r') = [Scr_edit_frames])
        by (rewrite Ha; exact Hs).
      split; [|split; [reflexivity|]].
      * apply (menu_ok_edit r r' [Scr_edit_frames] Hok);
          try (rewrite Ha; reflexivity); try exact Hs'.
        -- right. right. left. reflexivity.
        -- discriminate.
        -- rewrite Ha. split; [exact Hv|]. split; [exact Hiv | exact Hsi].
      * rewrite Hs'. right. right. left. reflexivity.
  - assert (Hfr0 : frames (art r) <> 0) by lia.
    pose proof (edit_speed_on_screen (S (List.length polls)) polls r
                  Hsi Hfr0 Hw ltac:(lia)) as H.
    destruct (edit_speed (S (List.length polls)) polls r)
      as [[[b|e| |] r'] rest]; try contradiction.
    + apply IH. exact (menu_ok_after_edit_speed r r' Hok H).
    + destruct H as (-> & [(v & Hv & Ha) _] & _).
      assert (Hs' : screen (art r') = [Scr_edit_speed])
        by (rewrite Ha; exact Hs).
      split; [|split; [reflexivity|]].
      * apply (menu_ok_edit r r' [Scr_edit_speed] Hok);
          try (rewrite Ha; reflexivity); try exact Hs'.
        -- right. right. right. reflexivity.
        -- discriminate.
        -- rewrite Ha. split; [exact Hfr|]. split; [exact Hiv | exact Hv].
      * rewrite Hs'. right. right. right. reflexivity.
  - unfold run_screen. cbv iota.
    assert (Hplan : planned (art r)) by (apply Hp; right; exact Hs).
    split; [exact Hok|]. split; [exact Hs|]. split; [exact Hplan|].
    exact (planned_check_settings _ Hplan Hsi).
Qed.

Lemma menu_arms_only_accepted_plans_witness :
  match main 8 [Some "A"; Some "a"; Some "C"; Some "c"; Some "A"; Some "A";
                Some "A"; Some "C"] (rig plan_A Missing) with
  | (Armed, r', _) =>
      menu_ok r' /\ screen (art r') = run_screen /\
      planned (art r') /\ check_settings (art r') = true
  | (Waiting, r', rest) =>
      menu_ok r' /\ rest = [] /\ menu_screen (screen (art r'))
  | (Running, r', _) => menu_ok r'
  | (Looping, _, _) | (Off, _, _) => False
  end.
Proof.
  apply (menu_arms_only_accepted_plans 8
           [Some "A"; Some "a"; Some "C"; Some "c"; Some "A"; Some "A";
            Some "A"; Some "C"] (rig plan_A Missing)).
  unfold menu_ok. repeat apply conj.
  - reflexivity.
  - reflexivity.
  - vm_compute. congruence.
  - vm_compute. congruence.
  - vm_compute. congruence.
  - vm_compute. congruence.
  - vm_compute. reflexivity.
  - left. left. reflexivity.
  - intros _. vm_compute. reflexivity.
Defined.

(** ** The menu with [wait_for_key] down *)

Lemma get_key_down (polls : list (option string)) (r : Rig) :
  wait_for_key (art r) = false ->
  get_key polls r = (Returned None, r, polls).
Proof. intros H. destruct polls; cbn [get_key]; rewrite H; reflexivity. Qed.

Lemma only_shown_refl (r : Rig) : only_shown r r.
Proof. repeat split. Qed.

Lemma only_shown_trans (r1 r2 r3 : Rig) :
  only_shown r1 r2 -> only_shown r2 r3 -> only_shown r1 r3.
Proof.
  intros (A1 & F1 & W1) (A2 & F2 & W2). repeat split; congruence.
Qed.

Lemma edit_loop_down (draw : Rig -> Py.result Rig)
    (fuel : nat) (polls : list (option string)) (r : Rig) :
  (forall r0 r1, draw r0 = Py.Ok r1 -> only_shown r0 r1) ->
  wait_for_key (art r) = false ->
  exists o r',
    edit_loop draw fuel polls r = (o, r', polls) /\
    (o = Unfinished \/ exists e, o = Raised e) /\
    only_shown r r'.
Proof.
  intros Hdraw. revert r. induction fuel as [|fuel IH]; intros r Hw.
  - exists Unfinished, r. cbn [edit_loop].
    split; [reflexivity|]. split; [left; reflexivity | apply only_shown_refl].
  - cbn [edit_loop]. rewrite (get_key_down polls r Hw). cbn [truthy].
    destruct (draw r) as [r1|e] eqn:Hd.
    + pose proof (Hdraw r r1 Hd) as Hs.
      destruct (IH r1) as (o & r' & Hloop & Ho & Hs').
      { destruct Hs as (Ha & _). rewrite Ha. exact Hw. }
      exists o, r'. split; [exact Hloop|]. split; [exact Ho|].
      exact (only_shown_trans _ _ _ Hs Hs').
    + exists (Raised e), r. split; [reflexivity|].
      split; [right; exists e; reflexivity | apply only_shown_refl].
Qed.

Lemma edit_screen_down (draw : Rig -> Py.result Rig) (keys : gmap string Handler)
    (fuel : nat) (polls : list (option string)) (r : Rig) :
  (forall r0 r1, draw r0 = Py.Ok r1 -> only_shown r0 r1) ->
  wait_for_key (art r) = false ->
  exists o r',
    edit_screen draw keys fuel polls r = (o, r', polls) /\
    (o = Unfinished \/ exists e, o = Raised e) /\
    only_shown r r'.
Proof.
  intros Hdraw Hw. unfold edit_screen.
  destruct (draw r) as [r1|e] eqn:Hd.
  - pose proof (Hdraw r r1 Hd) as Hs.
    set (r2 := snd (register_keys (Some keys) r1)).
    assert (Hs2 : only_shown r r2) by exact Hs.
    destruct (edit_loop_down draw fuel polls r2 Hdraw) as (o & r' & Hloop & Ho & Hs').
    { destruct Hs2 as (Ha & _). rewrite Ha. exact Hw. }
    exists o, r'. split; [exact Hloop|]. split; [exact Ho|].
    exact (only_shown_trans _ _ _ Hs2 Hs').
  - exists (Raised e), r. split; [reflexivity|].
    split; [right; exists e; reflexivity | apply only_shown_refl].
Qed.

Lemma interval_screen_only_shows (r0 r1 : Rig) :
  interval_screen r0 = Py.Ok r1 -> only_shown r0 r1.
Proof. unfold interval_screen. intros [= <-]. repeat split. Qed.

Lemma frames_screen_only_shows (r0 r1 : Rig) :
  frames_screen r0 = Py.Ok r1 -> only_shown r0 r1.
Proof. unfold frames_screen. intros [= <-]. repeat split. Qed.

Lemma speed_screen_only_shows (r0 r1 : Rig) :
  speed_screen r0 = Py.Ok r1 -> only_shown r0 r1.
Proof.
  unfold speed_screen. destruct (Py.index _ _); cbn [Py.bind]; [|discriminate].
  intros [= <-]. repeat split.
Qed.

(** X21.  With [wait_for_key] down the menu is dead.  [get_key]
    returns at once, so whatever keys come in, [main] on a menu screen
    reads none of them, never sleeps and changes nothing but the
    display: the main screen is drawn over and over, an edit screen
    loops in itself.  Nothing in the menu sets [wait_for_key] again. *)
Theorem menu_is_dead_when_wait_for_key_is_down
    (fuel : nat) (polls : list (option string)) (r : Rig) :
  wait_for_key (art r) = false ->
  run (art r) = true ->
  menu_screen (screen (art r)) ->
  exists st r',
    main fuel polls r = (st, r', polls) /\
    (st = Running \/ st = Looping) /\
    only_shown r r'.
Proof.
  revert r. induction fuel as [|fuel IH]; intros r Hw Hrun Hs.
  - exists Running, r. split; [reflexivity|].
    split; [left; reflexivity | apply only_shown_refl].
  - assert (Hnext : forall r1, only_shown r r1 ->
              exists st r',
                main fuel polls r1 = (st, r', polls) /\
                (st = Running \/ st = Looping) /\ only_shown r r').
    { intros r1 Hs1. pose proof Hs1 as (Ha & _).
      destruct (IH r1) as (st & r' & Hm & Hst & Hs'); try (rewrite Ha; assumption).
      exists st, r'. split; [exact Hm|]. split; [exact Hst|].
      exact (only_shown_trans _ _ _ Hs1 Hs'). }
    assert (Hedit : forall draw keys,
              (forall r0 r1, draw r0 = Py.Ok r1 -> only_shown r0 r1) ->
              exists st r',
                match edit_screen draw keys (S (List.length polls)) polls r with
                | (Returned _, r', rest) => main fuel rest r'
                | (Raised _, r', rest) => main fuel rest r'
                | (Starved, r', rest) => (Waiting, r', rest)
                | (Unfinished, r', rest) => (Looping, r', rest)
                end = (st, r', polls) /\
                (st = Running \/ st = Looping) /\ only_shown r r').
    { intros draw keys Hdraw.
      destruct (edit_screen_down draw keys (S (List.length polls)) polls r Hdraw Hw)
        as (o & r1 & -> & [-> | (e & ->)] & Hs1).
      - exists Looping, r1. split; [reflexivity|].
        split; [right; reflexivity | exact Hs1].
      - apply Hnext. exact Hs1. }
    cbn [main]. rewrite Hrun. cbn [negb].
    destruct Hs as [Hs | [Hs | [Hs | Hs]]]; rewrite Hs.
    + unfold main_screen.
      destruct (Py.index shutter_values (shutter_index (art r))) as [label|e].
      * cbv zeta. rewrite get_key_down by exact Hw.
        apply Hnext. repeat split.
      * apply Hnext. apply only_shown_refl.
    + apply (Hedit interval_screen interval_keys interval_screen_only_shows).
    + apply (Hedit frames_screen frames_keys frames_screen_only_shows).
    + apply (Hedit speed_screen speed_keys speed_screen_only_shows).
Qed.

Lemma menu_is_dead_when_wait_for_key_is_down_witness :
  exists st r',
    main 4 [Some "A"; Some "C"] (rig (after_run plan_A) Missing)
    = (st, r', [Some "A"; Some "C"]) /\
    (st = Running \/ st = Looping) /\
    only_shown (rig (after_run plan_A) Missing) r'.
Proof.
  apply (menu_is_dead_when_wait_for_key_is_down 4 [Some "A"; Some "C"]
           (rig (after_run plan_A) Missing)).
  - reflexivity.
  - reflexivity.
  - left. reflexivity.
Defined.

(** ** The two threads of a run *)

Lemma turns_snoc (schedule : list turn) (t : turn) (s : Threads) :
  turns (schedule ++ [t]) s = take_turn (turns schedule s) t.
Proof. unfold turns. rewrite fold_left_app. reflexivity. Qed.

Lemma turns_app (a b : list turn) (s : Threads) :
  turns (a ++ b) s = turns b (turns a s).
Proof. unfold turns. apply fold_left_app. Qed.

Lemma exec_snoc (schedule : list thread) (t : thread) (c : config) :
  exec (schedule ++ [t]) c = move (exec schedule c) t.
Proof. unfold exec. rewrite fold_left_app. reflexivity. Qed.

Lemma runs_snoc (schedule : list turn) (t : turn) :
  runs (schedule ++ [t])
  = (runs schedule + match t with Run => 1 | Watch => 0 end)%nat.
Proof.
  unfold runs. rewrite List.filter_app, List.length_app.
  destruct t; reflexivity.
Qed.

Lemma watches_snoc (schedule : list turn) (t : turn) :
  watches (schedule ++ [t])
  = (watches schedule + match t with Watch => 1 | Run => 0 end)%nat.
Proof.
  unfold watches. rewrite List.filter_app, List.length_app.
  destruct t; reflexivity.
Qed.

Lemma runner_moves_snoc (schedule : list thread) (t : thread) :
  runner_moves (schedule ++ [t])
  = (runner_moves schedule + match t with Runner => 1 | _ => 0 end)%nat.
Proof.
  unfold runner_moves. rewrite List.filter_app, List.length_app.
  destruct t; reflexivity.
Qed.

Lemma watcher_writes_snoc (schedule : list thread) (t : thread) :
  watcher_writes (schedule ++ [t])
  = watcher_writes schedule ++ match t with Runner => [] | _ => [t] end.
Proof.
  unfold watcher_writes. rewrite List.filter_app. destruct t; reflexivity.
Qed.

Lemma runner_side_run (s : Threads) :
  runner_side (take_turn s Run) = runner_step (runner_side s).
Proof.
  unfold runner_side, take_turn, runner_step.
  destruct (step (runner s) (art (shared s))) as [[p' self'] evs]. reflexivity.
Qed.

Lemma cancel_keys_cases (k : string) (h : Handler) :
  cancel_keys !! k = Some h -> h = H_set_stop_timelapse.
Proof.
  unfold cancel_keys. intros H.
  apply lookup_insert_Some in H. destruct H as [[_ <-]|[_ H]]; [reflexivity|].
  rewrite lookup_empty in H. discriminate.
Qed.

(** A round of [get_key] in the watcher: it calls
    [set_stop_timelapse], or nothing. *)
Lemma watcher_get_key (polls : list (option string)) (r : Rig) :
  registered cancel_keys r ->
  match get_key polls r with
  | (Returned v, r', rest) =>
      registered cancel_keys r' /\ config_file r' = config_file r /\
      ((truthy v = true /\ art r' = set_stop_timelapse (art r)) \/
       (truthy v = false /\ art r' = art r))
  | (Starved, r', rest) =>
      registered cancel_keys r' /\ config_file r' = config_file r /\
      art r' = art r
  | _ => False
  end.
Proof.
  intros Hreg. destruct (wait_for_key (art r)) eqn:Hw.
  - pose proof (get_key_on_screen cancel_keys
                  (fun a f => a = art r /\ f = config_file r)
                  (fun a f => a = set_stop_timelapse (art r) /\ f = config_file r))
      as H.
    specialize (H ltac:(intros a f [-> _]; exact Hw)).
    assert (Hh : forall (k : string) (h : Handler) (r0 : Rig),
               cancel_keys !! k = Some h ->
               art r0 = art r /\ config_file r0 = config_file r ->
               exists (v : option bool) (r' : Rig),
                 call h r0 = (Py.Ok v, r') /\
                 display r' = display r0 /\ log r' = log r0 /\
                 (if truthy v
                  then art r' = set_stop_timelapse (art r) /\
                       config_file r' = config_file r
                  else art r' = art r /\ config_file r' = config_file r)).
    { intros k h r0 Hk [Ha Hf]. rewrite (cancel_keys_cases k h Hk). cbn [call].
      exists (Some true), (with_art set_stop_timelapse r0).
      repeat apply conj; try reflexivity; [|exact Hf].
      cbn [art with_art]. rewrite Ha. reflexivity. }
    specialize (H Hh polls r ltac:(split; reflexivity) Hreg).
    destruct (get_key polls r) as [[[v|e| |] r'] rest]; try contradiction.
    + destruct H as (_ & Hreg' & _ & Hv).
      split; [exact Hreg'|].
      destruct (truthy v); destruct Hv as [Ha Hf]; split; auto.
    + destruct H as (_ & Hreg' & _ & Ha & Hf & _). auto.
  - rewrite get_key_down by exact Hw.
    split; [exact Hreg|]. split; [reflexivity|]. right. split; reflexivity.
Qed.

(** X22.  The watcher writes the object the two threads share in two
    places only, and in each at most once: [run_timelapse] through
    [set_stop_timelapse] when it handles the cancel key, and then or
    when it finds [run_timelapse] down, [wait_for_key] at line 308 as
    its last write.  Under every schedule and whatever keys come in,
    the runner's side of [start_threads] is a run of [shoot_timelapse]
    with these writes between its statements. *)
Theorem watcher_writes_by_cancel_and_leave
    (schedule : list turn) (polls : list (option string)) (r : Rig) :
  exists moves : list thread,
    runner_side (start_threads schedule polls r)
    = exec moves (P_check_settings, art r, []) /\
    runner_moves moves = runs schedule /\
    (watcher_writes moves = [] \/ watcher_writes moves = [Cancel] \/
     watcher_writes moves = [Leave] \/ watcher_writes moves = [Cancel; Leave]).
Proof.
  unfold start_threads.
  enough (H : exists moves : list thread,
             runner_side (turns schedule (spawn polls r))
             = exec moves (P_check_settings, art r, []) /\
             runner_moves moves = runs schedule /\
             match watcher (turns schedule (spawn polls r)) with
             | W_register_keys => watcher_writes moves = []
             | W_while | W_get_key =>
                 watcher_writes moves = [] /\
                 registered cancel_keys (shared (turns schedule (spawn polls r)))
             | W_leave =>
                 watcher_writes moves = [] \/ watcher_writes moves = [Cancel]
             | W_return (Py.Ok _) =>
                 watcher_writes moves = [Leave] \/
                 watcher_writes moves = [Cancel; Leave]
             | W_return (Py.Raise _) => False
             end).
  { destruct H as (moves & Hside & Hruns & Hw). exists moves.
    split; [exact Hside|]. split; [exact Hruns|].
    destruct (watcher (turns schedule (spawn polls r))) as [| | | |[b|e]];
      tauto. }
  induction schedule as [|t schedule IH] using rev_ind.
  - exists []. repeat apply conj; reflexivity.
  - destruct IH as (moves & Hside & Hruns & Hw).
    rewrite turns_snoc. set (s := turns schedule (spawn polls r)) in *.
    destruct t.
    + exists (moves ++ [Runner]).
      rewrite runner_side_run, Hside, exec_snoc, runner_moves_snoc, runs_snoc,
        watcher_writes_snoc, app_nil_r, Hruns.
      split; [reflexivity|]. split; [reflexivity|].
      unfold take_turn.
      destruct (step (runner s) (art (shared s))) as [[p' self'] evs].
      cbn [watcher shared]. exact Hw.
    + unfold take_turn, watcher_step.
      destruct (watcher s) as [| | | |x] eqn:Hws.
      * exists moves. cbn [watcher shared runner_side runner art events].
        split; [exact Hside|]. split; [rewrite runs_snoc; lia|].
        split; [exact Hw|]. split; [reflexivity|].
        cbn. intros h Hd. discriminate.
      * destruct (run_timelapse (art (shared s))).
        -- exists moves. split; [exact Hside|].
           split; [rewrite runs_snoc; lia | exact Hw].
        -- exists moves. split; [exact Hside|].
           split; [rewrite runs_snoc; lia | left; apply Hw].
      * destruct Hw as [Hnone Hreg].
        pose proof (watcher_get_key (firstn 1 (unread s)) (shared s) Hreg) as Hg.
        destruct (get_key (firstn 1 (unread s)) (shared s))
          as [[[v|e| |] r'] rest]; try contradiction.
        -- destruct Hg as (Hreg' & _ & [[Hv Ha] | [Hv Ha]]); rewrite Hv.
           ++ exists (moves ++ [Cancel]).
              rewrite exec_snoc, runner_moves_snoc, runs_snoc,
                watcher_writes_snoc, Hnone, <- Hside, Hruns.
              unfold runner_side. cbn. rewrite Ha.
              split; [reflexivity|]. split; [reflexivity|]. right. reflexivity.
           ++ exists moves. unfold runner_side in *. cbn. rewrite Ha.
              split; [exact Hside|]. split; [rewrite runs_snoc; lia|].
              split; assumption.
        -- destruct Hg as (Hreg' & _ & Ha).
           exists moves. unfold runner_side in *. cbn. rewrite Ha.
           split; [exact Hside|]. split; [rewrite runs_snoc; lia|].
           split; assumption.
      * exists (moves ++ [Leave]).
        rewrite exec_snoc, runner_moves_snoc, runs_snoc, watcher_writes_snoc,
          <- Hside, Hruns.
        unfold runner_side. cbn.
        split; [reflexivity|]. split; [reflexivity|].
        destruct Hw as [-> | ->]; [left | right]; reflexivity.
      * exists moves. split; [exact Hside|].
        split; [rewrite runs_snoc; lia|]. cbn [watcher]. exact Hw.
Qed.

(** The runner neither reads [wait_for_key] nor writes it before it
    leaves its loop. *)
Lemma step_up_to_wait (p : point) (self : Artemis) (b : bool) :
  exists b',
    step p (set_wait_for_key b self)
    = (at_point (step p self),
       set_wait_for_key b' (snd (fst (step p self))),
       snd (step p self)).
Proof.
  unfold at_point.
  destruct p; cbn [step];
    change (check_settings (set_wait_for_key b self)) with (check_settings self);
    cbn [frame frames shutter_speed motor_pulse sleep_time shutter_pin
         motor_pin run_timelapse set_wait_for_key];
    unfold sleeping;
    repeat match goal with
           | |- context [if ?c then _ else _] => destruct c
           | |- context [match ?r with Py.Ok _ => _ | Py.Raise _ => _ end] =>
               destruct r
           end;
    cbn [fst snd];
    first [exists b; reflexivity | exists false; reflexivity].
Qed.

Lemma check_settings_step (p : point) (self : Artemis) :
  check_settings (snd (fst (step p self))) = check_settings self.
Proof.
  destruct (step_keeps_plan p self) as (_ & Hm & Hs & _ & _ & _ & Hi).
  unfold check_settings. rewrite Hm, Hs, Hi. reflexivity.
Qed.

Lemma step_flag_down (p : point) (self : Artemis) :
  run_timelapse self = true ->
  check_settings self = true ->
  run_timelapse (snd (fst (step p self))) = false ->
  past_exit (at_point (step p self)).
Proof.
  intros Hrun Hcheck. unfold at_point.
  destruct p; cbn [step]; rewrite ?Hcheck, ?Hrun; cbn [negb];
    unfold sleeping;
    repeat match goal with
           | |- context [if ?c then _ else _] => destruct c
           | |- context [match ?r with Py.Ok _ => _ | Py.Raise _ => _ end] =>
               destruct r
           end;
    cbn [fst snd run_timelapse set_run_timelapse set_frame set_wait_for_key
         set_screen past_exit];
    intros H; try exact I; congruence.
Qed.

Lemma step_past_exit (p : point) (self : Artemis) :
  past_exit p ->
  past_exit (at_point (step p self)) /\
  wait_for_key (snd (fst (step p self))) = wait_for_key self /\
  run_timelapse (snd (fst (step p self))) = run_timelapse self.
Proof.
  unfold at_point. destruct p; cbn [past_exit]; try contradiction; intros _;
    cbn; repeat split.
Qed.

Lemma exec_repeat_snoc (n : nat) (c : config) :
  exec (repeat Runner (S n)) c = runner_step (exec (repeat Runner n) c).
Proof.
  replace (repeat Runner (S n)) with (repeat Runner n ++ [Runner]).
  - rewrite exec_snoc. reflexivity.
  - change [Runner] with (repeat Runner 1). rewrite <- repeat_app.
    f_equal. lia.
Qed.

(** A round of [get_key] on a poll that is not of a registered key,
    with no handler active. *)
Lemma get_key_idle_round (keys : gmap string Handler)
    (polls : list (option string)) (r : Rig) :
  key_handler (display r) = keys ->
  active (display r) = None ->
  forallb (idle_poll keys) polls = true ->
  exists o r' rest,
    get_key (firstn 1 polls) r = (o, r', rest) /\
    ((o = Starved /\ rest = []) \/
     (o = Returned None /\ rest = firstn 1 polls /\
      wait_for_key (art r) = false)) /\
    art r' = art r /\ display r' = display r /\
    config_file r' = config_file r.
Proof.
  intros Hk Ha Hidle. destruct (wait_for_key (art r)) eqn:Hw.
  - destruct polls as [|key polls].
    + cbn [firstn get_key]. rewrite Hw. cbn [negb].
      exists Starved, r, []. repeat split. left. split; reflexivity.
    + change (firstn 1 (key :: polls)) with [key].
      rewrite (get_key_poll key [] r Hw). cbv zeta.
      rewrite Ha, Hk.
      cbn [forallb] in Hidle. apply andb_prop in Hidle. destruct Hidle as [Hkey _].
      unfold idle_poll in Hkey.
      assert (Hrest : forall r1 : Rig, wait_for_key (art r1) = true ->
                get_key [] r1 = (Starved, r1, []))
        by (intros r1 H1; cbn [get_key]; rewrite H1; reflexivity).
      destruct (no_key key).
      * rewrite Hrest by exact Hw.
        eexists _, _, _. split; [reflexivity|]. repeat split. left. split; reflexivity.
      * cbn [orb] in Hkey.
        destruct (keys !! default EmptyString key); [discriminate|].
        rewrite Hrest by exact Hw.
        eexists _, _, _. split; [reflexivity|]. repeat split. left. split; reflexivity.
  - rewrite get_key_down by exact Hw.
    exists (Returned None), r, (firstn 1 polls). repeat split.
    right. repeat split.
Qed.

Lemma forallb_skipn {A} (f : A -> bool) (n : nat) (l : list A) :
  forallb f l = true -> forallb f (skipn n l) = true.
Proof.
  revert l. induction n as [|n IH]; intros l H; [exact H|].
  destruct l as [|x l]; [exact H|].
  cbn [skipn]. apply IH. cbn [forallb] in H. apply andb_prop in H. apply H.
Qed.

Lemma calculate_intervals_set_frame (v : Z) (a : Artemis) :
  calculate_intervals (set_frame v a)
  = (fst (calculate_intervals a), set_frame v (snd (calculate_intervals a))).
Proof.
  unfold calculate_intervals, bindM, eval, assign.
  cbn [frames time_to_end shutter_index set_frame].
  destruct (Py.div _ _) as [pulse|e]; [|reflexivity].
  destruct (get_shutter_speed _) as [speed|e]; [|reflexivity].
  cbn [shutter_speed set_shutter_speed set_motor_pulse set_frame interval].
  destruct (Py.number speed) as [q|e] eqn:Hq; [|reflexivity].
  cbn [Py.bind motor_pulse set_shutter_speed set_motor_pulse set_frame].
  destruct (Py.gt pulse _);
    cbn [shutter_speed interval motor_pulse set_shutter_speed set_motor_pulse
         set_frame fst snd];
    rewrite Hq; reflexivity.
Qed.

Lemma calculate_intervals_set_run_timelapse (v : bool) (a : Artemis) :
  calculate_intervals (set_run_timelapse v a)
  = (fst (calculate_intervals a),
     set_run_timelapse v (snd (calculate_intervals a))).
Proof.
  unfold calculate_intervals, bindM, eval, assign.
  cbn [frames time_to_end shutter_index set_run_timelapse].
  destruct (Py.div _ _) as [pulse|e]; [|reflexivity].
  destruct (get_shutter_speed _) as [speed|e]; [|reflexivity].
  cbn [shutter_speed set_shutter_speed set_motor_pulse set_run_timelapse interval].
  destruct (Py.number speed) as [q|e] eqn:Hq; [|reflexivity].
  cbn [Py.bind motor_pulse set_shutter_speed set_motor_pulse set_run_timelapse].
  destruct (Py.gt pulse _);
    cbn [shutter_speed interval motor_pulse set_shutter_speed set_motor_pulse
         set_run_timelapse fst snd];
    rewrite Hq; reflexivity.
Qed.

Lemma calculate_intervals_set_wait_for_key (v : bool) (a : Artemis) :
  calculate_intervals (set_wait_for_key v a)
  = (fst (calculate_intervals a),
     set_wait_for_key v (snd (calculate_intervals a))).
Proof.
  unfold calculate_intervals, bindM, eval, assign.
  cbn [frames time_to_end shutter_index set_wait_for_key].
  destruct (Py.div _ _) as [pulse|e]; [|reflexivity].
  destruct (get_shutter_speed _) as [speed|e]; [|reflexivity].
  cbn [shutter_speed set_shutter_speed set_motor_pulse set_wait_for_key interval].
  destruct (Py.number speed) as [q|e] eqn:Hq; [|reflexivity].
  cbn [Py.bind motor_pulse set_shutter_speed set_motor_pulse set_wait_for_key].
  destruct (Py.gt pulse _);
    cbn [shutter_speed interval motor_pulse set_shutter_speed set_motor_pulse
         set_wait_for_key fst snd];
    rewrite Hq; reflexivity.
Qed.

(** A fresh plan stays fresh over a run: the run writes [frame], the
    two flags and the screen list only. *)
Lemma planned_after_run (a : Artemis) (b : bool) :
  planned a -> planned (set_wait_for_key b (after_run a)).
Proof.
  unfold planned, after_run. intros H.
  rewrite calculate_intervals_set_wait_for_key, calculate_intervals_set_screen,
    calculate_intervals_set_wait_for_key, calculate_intervals_set_run_timelapse,
    calculate_intervals_set_frame, H.
  reflexivity.
Qed.

Lemma watching_kept (schedule : list turn) (polls : list (option string)) (r : Rig) :
  check_settings (art r) = true ->
  run_timelapse (art r) = true ->
  forallb (idle_poll cancel_keys) polls = true ->
  watching (start_threads schedule polls r) /\
  runs_alone (P_check_settings, art r, []) (runs schedule)
    (start_threads schedule polls r).
Proof.
  intros Hcheck Hrun Hidle. unfold start_threads.
  induction schedule as [|t schedule IH] using rev_ind.
  - split.
    + unfold watching. cbn. rewrite Hrun. repeat apply conj; auto. discriminate.
    + unfold runs_alone. cbn. repeat apply conj; try reflexivity.
      exists (wait_for_key (art r)). destruct (art r). reflexivity.
  - destruct IH as [(Hpolls & Hw & Hdown & Hch) (Hp & Hev & b & Hart)].
    rewrite turns_snoc. set (s := turns schedule (spawn polls r)) in *.
    set (c := exec (repeat Runner (runs schedule)) (P_check_settings, art r, []))
      in *.
    destruct t.
    + (* the runner moves *)
      rewrite runs_snoc, Nat.add_1_r. unfold runs_alone. cbv zeta.
      rewrite exec_repeat_snoc. fold c.
      destruct c as [[p a] tr] eqn:Hc. cbn [at_point fst snd] in Hp, Hev, Hart.
      destruct (step_up_to_wait p a b) as (b' & Hstep).
      unfold take_turn. rewrite Hp, Hart, Hstep.
      unfold runner_step, at_point.
      destruct (step p a) as [[p1 a1] evs1] eqn:Hpa. cbn [fst snd].
      assert (Hstep' : step (runner s) (art (shared s))
                       = (p1, set_wait_for_key b' a1, evs1))
        by (rewrite Hp, Hart, Hstep; reflexivity).
      split.
      * unfold watching. cbn [unread watcher shared runner art with_art display].
        split; [exact Hpolls|].
        assert (Hpast : past_exit (runner s) ->
                  past_exit p1 /\
                  wait_for_key (set_wait_for_key b' a1)
                  = wait_for_key (art (shared s)) /\
                  run_timelapse (set_wait_for_key b' a1)
                  = run_timelapse (art (shared s))).
        { intros Hpe.
          pose proof (step_past_exit (runner s) (art (shared s)) Hpe) as H.
          rewrite Hstep' in H. exact H. }
        split; [|split].
        -- destruct (watcher s) as [| | | |[[|]|e]]; try exact Hw.
           ++ apply Hpast. exact Hw.
           ++ destruct Hw as [Hpe Hwait]. destruct (Hpast Hpe) as (H1 & H2 & _).
              split; [exact H1 | congruence].
        -- intros Hdown'.
           destruct (run_timelapse (art (shared s))) eqn:Hrt.
           ++ pose proof (step_flag_down (runner s) (art (shared s)) Hrt Hch) as H.
              rewrite Hstep' in H. apply H. exact Hdown'.
           ++ apply Hpast. apply Hdown. reflexivity.
        -- pose proof (check_settings_step (runner s) (art (shared s))) as H.
           rewrite Hstep' in H. cbn [fst snd] in H. rewrite H. exact Hch.
      * unfold runs_alone. cbn [runner events shared art with_art at_point fst snd].
        rewrite Hev. repeat apply conj; try reflexivity. exists b'. reflexivity.
    + (* the watcher moves *)
      rewrite runs_snoc, Nat.add_0_r. unfold runs_alone. cbv zeta. fold c.
      unfold take_turn, watcher_step.
      destruct (watcher s) as [| | | |x] eqn:Hws.
      * split.
        -- unfold watching. cbn. repeat apply conj; auto.
        -- unfold runs_alone. cbn. repeat apply conj; auto. exists b. exact Hart.
      * destruct (run_timelapse (art (shared s))) eqn:Hrt.
        -- split.
           ++ unfold watching. cbn. rewrite Hrt. repeat apply conj; auto; apply Hw.
           ++ unfold runs_alone. cbn. repeat apply conj; auto. exists b. exact Hart.
        -- split.
           ++ unfold watching. cbn. rewrite Hrt. repeat apply conj; auto.
           ++ unfold runs_alone. cbn. repeat apply conj; auto. exists b. exact Hart.
      * destruct Hw as [Hkeys Hact].
        destruct (get_key_idle_round cancel_keys (unread s) (shared s)
                    Hkeys Hact Hpolls)
          as (o & r' & rest & Hg & Ho & Ha & Hd & _).
        rewrite Hg.
        destruct Ho as [[-> ->] | (-> & -> & Hwait)]; cbn [truthy].
        -- split.
           ++ unfold watching. cbn. rewrite Ha, Hd.
              repeat apply conj; auto. apply forallb_skipn. exact Hpolls.
           ++ unfold runs_alone. cbn. rewrite Ha.
              repeat apply conj; auto. exists b. exact Hart.
        -- rewrite firstn_skipn. split.
           ++ unfold watching. cbn. rewrite Ha, Hd. repeat apply conj; auto.
           ++ cbn. rewrite Ha. repeat apply conj; auto. exists b. exact Hart.
      * split.
        -- unfold watching. cbn. repeat apply conj; auto.
        -- unfold runs_alone. cbn. repeat apply conj; auto.
           exists true. rewrite Hart. reflexivity.
      * split.
        -- unfold watching. cbn [unread watcher shared runner].
           split; [exact Hpolls|]. split; [exact Hw|].
           split; [exact Hdown | exact Hch].
        -- unfold runs_alone. cbn. repeat apply conj; auto. exists b. exact Hart.
Qed.

Lemma returned_alone (self : Artemis) (e : Q) (k : nat) (x : Py.result bool) :
  plan_ok self ->
  shutter_speed self = Py.Num e ->
  check_settings self = true ->
  at_point (shoot_timelapse k self) = P_return x ->
  shoot_timelapse k self
  = (P_return (Py.Ok true), after_run self,
     countdown_events 5
     ++ [Show_timelapse 1 (frames self); Sleep (1 # 2)]
     ++ frames_events self e 1 (frames_made self)).
Proof.
  intros Hplan He Hcheck Hret.
  rewrite <- (shoot_timelapse_runs self e (k + (13 * frames_made self + 4))
                Hplan He Hcheck ltac:(lia)).
  unfold shoot_timelapse in *. rewrite repeat_app, exec_app.
  destruct (exec (repeat Runner k) (P_check_settings, self, [])) as [[p a] tr].
  cbn [at_point fst] in Hret. subst p. rewrite exec_returned. reflexivity.
Qed.

(** X23.  The first run, when the cancel key does not come in.  From a
    state the menu has armed, with [run_timelapse] still up as
    [__init__] leaves it and a plan without negative durations: under
    every schedule of the two threads, once [start_threads] has joined
    them the runner has returned [True] after all its frames, the
    watcher has returned after it, and the menu is in order again on
    the main screen, [wait_for_key] up.  [run_timelapse] is left
    down.  The two writes with which the runner leaves its loop, lines
    288 and 289, are one statement here, as in [step]. *)
Theorem first_run_leaves_the_menu_in_order
    (schedule : list turn) (polls : list (option string)) (r : Rig) (e : Q) :
  menu_ok r ->
  screen (art r) = run_screen ->
  plan_ok (art r) ->
  shutter_speed (art r) = Py.Num e ->
  run_timelapse (art r) = true ->
  forallb (idle_poll cancel_keys) polls = true ->
  joined (start_threads schedule polls r) = true ->
  let s := start_threads schedule polls r in
  runner s = P_return (Py.Ok true) /\
  watcher s = W_return (Py.Ok true) /\
  events s
  = countdown_events 5
    ++ [Show_timelapse 1 (frames (art r)); Sleep (1 # 2)]
    ++ frames_events (art r) e 1 (frames_made (art r)) /\
  art (shared s) = set_wait_for_key true (after_run (art r)) /\
  menu_ok (shared s) /\
  screen (art (shared s)) = [Scr_main_screen] /\
  run_timelapse (art (shared s)) = false.
Proof.
  intros Hok Hscreen Hplan He Hrun Hidle Hjoined s.
  pose proof Hok as (Hr & Hw & (Hfr & Hiv & Hsi) & _ & Hp).
  assert (Hfresh : planned (art r)) by (apply Hp; right; exact Hscreen).
  pose proof (planned_check_settings _ Hfresh Hsi) as Hcheck.
  destruct (watching_kept schedule polls r Hcheck Hrun Hidle)
    as [(_ & Hwatch & _ & _) (Hpt & Hev & b & Hart)].
  fold s in Hwatch, Hpt, Hev, Hart.
  unfold joined in Hjoined. fold s in Hjoined.
  destruct (runner s) as [| | | | | | | | | | | | | | | | | | |x] eqn:Hrs;
    try discriminate.
  destruct (watcher s) as [| | | |y] eqn:Hws; try discriminate.
  destruct y as [[|]|]; try contradiction.
  destruct Hwatch as [_ Hwait].
  fold (shoot_timelapse (runs schedule) (art r)) in Hpt, Hev, Hart.
  pose proof (returned_alone (art r) e (runs schedule) x Hplan He Hcheck
                (eq_sym Hpt)) as Hval.
  rewrite Hval in Hpt, Hev, Hart.
  cbn [at_point fst snd] in Hpt, Hev, Hart.
  assert (Hb : b = true).
  { rewrite Hart in Hwait. exact Hwait. }
  subst b.
  split; [exact Hpt|]. split; [reflexivity|]. split; [exact Hev|].
  split; [exact Hart|].
  split; [|split; rewrite Hart; reflexivity].
  apply menu_ok_intro; rewrite Hart.
  - exact Hr.
  - reflexivity.
  - split; [exact Hfr|]. split; [exact Hiv | exact Hsi].
  - left. left. reflexivity.
  - intros _. apply planned_after_run. exact Hfresh.
Qed.

Lemma first_run_leaves_the_menu_in_order_witness :
  let s := start_threads
             ([Run; Watch; Watch; Watch; Watch] ++ repeat Run 68 ++ repeat Watch 4)
             [None; Some "x"] armed_A in
  runner s = P_return (Py.Ok true) /\
  watcher s = W_return (Py.Ok true) /\
  events s
  = countdown_events 5
    ++ [Show_timelapse 1 (frames (art armed_A)); Sleep (1 # 2)]
    ++ frames_events (art armed_A) 1 1 (frames_made (art armed_A)) /\
  art (shared s) = set_wait_for_key true (after_run (art armed_A)) /\
  menu_ok (shared s) /\
  screen (art (shared s)) = [Scr_main_screen] /\
  run_timelapse (art (shared s)) = false.
Proof.
  apply (first_run_leaves_the_menu_in_order
           ([Run; Watch; Watch; Watch; Watch] ++ repeat Run 68 ++ repeat Watch 4)
           [None; Some "x"] armed_A 1).
  - unfold menu_ok. repeat apply conj.
    + reflexivity.
    + reflexivity.
    + vm_compute. congruence.
    + vm_compute. congruence.
    + vm_compute. congruence.
    + vm_compute. congruence.
    + vm_compute. reflexivity.
    + right. reflexivity.
    + intros _. vm_compute. reflexivity.
  - reflexivity.
  - exact plan_A_ok.
  - reflexivity.
  - reflexivity.
  - vm_compute. reflexivity.
  - vm_compute. reflexivity.
Defined.

(** ** A later run *)

Lemma runner_step_check_settings (self : Artemis) (tr : list event) :
  check_settings self = true ->
  runner_step (P_check_settings, self, tr) = (P_delayed_start 5, self, tr ++ []).
Proof. intros H. unfold runner_step. cbn [step]. rewrite H. reflexivity. Qed.

Lemma runner_step_count (n : Z) (self : Artemis) (tr : list event) :
  0 < n ->
  runner_step (P_delayed_start n, self, tr)
  = (P_delayed_start (n - 1), self, tr ++ [Show_starting n; Sleep 1]).
Proof.
  intros H. unfold runner_step. cbn [step].
  destruct (Z.gtb_spec n 0); [reflexivity | lia].
Qed.

Lemma runner_step_counted (self : Artemis) (tr : list event) :
  runner_step (P_delayed_start 0, self, tr) = (P_reset, self, tr ++ []).
Proof. reflexivity. Qed.

(** The first seven statements of the runner, up to the end of the
    countdown, write nothing to the object. *)
Lemma countdown_keeps_object (self : Artemis) (k : nat) :
  check_settings self = true ->
  (k <= 7)%nat ->
  snd (fst (shoot_timelapse k self)) = self.
Proof.
  intros Hcheck Hk. unfold shoot_timelapse, exec.
  do 8 (destruct k as [|k];
        [cbn [repeat fold_left move];
         repeat first [ rewrite runner_step_check_settings by exact Hcheck
                      | rewrite runner_step_count by lia; simpl (_ - 1)
                      | rewrite runner_step_counted ];
         reflexivity|]).
  lia.
Qed.

Lemma set_wait_for_key_same (a : Artemis) (b : bool) :
  wait_for_key a = b -> set_wait_for_key b a = a.
Proof. intros <-. destruct a. reflexivity. Qed.

Lemma runs_app (a b : list turn) : runs (a ++ b) = (runs a + runs b)%nat.
Proof. unfold runs. rewrite List.filter_app, List.length_app. reflexivity. Qed.

Lemma countdown_phase (schedule : list turn) (polls : list (option string))
    (r : Rig) :
  check_settings (art r) = true ->
  run_timelapse (art r) = false ->
  wait_for_key (art r) = true ->
  (runs schedule <= 7)%nat ->
  let s := start_threads schedule polls r in
  runner_side s = shoot_timelapse (runs schedule) (art r) /\
  art (shared s) = art r /\
  unread s = polls /\
  watcher s = match watches schedule with
              | 0%nat => W_register_keys
              | 1%nat => W_while
              | 2%nat => W_leave
              | _ => W_return (Py.Ok true)
              end.
Proof.
  intros Hcheck Hrun Hwait. unfold start_threads.
  induction schedule as [|t schedule IH] using rev_ind; intros Hk.
  - repeat apply conj; reflexivity.
  - rewrite runs_snoc in Hk.
    destruct IH as (Hside & Hart & Hpolls & Hw); [lia|].
    rewrite turns_snoc. set (s := turns schedule (spawn polls r)) in *.
    cbv zeta. destruct t.
    + rewrite runner_side_run, Hside, runs_snoc, watches_snoc, Nat.add_1_r,
        Nat.add_0_r.
      unfold shoot_timelapse at 2. rewrite exec_repeat_snoc.
      fold (shoot_timelapse (runs schedule) (art r)).
      assert (Hside' : runner_side (take_turn s Run)
                       = runner_step (shoot_timelapse (runs schedule) (art r)))
        by (rewrite runner_side_run, Hside; reflexivity).
      assert (Hsame : snd (fst (runner_step (shoot_timelapse (runs schedule) (art r))))
                      = art r).
      { pose proof (countdown_keeps_object (art r) (S (runs schedule)) Hcheck
                      ltac:(lia)) as H.
        unfold shoot_timelapse in H at 1. rewrite exec_repeat_snoc in H. exact H. }
      split; [reflexivity|].
      split; [rewrite <- Hsame, <- Hside'; reflexivity|].
      unfold take_turn.
      destruct (step (runner s) (art (shared s))) as [[p' self'] evs].
      cbn [unread watcher]. split; assumption.
    + rewrite runs_snoc, watches_snoc, Nat.add_0_r, Nat.add_1_r.
      unfold take_turn, watcher_step. rewrite Hw, Hart.
      destruct (watches schedule) as [|[|[|n]]].
      * unfold runner_side in *. cbn.
        repeat apply conj; first [assumption | reflexivity].
      * rewrite Hrun. unfold runner_side in *. cbn.
        repeat apply conj; first [assumption | reflexivity].
      * unfold runner_side in *. cbn. rewrite Hart.
        unfold leave_stop_timelapse.
        rewrite (set_wait_for_key_same (art r) true Hwait).
        rewrite <- Hside, Hart.
        repeat apply conj; first [assumption | reflexivity].
      * unfold runner_side in *. cbn.
        repeat apply conj; first [assumption | reflexivity].
Qed.

Lemma watcher_returned (schedule : list turn) (s : Threads) (x : Py.result bool) :
  watcher s = W_return x ->
  watcher (turns schedule s) = W_return x /\
  unread (turns schedule s) = unread s /\
  runner_side (turns schedule s)
  = exec (repeat Runner (runs schedule)) (runner_side s).
Proof.
  intros Hw. induction schedule as [|t schedule IH] using rev_ind.
  - repeat apply conj; try reflexivity. exact Hw.
  - destruct IH as (Hw' & Hpolls & Hside).
    rewrite turns_snoc, runs_snoc. destruct t.
    + rewrite runner_side_run, Hside, Nat.add_1_r, exec_repeat_snoc.
      unfold take_turn.
      destruct (step (runner (turns schedule s)) (art (shared (turns schedule s))))
        as [[p' self'] evs].
      cbn [watcher unread]. repeat apply conj; try assumption; reflexivity.
    + rewrite Nat.add_0_r. unfold take_turn, watcher_step. rewrite Hw'.
      unfold runner_side in *. cbn.
      repeat apply conj; first [assumption | reflexivity].
Qed.

(** X24.  A later run cannot be cancelled, and it leaves the menu
    dead.  [run_timelapse] is down when a run has ended, and the
    runner sets it again only after its countdown.  If the watcher
    makes its first three statements while the runner is still counting
    down, it finds the flag down and returns at once: under every
    schedule that goes on from there and whatever keys come in, no key
    is read and the runner runs as if alone.  Once it has made all its
    statements it has returned [True] after every frame and has left
    [wait_for_key] down with the main screen next. *)
Theorem later_run_cannot_be_cancelled
    (first rest : list turn) (polls : list (option string)) (r : Rig) (e : Q) :
  plan_ok (art r) ->
  shutter_speed (art r) = Py.Num e ->
  check_settings (art r) = true ->
  run_timelapse (art r) = false ->
  wait_for_key (art r) = true ->
  (runs first <= 7)%nat ->
  (3 <= watches first)%nat ->
  let s := start_threads (first ++ rest) polls r in
  watcher s = W_return (Py.Ok true) /\
  unread s = polls /\
  runner_side s = shoot_timelapse (runs (first ++ rest)) (art r) /\
  ((13 * frames_made (art r) + 4 <= runs (first ++ rest))%nat ->
   runner s = P_return (Py.Ok true) /\
   events s
   = countdown_events 5
     ++ [Show_timelapse 1 (frames (art r)); Sleep (1 # 2)]
     ++ frames_events (art r) e 1 (frames_made (art r)) /\
   art (shared s) = after_run (art r) /\
   wait_for_key (art (shared s)) = false /\
   screen (art (shared s)) = [Scr_main_screen]).
Proof.
  intros Hplan He Hcheck Hrun Hwait Hk Hw s.
  destruct (countdown_phase first polls r Hcheck Hrun Hwait Hk)
    as (Hside & _ & Hpolls & Hwatcher).
  assert (Hret : watcher (start_threads first polls r) = W_return (Py.Ok true)).
  { rewrite Hwatcher. destruct (watches first) as [|[|[|n]]]; try lia. reflexivity. }
  destruct (watcher_returned rest (start_threads first polls r) _ Hret)
    as (Hret' & Hpolls' & Hside').
  assert (Hs : s = turns rest (start_threads first polls r))
    by (unfold s, start_threads; apply turns_app).
  assert (Halone : runner_side s = shoot_timelapse (runs (first ++ rest)) (art r)).
  { rewrite Hs, Hside', Hside, runs_app. unfold shoot_timelapse.
    rewrite repeat_app, exec_app. reflexivity. }
  split; [rewrite Hs; exact Hret'|].
  split; [rewrite Hs, Hpolls'; exact Hpolls|].
  split; [exact Halone|].
  intros Hfuel.
  rewrite (shoot_timelapse_runs (art r) e _ Hplan He Hcheck Hfuel) in Halone.
  unfold runner_side in Halone. injection Halone as Hp Ha Hev.
  rewrite Ha. repeat apply conj; try assumption; reflexivity.
Qed.

Lemma later_run_cannot_be_cancelled_witness :
  let s := start_threads
             ([Run; Watch; Run; Watch; Watch] ++ Watch :: repeat Run 67)
             [Some "C"; None] (with_art (set_run_timelapse false) armed_A) in
  watcher s = W_return (Py.Ok true) /\
  unread s = [Some "C"; None] /\
  runner_side s
  = shoot_timelapse
      (runs ([Run; Watch; Run; Watch; Watch] ++ Watch :: repeat Run 67))
      (art (with_art (set_run_timelapse false) armed_A)) /\
  ((13 * frames_made (art (with_art (set_run_timelapse false) armed_A)) + 4
    <= runs ([Run; Watch; Run; Watch; Watch] ++ Watch :: repeat Run 67))%nat ->
   runner s = P_return (Py.Ok true) /\
   events s
   = countdown_events 5
     ++ [Show_timelapse 1
           (frames (art (with_art (set_run_timelapse false) armed_A)));
         Sleep (1 # 2)]
     ++ frames_events (art (with_art (set_run_timelapse false) armed_A)) 1 1
          (frames_made (art (with_art (set_run_timelapse false) armed_A))) /\
   art (shared s)
   = after_run (art (with_art (set_run_timelapse false) armed_A)) /\
   wait_for_key (art (shared s)) = false /\
   screen (art (shared s)) = [Scr_main_screen]).
Proof.
  apply (later_run_cannot_be_cancelled
           [Run; Watch; Run; Watch; Watch] (Watch :: repeat Run 67)
           [Some "C"; None] (with_art (set_run_timelapse false) armed_A) 1).
  - exact plan_A_ok.
  - reflexivity.
  - vm_compute. reflexivity.
  - reflexivity.
  - reflexivity.
  - vm_compute. lia.
  - vm_compute. lia.
Defined.

(** ** The watcher alone *)

Lemma watch_returned (fuel : nat) (x : Py.result bool)
    (polls : list (option string)) (r : Rig) :
  watch fuel (W_return x) polls r = (W_return x, r, polls).
Proof. induction fuel as [|fuel IH]; [reflexivity|]. cbn [watch watcher_step]. exact IH. Qed.

Lemma watch_idle (idle rest : list (option string)) (fuel : nat) (r : Rig) :
  wait_for_key (art r) = true ->
  key_handler (display r) = cancel_keys ->
  active (display r) = None ->
  forallb (idle_poll cancel_keys) idle = true ->
  watch (List.length idle + fuel) W_get_key (idle ++ rest) r
  = watch fuel W_get_key rest (polled (List.length idle) r).
Proof.
  revert r. induction idle as [|key idle IH]; intros r Hw Hk Ha Hidle;
    [reflexivity|].
  cbn [forallb] in Hidle. apply andb_prop in Hidle. destruct Hidle as [Hkey Hidle].
  cbn [List.length Nat.add app watch watcher_step polled].
  change (firstn 1 (key :: idle ++ rest)) with [key].
  change (skipn 1 (key :: idle ++ rest)) with (idle ++ rest).
  rewrite (get_key_poll key [] r Hw). cbv zeta. rewrite Ha, Hk.
  assert (Hround : (if no_key key
                    then get_key [] (logged (Waited (1 # 10)) r)
                    else match cancel_keys !! default EmptyString key with
                         | Some h =>
                             let '(v, r') :=
                               call h
                                 (with_display
                                    (fun d => {| active := Some h;
                                                 key_handler := key_handler d |})
                                    (logged (Waited (1 # 10)) r)) in
                             (of_result v, r', [])
                         | None => get_key [] (logged (Waited (1 # 10)) r)
                         end)
                   = (Starved, logged (Waited (1 # 10)) r, [])).
  { unfold idle_poll in Hkey.
    assert (Hnone : get_key [] (logged (Waited (1 # 10)) r)
                    = (Starved, logged (Waited (1 # 10)) r, []))
      by (cbn [get_key]; cbn [art logged]; rewrite Hw; reflexivity).
    destruct (no_key key); [exact Hnone|]. cbn [orb] in Hkey.
    destruct (cancel_keys !! default EmptyString key); [discriminate | exact Hnone]. }
  rewrite Hround. apply IH; assumption.
Qed.

(** X25.  The cancel key.  [stop_timelapse] run alone with both flags
    up passes over the polls that bring no key or another key than C,
    a tenth of a second each; at the first poll that brings C it calls
    [set_stop_timelapse], leaves its loop and returns [True], with
    [run_timelapse] down, [wait_for_key] up and the polls after that
    one unread. *)
Theorem cancel_key_ends_the_watcher
    (idle rest : list (option string)) (fuel : nat) (r : Rig) :
  run_timelapse (art r) = true ->
  wait_for_key (art r) = true ->
  forallb (idle_poll cancel_keys) idle = true ->
  (List.length idle + 4 <= fuel)%nat ->
  exists r',
    stop_timelapse fuel (idle ++ Some "C" :: rest) r
    = (W_return (Py.Ok true), r', rest) /\
    art r' = set_wait_for_key true (set_stop_timelapse (art r)) /\
    config_file r' = config_file r /\
    waits (log r') = (waits (log r) + List.length idle + 1)%nat.
Proof.
  intros Hrun Hw Hidle Hfuel.
  replace fuel with (2 + (List.length idle + (2 + (fuel - List.length idle - 4))))%nat
    by lia.
  unfold stop_timelapse.
  cbn [Nat.add watch watcher_step]. 
  set (r1 := snd (register_keys (Some cancel_keys) r)).
  change (run_timelapse (art r1)) with (run_timelapse (art r)). rewrite Hrun.
  rewrite (watch_idle idle (Some "C" :: rest) _ r1 Hw eq_refl eq_refl Hidle).
  set (r2 := polled (List.length idle) r1).
  destruct (last_shown_polled (List.length idle) r1) as (_ & Ha2 & Hd2 & Hf2).
  fold r2 in Ha2, Hd2, Hf2.
  assert (Hw2 : wait_for_key (art r2) = true) by (rewrite Ha2; exact Hw).
  cbn [Nat.add watch watcher_step].
  change (firstn 1 (Some "C" :: rest)) with [Some "C"].
  change (skipn 1 (Some "C" :: rest)) with rest.
  rewrite (get_key_poll (Some "C") [] r2 Hw2). cbv zeta.
  change (no_key (Some "C")) with false. cbv iota.
  rewrite Hd2. change (active (display r1)) with (@None Handler). cbv iota.
  change (key_handler (display r1) !! default EmptyString (Some "C"))
    with (cancel_keys !! "C").
  assert (HC : cancel_keys !! "C" = Some H_set_stop_timelapse)
    by (vm_compute; reflexivity).
  rewrite HC. cbn [call of_result truthy app watcher_step].
  rewrite watch_returned.
  eexists. split; [reflexivity|].
  cbn [art config_file log with_art with_display logged leave_stop_timelapse].
  rewrite Ha2, Hf2. repeat apply conj; try reflexivity.
  cbn [waits]. clear. unfold r2.
  assert (Hwaits : forall n q, waits (log (polled n q)) = (waits (log q) + n)%nat).
  { induction n as [|n IH]; intros q; cbn [polled]; [lia|].
    rewrite IH. cbn [log logged waits]. lia. }
  rewrite Hwaits. unfold r1. cbn. lia.
Qed.

Lemma cancel_key_ends_the_watcher_witness :
  exists r',
    stop_timelapse 7 ([None; Some "A"; None] ++ Some "C" :: [None; Some "c"])
      armed_A
    = (W_return (Py.Ok true), r', [None; Some "c"]) /\
    art r' = set_wait_for_key true (set_stop_timelapse (art armed_A)) /\
    config_file r' = config_file armed_A /\
    waits (log r') = (waits (log armed_A) + List.length [None; Some "A"; None] + 1)%nat.
Proof.
  apply (cancel_key_ends_the_watcher [None; Some "A"; None] [None; Some "c"] 7
           armed_A).
  - reflexivity.
  - reflexivity.
  - vm_compute. reflexivity.
  - vm_compute. lia.
Defined.
